(** * dmas-bypass-status: relation tree and metadata backfill

    A shallow embedding of [src/dmass_bypass_status/main.py]: the
    [StepFunction] execution record with its enrichment methods, the
    relation-tree builder [build_relation_tree] and the backfill pass
    [append_metadata], followed by the properties established for them.

    Conventions of the embedding.
    - A Python exception is a value of [exn]; code that may raise returns a
      [result].  A method that mutates [self] before it raises returns the
      mutated record together with the outcome.
    - A Python [dict] is an association list in insertion order
      ([pydict]); [dict_set] overwrites in place or appends, as assignment
      to a subscript does.
    - The values produced by [json.loads] are the constructors of [json].
    - A Python [str] is the sequence of the bytes of its UTF-8 encoding
      (a lone surrogate, which [json.loads] can produce, as its three
      bytes); the code compares and cuts strings only at ASCII
      characters, where bytes and characters agree.
    - A [datetime] is a number of microseconds ([Z]); the difference of two
      of them is a [timedelta], also in microseconds.
    - The AWS clients and the library functions whose text is not part of
      the repository ([json.loads], [datetime.isoformat], [str] of a
      [timedelta], [bytes.decode]) are the fields of the classes [PyLib],
      [StepClient] and [S3Client].  A client call is a function of its
      arguments: one run sees one snapshot of the services. *)

From Stdlib Require Import String Ascii List ZArith Lia Bool DecimalString.
Import ListNotations.
Open Scope string_scope.

(** ** Exceptions and fallible computations *)

Inductive exn : Type :=
| KeyError
| IndexError
| TypeError
| AttributeError
| JSONDecodeError
| UnicodeDecodeError
| UnicodeEncodeError
| ParamValidationError
| ClientError (code : string).

Inductive result (A : Type) : Type :=
| Ok (a : A)
| Raise (e : exn).

Arguments Ok {A} a.
Arguments Raise {A} e.

Definition bind {A B : Type} (c : result A) (k : A -> result B) : result B :=
  match c with
  | Ok a => k a
  | Raise e => Raise e
  end.

Declare Scope result_scope.
Delimit Scope result_scope with result.
Notation "x <- c ;; k" := (bind c (fun x => k))
  (at level 61, c at next level, right associativity) : result_scope.
Open Scope result_scope.

(** A key that must be present: [d[k]] on a value that may be absent. *)
Definition require {A : Type} (o : option A) (e : exn) : result A :=
  match o with
  | Some a => Ok a
  | None => Raise e
  end.

(** ** Python dictionaries *)

Definition pydict (V : Type) : Type := list (string * V).

Fixpoint dict_get {V : Type} (k : string) (d : pydict V) : option V :=
  match d with
  | [] => None
  | (k', v) :: d' => if String.eqb k k' then Some v else dict_get k d'
  end.

(** [d[k] = v]: the value of an existing key is replaced where it stands,
    a new key goes to the end. *)
Fixpoint dict_set {V : Type} (k : string) (v : V) (d : pydict V) : pydict V :=
  match d with
  | [] => [(k, v)]
  | (k', v') :: d' =>
      if String.eqb k k' then (k', v) :: d' else (k', v') :: dict_set k v d'
  end.

(** [k in d] *)
Definition dict_mem {V : Type} (k : string) (d : pydict V) : bool :=
  match dict_get k d with
  | Some _ => true
  | None => false
  end.

Definition keys {V : Type} (d : pydict V) : list string := map fst d.

(** ** JSON values, as [json.loads] builds them *)

#[warnings="-register-all"]
Inductive json : Type :=
| JNull
| JBool (b : bool)
| JInt (n : Z)
| JFloat (lexeme : string)
| JStr (s : string)
| JList (l : list json)
| JDict (d : list (string * json)).

(** [j[k]] with a string key: only a dict can be subscripted by one. *)
Definition subscript (j : json) (k : string) : result json :=
  match j with
  | JDict d => require (dict_get k d) KeyError
  | _ => Raise TypeError
  end.

(** [k in j.keys()]: only a dict has [keys]. *)
Definition has_key (j : json) (k : string) : result bool :=
  match j with
  | JDict d => Ok (dict_mem k d)
  | _ => Raise AttributeError
  end.

(** [j == s] for a string literal [s]. *)
Definition eq_str (j : json) (s : string) : bool :=
  match j with
  | JStr t => String.eqb t s
  | _ => false
  end.

(** The operand of a string concatenation. *)
Definition str_operand (j : json) : result string :=
  match j with
  | JStr s => Ok s
  | _ => Raise TypeError
  end.

(** The receiver of a [str] method ([replace], [startswith]). *)
Definition str_receiver (j : json) : result string :=
  match j with
  | JStr s => Ok s
  | _ => Raise AttributeError
  end.

(** The number of characters of a string: the bytes that do not
    continue a character, those not of the form 10xxxxxx. *)
Fixpoint code_points (s : string) : nat :=
  match s with
  | EmptyString => O
  | String (Ascii _ _ _ _ _ _ b6 b7) s' =>
      if b7 && negb b6 then code_points s' else S (code_points s')
  end.

(** [len(j)] *)
Definition py_len (j : json) : result Z :=
  match j with
  | JList l => Ok (Z.of_nat (List.length l))
  | JDict d => Ok (Z.of_nat (List.length d))
  | JStr s => Ok (Z.of_nat (code_points s))
  | _ => Raise TypeError
  end.

(** ** Strings *)

(** [s.replace(old, new)] for a non-empty [old]: every occurrence, left
    to right, without overlap.  [skip] counts the characters of a match
    still to be dropped. *)
Fixpoint replace_from (old new : string) (skip : nat) (s : string) : string :=
  match s with
  | EmptyString => EmptyString
  | String c s' =>
      match skip with
      | S k => replace_from old new k s'
      | O =>
          if String.prefix old s
          then new ++ replace_from old new (String.length old - 1) s'
          else String c (replace_from old new O s')
      end
  end.

Definition str_replace (old new s : string) : string :=
  replace_from old new 0 s.

(** [s.startswith('/')] *)
Definition startswith_slash (s : string) : bool :=
  match s with
  | EmptyString => false
  | String c _ => Ascii.eqb c "/"
  end.

(** [s[1:]] *)
Definition drop_first (s : string) : string :=
  match s with
  | EmptyString => EmptyString
  | String _ s' => s'
  end.

(** [s.endswith(suf)] *)
Fixpoint endswith (s suf : string) : bool :=
  String.eqb s suf ||
  match s with
  | EmptyString => false
  | String _ s' => endswith s' suf
  end.

(** ** Responses of the workflow service *)

(** An entry of [list_executions] and the response of
    [describe_execution]: [stopDate] is absent while a run has not
    stopped; a listing entry carries neither [input] nor [output]. *)
Record execution : Type := {
  ex_name : string;
  ex_status : string;
  ex_startDate : Z;
  ex_stopDate : option Z;
  ex_executionArn : string;
  ex_input : option string;
  ex_output : option string
}.

Record succeeded_details : Type := { sd_output : option string }.

Record failed_details : Type := {
  fd_error : option string;
  fd_cause : option string
}.

(** An event of [get_execution_history]: its [type] and the detail
    payloads the code reads. *)
Record history_event : Type := {
  ev_type : string;
  lambdaFunctionSucceededEventDetails : option succeeded_details;
  lambdaFunctionFailedEventDetails : option failed_details
}.

(** ** Collaborators *)

Class PyLib : Type := {
  json_loads : string -> result json;
  isoformat : Z -> string;
  timedelta_str : Z -> string;
  utf8_decode : string -> result string
}.

Class StepClient : Type := {
  list_executions : string -> Z -> result (list execution);
  describe_execution : string -> result execution;
  get_execution_history : string -> result (list history_event)
}.

(** [get_object] receives as [Bucket] and [Key] whatever values the
    caller read; what it raises for one that is not a string is the
    client's affair. *)
Class S3Client : Type := {
  get_object : json -> json -> result string
}.

(** ** The execution record *)

(** The class attribute [child_execution_arn = []]: one list object owned
    by the class. *)
Definition class_child_execution_arn : list string := [].

(** The attributes of an instance.  [own_child_execution_arn] is the
    entry of the instance's own dictionary for [child_execution_arn];
    when it is absent, attribute lookup falls back to the class. *)
Record StepFunction : Type := {
  name : string;
  status : string;
  start_date_time : Z;
  stop_date_time : Z;
  execution_arn : string;
  own_child_execution_arn : option (list string);
  parent_execution_arn : string;
  execution_metadata : option execution;
  collection : json;
  provider : string;
  granule_id : json
}.

Definition with_parent_execution_arn (p : string) (s : StepFunction) :=
  {| name := name s; status := status s;
     start_date_time := start_date_time s;
     stop_date_time := stop_date_time s;
     execution_arn := execution_arn s;
     own_child_execution_arn := own_child_execution_arn s;
     parent_execution_arn := p;
     execution_metadata := execution_metadata s;
     collection := collection s; provider := provider s;
     granule_id := granule_id s |}.

Definition with_execution_metadata (m : execution) (s : StepFunction) :=
  {| name := name s; status := status s;
     start_date_time := start_date_time s;
     stop_date_time := stop_date_time s;
     execution_arn := execution_arn s;
     own_child_execution_arn := own_child_execution_arn s;
     parent_execution_arn := parent_execution_arn s;
     execution_metadata := Some m;
     collection := collection s; provider := provider s;
     granule_id := granule_id s |}.

Definition with_collection (c : json) (s : StepFunction) :=
  {| name := name s; status := status s;
     start_date_time := start_date_time s;
     stop_date_time := stop_date_time s;
     execution_arn := execution_arn s;
     own_child_execution_arn := own_child_execution_arn s;
     parent_execution_arn := parent_execution_arn s;
     execution_metadata := execution_metadata s;
     collection := c; provider := provider s;
     granule_id := granule_id s |}.

Definition with_provider (p : string) (s : StepFunction) :=
  {| name := name s; status := status s;
     start_date_time := start_date_time s;
     stop_date_time := stop_date_time s;
     execution_arn := execution_arn s;
     own_child_execution_arn := own_child_execution_arn s;
     parent_execution_arn := parent_execution_arn s;
     execution_metadata := execution_metadata s;
     collection := collection s; provider := p;
     granule_id := granule_id s |}.

Definition with_granule_id (g : json) (s : StepFunction) :=
  {| name := name s; status := status s;
     start_date_time := start_date_time s;
     stop_date_time := stop_date_time s;
     execution_arn := execution_arn s;
     own_child_execution_arn := own_child_execution_arn s;
     parent_execution_arn := parent_execution_arn s;
     execution_metadata := execution_metadata s;
     collection := collection s; provider := provider s;
     granule_id := g |}.

(** [StepFunction(step_execution)]: [stopDate] is read only for a
    SUCCEEDED entry; every attribute the constructor does not assign
    keeps its class default. *)
Definition new_StepFunction (step_execution : execution) : result StepFunction :=
  stop <- (if negb (String.eqb (ex_status step_execution) "SUCCEEDED")
           then Ok (ex_startDate step_execution)
           else require (ex_stopDate step_execution) KeyError) ;;
  Ok {| name := ex_name step_execution;
        status := ex_status step_execution;
        start_date_time := ex_startDate step_execution;
        stop_date_time := stop;
        execution_arn := ex_executionArn step_execution;
        own_child_execution_arn := None;
        parent_execution_arn := "N/A";
        execution_metadata := None;
        collection := JStr "N/A";
        provider := "N/A";
        granule_id := JStr "N/A" |}.

Definition get_duration (self : StepFunction) : Z :=
  stop_date_time self - start_date_time self.

Definition get_children (self : StepFunction) : list string :=
  match own_child_execution_arn self with
  | Some l => l
  | None => class_child_execution_arn
  end.

(** ** Methods of the execution record *)

Section Program.

Context `{PyLib} `{StepClient} `{S3Client}.

(** Configuration read from [config.ini] at start-up. *)
Variables (discover_arn ingest_arn : string) (discover_limit ingest_limit : Z).

(** [j[k1][k2]...] *)
Fixpoint subscripts (j : json) (ks : list string) : result json :=
  match ks with
  | [] => Ok j
  | k :: ks' => v <- subscript j k ;; subscripts v ks'
  end.

(** A method receives [self], may assign to its attributes and may
    raise; what it assigned before raising stays assigned. *)
Definition method : Type := StepFunction -> StepFunction * result unit.

(** A method call inside code that does not catch: an exception ends the
    caller too. *)
Definition call (m : method) (self : StepFunction) : result StepFunction :=
  let (self', r) := m self in
  _ <- r ;; Ok self'.

Definition info (self : StepFunction) : pydict json :=
  [ ("status", JStr (status self));
    ("start", JStr (isoformat (start_date_time self)));
    ("duration", JStr (timedelta_str (get_duration self)));
    ("parent", JStr (parent_execution_arn self));
    ("collection", collection self);
    ("provider", JStr (provider self));
    ("granuleId", granule_id self) ].

Definition set_execution_metadata (execution_metadata : execution) : method :=
  fun self => (with_execution_metadata execution_metadata self, Ok tt).

(** The value [set_parent] assigns: the [source] of the payload with
    [stateMachine] replaced by [execution], a colon, the
    [execution_name]. *)
Definition parent_of_input (meta : string) : result string :=
  j <- json_loads meta ;;
  json_dict <- subscripts j ["payload"; "meta"] ;;
  source <- subscript json_dict "source" ;;
  source <- str_receiver source ;;
  let arn := str_replace "stateMachine" "execution" source in
  execution_name <- subscript json_dict "execution_name" ;;
  execution_name <- str_operand execution_name ;;
  Ok ((arn ++ ":") ++ execution_name).

Definition set_parent : method := fun self =>
  match execution_metadata self with
  | None => (self, Ok tt)
  | Some md =>
      match (meta <- require (ex_input md) KeyError ;; parent_of_input meta) with
      | Ok p => (with_parent_execution_arn p self, Ok tt)
      | Raise e => (self, Raise e)
      end
  end.

Definition set_granule_id : method := fun self =>
  match execution_metadata self with
  | None => (self, Ok tt)
  | Some md =>
      if negb (String.eqb (ex_status md) "SUCCEEDED") then (self, Ok tt)
      else
        match (meta <- require (ex_output md) KeyError ;;
               j <- json_loads meta ;;
               output <- subscripts j ["meta"; "cnmResponse"] ;;
               subscript output "identifier") with
        | Ok g => (with_granule_id g self, Ok tt)
        | Raise e => (self, Raise e)
        end
  end.

(** The provider URI of [set_extra_metadata], operands checked in the
    order Python evaluates the sum. *)
Definition provider_uri (protocol host provider_path : json) : result string :=
  p <- str_operand protocol ;;
  h <- str_operand host ;;
  pp <- str_receiver provider_path ;;
  Ok ((((p ++ "://") ++ h) ++ "/") ++
      (if startswith_slash pp then drop_first pp else pp)).

Definition set_extra_metadata : method := fun self =>
  match execution_metadata self with
  | None => (self, Ok tt)
  | Some md =>
      match (lambda_input <- require (ex_input md) KeyError ;;
             lambda_input_dict <- json_loads lambda_input ;;
             c <- subscripts lambda_input_dict ["meta"; "collection"; "name"] ;;
             Ok (lambda_input_dict, c)) with
      | Raise e => (self, Raise e)
      | Ok (lambda_input_dict, c) =>
          let self := with_collection c self in
          match (protocol <- subscripts lambda_input_dict ["meta"; "provider"; "protocol"] ;;
                 host <- subscripts lambda_input_dict ["meta"; "provider"; "host"] ;;
                 provider_path <- subscripts lambda_input_dict
                                    ["meta"; "collection"; "meta"; "provider_path"] ;;
                 provider_uri protocol host provider_path) with
          | Raise e => (self, Raise e)
          | Ok uri => (with_provider uri self, Ok tt)
          end
      end
  end.

(** ** The relation tree *)

(** A root of the forest: [{'child': [...], 'info': {...}}].  A child is
    the one-entry dict [{execution_arn: info}], kept as the pair. *)
Record node : Type := {
  child : list (string * pydict json);
  node_info : pydict json
}.

Definition forest : Type := pydict node.

(** The first loop of [build_relation_tree]. *)
Definition add_discover (relation_map : forest) (a : StepFunction) : forest :=
  dict_set (execution_arn a) {| child := []; node_info := info a |} relation_map.

(** The body of the second loop. *)
Definition attach (relation_map : forest) (b : StepFunction) : result forest :=
  execution_input <- describe_execution (parent_execution_arn b) ;;
  b <- call (set_execution_metadata execution_input) b ;;
  b <- call set_extra_metadata b ;;
  match dict_get (parent_execution_arn b) relation_map with
  | Some parent =>
      Ok (dict_set (parent_execution_arn b)
            {| child := child parent ++ [(execution_arn b, info b)];
               node_info := node_info parent |} relation_map)
  | None =>
      temp_step <- new_StepFunction execution_input ;;
      temp_step <- call (set_execution_metadata execution_input) temp_step ;;
      temp_step <- call set_extra_metadata temp_step ;;
      Ok (dict_set (parent_execution_arn b)
            {| child := [(execution_arn b, info b)];
               node_info := info temp_step |} relation_map)
  end.

Fixpoint attach_all (ingest_list : list StepFunction) (relation_map : forest)
  : result forest :=
  match ingest_list with
  | [] => Ok relation_map
  | b :: rest => m <- attach relation_map b ;; attach_all rest m
  end.

Definition build_relation_tree (discover_list ingest_list : list StepFunction)
  : result forest :=
  attach_all ingest_list (fold_left add_discover discover_list []).

(** ** Listing and describing the executions *)

(** A loop that appends one result per element; the first exception ends
    it. *)
Fixpoint for_each {A B : Type} (f : A -> result B) (l : list A) : result (list B) :=
  match l with
  | [] => Ok []
  | x :: rest => y <- f x ;; ys <- for_each f rest ;; Ok (y :: ys)
  end.

Definition build_discover (execution : execution) : result StepFunction :=
  step <- new_StepFunction execution ;;
  execution_input <- describe_execution (execution_arn step) ;;
  step <- call (set_execution_metadata execution_input) step ;;
  call set_extra_metadata step.

Definition build_ingest (execution : execution) : result StepFunction :=
  step <- new_StepFunction execution ;;
  execution_input <- describe_execution (execution_arn step) ;;
  step <- call (set_execution_metadata execution_input) step ;;
  step <- call set_parent step ;;
  call set_granule_id step.

Definition build_discover_ingest_objects
  : result (list StepFunction * list StepFunction) :=
  list_discover_exec <- list_executions discover_arn discover_limit ;;
  list_exec <- list_executions ingest_arn ingest_limit ;;
  discovers <- for_each build_discover list_discover_exec ;;
  ingests <- for_each build_ingest list_exec ;;
  Ok (discovers, ingests).

(** ** The backfill pass *)

(** [source[d]['info'][k] = v] *)
Definition set_info (k : string) (v : json) (root : node) : node :=
  {| child := child root; node_info := dict_set k v (node_info root) |}.

(** The count read from the parsed output of a succeeded lambda. *)
Definition granule_count_of (output : json) : result json :=
  has_payload <- has_key output "payload" ;;
  if has_payload : bool then
    subscripts output
      ["meta"; "collection"; "meta"; "discover_tf"; "queued_granules_count"]
  else
    has_replace <- has_key output "replace" ;;
    if has_replace : bool then
      bucket <- subscripts output ["replace"; "Bucket"] ;;
      key <- subscripts output ["replace"; "Key"] ;;
      object_content <- get_object bucket key ;;
      text <- utf8_decode object_content ;;
      s3_download <- json_loads text ;;
      granules <- subscripts s3_download ["payload"; "granules"] ;;
      n <- py_len granules ;;
      Ok (JInt n)
    else Ok (JStr "REPLACE NOT FOUND").

(** The body of the loop of [append_metadata] once the history of the
    root has been fetched: the new value of [source[d]].  Every
    exception is raised before the first assignment. *)
Definition backfill (events : list history_event) (root : node) : result node :=
  st <- require (dict_get "status" (node_info root)) KeyError ;;
  if eq_str st "RUNNING" then
    Ok (set_info "queued_granules_count" (JStr "N/A") root)
  else
    ev <- require (nth_error events 4) IndexError ;;
    if String.eqb (ev_type ev) "LambdaFunctionSucceeded" then
      details <- require (lambdaFunctionSucceededEventDetails ev) KeyError ;;
      output <- require (sd_output details) KeyError ;;
      output <- json_loads output ;;
      granule_count <- granule_count_of output ;;
      Ok (set_info "queued_granules_count" granule_count root)
    else
      details <- require (lambdaFunctionFailedEventDetails ev) KeyError ;;
      output <- require (fd_cause details) KeyError ;;
      Ok (set_info "queued_granules_count" (JStr "N/A")
            (set_info "fail" (JStr output) root)).

(** One iteration: the history is fetched first, then the root is
    updated in the forest. *)
Definition backfill_at (d : string) (source : forest) : result forest :=
  response <- get_execution_history d ;;
  root <- require (dict_get d source) KeyError ;;
  root' <- backfill response root ;;
  Ok (dict_set d root' source).

(** The loop over the keys.  The forest is updated in place, so the
    caller sees the roots already updated when an exception ends the
    loop. *)
Fixpoint backfill_keys (ds : list string) (source : forest) : forest * result unit :=
  match ds with
  | [] => (source, Ok tt)
  | d :: rest =>
      match backfill_at d source with
      | Ok source' => backfill_keys rest source'
      | Raise e => (source, Raise e)
      end
  end.

(** [append_metadata] on a forest held in memory: the forest as the loop
    left it, and how the loop ended. *)
Definition append_metadata_run (source : forest) : forest * result unit :=
  backfill_keys (keys source) source.

Definition append_metadata (source : forest) : result forest :=
  let (source', r) := append_metadata_run source in
  _ <- r ;; Ok source'.

(** ** Sequences of enrichment operations *)

Inductive enrichment : Type :=
| SetExecutionMetadata (md : execution)
| SetParent
| SetGranuleId
| SetExtraMetadata.

Definition enrich (o : enrichment) : method :=
  match o with
  | SetExecutionMetadata md => set_execution_metadata md
  | SetParent => set_parent
  | SetGranuleId => set_granule_id
  | SetExtraMetadata => set_extra_metadata
  end.

(** The record after a sequence of calls, each one made whether or not
    the one before it raised. *)
Fixpoint enrich_all (os : list enrichment) (self : StepFunction) : StepFunction :=
  match os with
  | [] => self
  | o :: rest => enrich_all rest (fst (enrich o self))
  end.

(** ** Vocabulary of the properties *)

(** What no enrichment touches. *)
Definition same_identity (a b : StepFunction) : Prop :=
  name b = name a /\ status b = status a /\
  start_date_time b = start_date_time a /\
  stop_date_time b = stop_date_time a /\
  execution_arn b = execution_arn a /\
  own_child_execution_arn b = own_child_execution_arn a.

(** The children recorded under a key of the forest. *)
Definition children_of (k : string) (relation_map : forest)
  : list (string * pydict json) :=
  match dict_get k relation_map with
  | Some root => child root
  | None => []
  end.

(** The ingestion records whose parent reference is [k], in the order
    of the list. *)
Definition spawned_by (k : string) (ingest_list : list StepFunction)
  : list StepFunction :=
  filter (fun b => String.eqb (parent_execution_arn b) k) ingest_list.

(** [i] is the info of the record manufactured for the unlisted parent
    [p]: built from the description of [p] and given its descriptive
    metadata. *)
Definition synthetic_info (p : string) (i : pydict json) : Prop :=
  exists execution_input temp_step temp_step',
    describe_execution p = Ok execution_input /\
    new_StepFunction execution_input = Ok temp_step /\
    call set_extra_metadata (with_execution_metadata execution_input temp_step)
      = Ok temp_step' /\
    i = info temp_step'.

(** An ingestion record every step of whose iteration succeeds: the
    description of its parent is found, carries the descriptive
    metadata, and can be made into a record. *)
Definition attachable (b : StepFunction) : Prop :=
  exists execution_input b' temp_step temp_step',
    describe_execution (parent_execution_arn b) = Ok execution_input /\
    call set_extra_metadata (with_execution_metadata execution_input b) = Ok b' /\
    new_StepFunction execution_input = Ok temp_step /\
    call set_extra_metadata (with_execution_metadata execution_input temp_step)
      = Ok temp_step'.

(** The history of the root [d] is found and the loop body turns
    [root] into [root']. *)
Definition backfilled_root (d : string) (root root' : node) : Prop :=
  exists events,
    get_execution_history d = Ok events /\ backfill events root = Ok root'.

End Program.

(** ** The report *)

Section Report.

(** The flags [append_children] and [append_fail] read from
    [config.ini]; [str] on the values that are neither strings, integers,
    booleans nor [None]; and the strings the encoding of the report file
    can represent: the file is opened in text mode with the encoding of
    the locale, and [write] raises [UnicodeEncodeError] on any other
    string. *)
Variables (append_children append_fail : bool) (repr_other : json -> string)
          (encodable : string -> bool).

Definition tab : string := String (ascii_of_nat 9) EmptyString.
Definition newline : string := String (ascii_of_nat 10) EmptyString.

(** [str(v)] *)
Definition py_str (v : json) : string :=
  match v with
  | JStr s => s
  | JInt n => NilZero.string_of_int (Z.to_int n)
  | JNull => "None"
  | JBool true => "True"
  | JBool false => "False"
  | _ => repr_other v
  end.

(** Code that writes to the open file: it receives the text written so
    far (as passed to [write], before it is encoded), appends to it and
    may raise; what it wrote before raising stays written. *)
Definition writer : Type := string -> string * result unit.

(** [fp.write(v)]: only a string can be written, and only one the
    encoding of the file has; nothing of a string that cannot be encoded
    is written. *)
Definition fp_write (v : json) : writer := fun out =>
  match v with
  | JStr s => if encodable s then (out ++ s, Ok tt)
              else (out, Raise UnicodeEncodeError)
  | _ => (out, Raise TypeError)
  end.

(** [fp.write(s)] for a string of the code's own. *)
Definition write_text (s : string) : writer := fp_write (JStr s).

(** [fp.write(info[k])] *)
Definition write_item (info : pydict json) (k : string) : writer := fun out =>
  match dict_get k info with
  | Some v => fp_write v out
  | None => (out, Raise KeyError)
  end.

(** [fp.write(str(info[k]))] *)
Definition write_str_item (info : pydict json) (k : string) : writer := fun out =>
  match dict_get k info with
  | Some v => fp_write (JStr (py_str v)) out
  | None => (out, Raise KeyError)
  end.

(** One statement after another. *)
Definition and_then (w1 w2 : writer) : writer := fun out =>
  match w1 out with
  | (out', Ok _) => w2 out'
  | (out', Raise e) => (out', Raise e)
  end.

Fixpoint write_all (ws : list writer) : writer :=
  match ws with
  | [] => fun out => (out, Ok tt)
  | w :: rest => and_then w (write_all rest)
  end.

(** The line of one child: the inner loop runs once, over the one key of
    the child's dict. *)
Definition report_child (c : string * pydict json) : writer :=
  write_all
    [ write_text tab; write_item (snd c) "start";
      write_text tab; write_item (snd c) "status";
      write_text tab; write_item (snd c) "duration";
      write_text tab; write_item (snd c) "granuleId";
      write_text newline ].

(** The block of one root. *)
Definition report_root (root : node) : writer :=
  let granule_info := node_info root in
  write_all
    [ write_item granule_info "start"; write_text tab;
      write_item granule_info "status"; write_text tab;
      write_item granule_info "duration"; write_text tab;
      write_str_item granule_info "queued_granules_count"; write_text tab;
      write_item granule_info "collection"; write_text tab;
      write_item granule_info "provider"; write_text newline;
      (if append_children then write_all (map report_child (child root))
       else write_all []);
      (if append_fail && dict_mem "fail" granule_info
       then write_all [write_text tab; write_item granule_info "fail";
                       write_text newline]
       else write_all []);
      write_text newline ].

(** The loop over the keys of [source]. *)
Definition report_at (source : forest) (discover_granule_step : string) : writer :=
  fun out =>
    match dict_get discover_granule_step source with
    | Some root => report_root root out
    | None => (out, Raise KeyError)
    end.

(** [generate_report] on a forest held in memory: the text of the file
    it leaves and how it ended. *)
Definition generate_report (source : forest) : string * result unit :=
  write_all (map (report_at source) (keys source)) "".

End Report.

(** ** More vocabulary *)

(** The distinct elements of a list, each where it first occurs. *)
Definition first_occurrences (l : list string) : list string :=
  fold_left (fun seen k => if in_dec string_dec k seen then seen else (seen ++ [k])%list)
    l [].

(** The attributes an enrichment may assign. *)
Inductive attribute : Type :=
| ParentExecutionArn
| ExecutionMetadata
| Collection
| Provider
| GranuleId.

(** Two records that agree on every attribute outside [changed]. *)
Definition same_except (changed : list attribute) (a b : StepFunction) : Prop :=
  same_identity a b /\
  (~ In ParentExecutionArn changed ->
     parent_execution_arn b = parent_execution_arn a) /\
  (~ In ExecutionMetadata changed ->
     execution_metadata b = execution_metadata a) /\
  (~ In Collection changed -> collection b = collection a) /\
  (~ In Provider changed -> provider b = provider a) /\
  (~ In GranuleId changed -> granule_id b = granule_id a).

Section Shapes.

Context `{PyLib} `{StepClient}.

(** [i] is the info of a record that has no parent. *)
Definition root_info (i : pydict json) : Prop :=
  exists r, i = info r.

(** [c] is the entry of an ingestion record stored under the key [k]:
    its own reference, and the info of the record enriched from the
    description of [k], which still names [k] as parent. *)
Definition child_of (k : string) (c : string * pydict json) : Prop :=
  exists b execution_input,
    fst c = execution_arn b /\
    parent_execution_arn b = k /\
    describe_execution k = Ok execution_input /\
    snd c = info (fst (set_extra_metadata (with_execution_metadata execution_input b))) /\
    snd (set_extra_metadata (with_execution_metadata execution_input b)) = Ok tt.

(** [c] is the entry [build_relation_tree] stores for the ingestion
    record [b] under the key [k]: the reference of [b], and the info of
    [b] once enriched from the description of [k]. *)
Definition entry_of (k : string) (b : StepFunction) (c : string * pydict json) : Prop :=
  exists execution_input b',
    describe_execution k = Ok execution_input /\
    set_extra_metadata (with_execution_metadata execution_input b) = (b', Ok tt) /\
    c = (execution_arn b, info b').

(** A root as [build_relation_tree] makes them. *)
Definition built_root (k : string) (root : node) : Prop :=
  root_info (node_info root) /\ Forall (child_of k) (child root).

End Shapes.

(** The field [k] of an info is there and is a string. *)
Definition is_str (info : pydict json) (k : string) : Prop :=
  exists s, dict_get k info = Some (JStr s).

(** The field [k] of an info can be written: it is there, and is a
    string the file can encode. *)
Definition writable (encodable : string -> bool) (info : pydict json) (k : string)
  : Prop :=
  exists s, dict_get k info = Some (JStr s) /\ encodable s = true.

(** Writing the field [k] of an info raises [e]: [KeyError] when the
    field is missing, [TypeError] when it is not a string,
    [UnicodeEncodeError] when it is a string the file cannot encode. *)
Definition field_raises (encodable : string -> bool) (info : pydict json)
    (k : string) (e : exn) : Prop :=
  match dict_get k info with
  | None => e = KeyError
  | Some (JStr s) => encodable s = false /\ e = UnicodeEncodeError
  | Some _ => e = TypeError
  end.

(** A child whose four fields can be written. *)
Definition printable_child (encodable : string -> bool) (c : string * pydict json)
  : Prop :=
  writable encodable (snd c) "start" /\ writable encodable (snd c) "status" /\
  writable encodable (snd c) "duration" /\ writable encodable (snd c) "granuleId".

(** A root whose block can be written under the two flags: the tab and
    the newline can be encoded, the fields of its line can be written,
    the count is there and its [str] can be encoded, and so for the
    children and the [fail] field when they are listed. *)
Definition printable_root (append_children append_fail : bool)
    (repr_other : json -> string) (encodable : string -> bool) (root : node) : Prop :=
  encodable tab = true /\ encodable newline = true /\
  writable encodable (node_info root) "start" /\
  writable encodable (node_info root) "status" /\
  writable encodable (node_info root) "duration" /\
  (exists v, dict_get "queued_granules_count" (node_info root) = Some v /\
             encodable (py_str repr_other v) = true) /\
  writable encodable (node_info root) "collection" /\
  writable encodable (node_info root) "provider" /\
  (append_children = true -> Forall (printable_child encodable) (child root)) /\
  (append_fail = true -> dict_get "fail" (node_info root) <> None ->
     writable encodable (node_info root) "fail").

(** The block of a root cannot be written, and the attempt raises [e]:
    the tab or the newline cannot be encoded; or a field of its line, of
    a listed child or the listed [fail] field raises [e]; or the count is
    missing, or its [str] cannot be encoded. *)
Definition root_raises (append_children append_fail : bool)
    (repr_other : json -> string) (encodable : string -> bool) (root : node)
    (e : exn) : Prop :=
  ((encodable tab = false \/ encodable newline = false) /\ e = UnicodeEncodeError) \/
  (exists k, In k ["start"; "status"; "duration"; "collection"; "provider"] /\
             field_raises encodable (node_info root) k e) \/
  (dict_get "queued_granules_count" (node_info root) = None /\ e = KeyError) \/
  (exists v, dict_get "queued_granules_count" (node_info root) = Some v /\
             encodable (py_str repr_other v) = false /\ e = UnicodeEncodeError) \/
  (append_children = true /\
   exists c k, In c (child root) /\
               In k ["start"; "status"; "duration"; "granuleId"] /\
               field_raises encodable (snd c) k e) \/
  (append_fail = true /\ dict_get "fail" (node_info root) <> None /\
   field_raises encodable (node_info root) "fail" e).

(** Every value of an info prints to text the file can encode. *)
Definition encodable_info (repr_other : json -> string) (encodable : string -> bool)
    (info : pydict json) : Prop :=
  forall k v, dict_get k info = Some v -> encodable (py_str repr_other v) = true.

(** A writer whose outcome does not depend on what has been written. *)
Definition steady (w : string -> string * result unit) : Prop :=
  forall out1 out2, snd (w out1) = snd (w out2).

(** The text of the report, field by field. *)

Definition join (l : list string) : string := fold_right String.append "" l.

(** The string under [k], for a field that is one. *)
Definition text_of (info : pydict json) (k : string) : string :=
  match dict_get k info with
  | Some (JStr s) => s
  | _ => ""
  end.

(** The line of a child: a tab before each of its four fields. *)
Definition child_line (c : string * pydict json) : string :=
  join [ tab; text_of (snd c) "start"; tab; text_of (snd c) "status";
         tab; text_of (snd c) "duration"; tab; text_of (snd c) "granuleId";
         newline ].

(** The block of a root: its line of six fields, the lines of its
    children and its failure line when they are asked for, an empty
    line. *)
Definition root_block (append_children append_fail : bool)
    (repr_other : json -> string) (root : node) : string :=
  let granule_info := node_info root in
  join [ text_of granule_info "start"; tab;
         text_of granule_info "status"; tab;
         text_of granule_info "duration"; tab;
         match dict_get "queued_granules_count" granule_info with
         | Some v => py_str repr_other v
         | None => ""
         end; tab;
         text_of granule_info "collection"; tab;
         text_of granule_info "provider"; newline;
         (if append_children then join (map child_line (child root)) else "");
         (if append_fail && dict_mem "fail" granule_info
          then join [tab; text_of granule_info "fail"; newline] else "");
         newline ].

(** A writer that appends [t] and ends normally. *)
Definition writes (w : string -> string * result unit) (t : string) : Prop :=
  forall out, w out = (out ++ t, Ok tt).

Section Plans.

Context `{PyLib} `{S3Client}.

(** What the loop body of [append_metadata] is about to assign to the
    info of a root whose status is [st]: a count, and a [fail] cause when
    event 4 is a failure.  It is computed from the history alone. *)
Definition backfill_plan (events : list history_event) (st : json)
  : result (json * option string) :=
  if eq_str st "RUNNING" then Ok (JStr "N/A", None)
  else
    ev <- require (nth_error events 4) IndexError ;;
    if String.eqb (ev_type ev) "LambdaFunctionSucceeded" then
      details <- require (lambdaFunctionSucceededEventDetails ev) KeyError ;;
      output <- require (sd_output details) KeyError ;;
      output <- json_loads output ;;
      granule_count <- granule_count_of output ;;
      Ok (granule_count, None)
    else
      details <- require (lambdaFunctionFailedEventDetails ev) KeyError ;;
      output <- require (fd_cause details) KeyError ;;
      Ok (JStr "N/A", Some output).

(** The assignments of a plan, in the order of the code: [fail] first. *)
Definition apply_plan (u : json * option string) (root : node) : node :=
  match snd u with
  | None => set_info "queued_granules_count" (fst u) root
  | Some cause =>
      set_info "queued_granules_count" (fst u) (set_info "fail" (JStr cause) root)
  end.

End Plans.

(** * A concrete run

    Two discovery machines' worth of data, small enough to evaluate: the
    discovery runs A (still running), B, D and E, the unlisted discovery
    run C, and four ingestion runs, two spawned by B and two by C.  The
    text of every payload is the rendering of the JSON value it parses
    to. *)

Module Scenario.

Local Open Scope Z_scope.

Definition quote : string := String (ascii_of_nat 34) EmptyString.

(** Compact JSON text of a value whose strings need no escape. *)
Fixpoint render (j : json) : string :=
  match j with
  | JNull => "null"
  | JBool true => "true"
  | JBool false => "false"
  | JInt n => NilZero.string_of_int (Z.to_int n)
  | JFloat lexeme => lexeme
  | JStr s => quote ++ s ++ quote
  | JList l =>
      "[" ++
      (fix items (l : list json) : string :=
         match l with
         | [] => ""
         | x :: [] => render x
         | x :: rest => render x ++ ", " ++ items rest
         end) l ++ "]"
  | JDict d =>
      "{" ++
      (fix members (d : list (string * json)) : string :=
         match d with
         | [] => ""
         | (k, v) :: [] => quote ++ k ++ quote ++ ": " ++ render v
         | (k, v) :: rest =>
             quote ++ k ++ quote ++ ": " ++ render v ++ ", " ++ members rest
         end) d ++ "}"
  end.

Definition machine_arn (machine : string) : string :=
  "arn:aws:states:us-east-1:111122223333:stateMachine:" ++ machine.

Definition run_arn (machine run : string) : string :=
  "arn:aws:states:us-east-1:111122223333:execution:" ++ machine ++ ":" ++ run.

(** The input of a discovery run. *)
Definition discover_input (collection_name provider_path : string) : json :=
  JDict [ ("meta",
           JDict [ ("collection",
                    JDict [ ("name", JStr collection_name);
                            ("meta", JDict [("provider_path", JStr provider_path)]) ]);
                   ("provider",
                    JDict [ ("protocol", JStr "https");
                            ("host", JStr "example.com") ]) ]) ].

(** The input of an ingestion run: who spawned it. *)
Definition ingest_input (machine run : string) : json :=
  JDict [ ("payload",
           JDict [ ("meta",
                    JDict [ ("source", JStr (machine_arn machine));
                            ("execution_name", JStr run) ]) ]) ].

Definition ingest_output (identifier : string) : json :=
  JDict [ ("meta", JDict [ ("cnmResponse", JDict [("identifier", JStr identifier)]) ]) ].

(** Outputs of the discovery lambda: inline count, reference to an
    object, neither. *)
Definition output_inline : json :=
  JDict [ ("payload", JDict []);
          ("meta",
           JDict [ ("collection",
                    JDict [ ("meta",
                             JDict [ ("discover_tf",
                                      JDict [("queued_granules_count", JInt 7)]) ]) ]) ]) ].

Definition output_replace : json :=
  JDict [ ("replace", JDict [("Bucket", JStr "b"); ("Key", JStr "k")]) ].

Definition output_neither : json := JDict [ ("cumulus_meta", JDict []) ].

Definition stored_object : json :=
  JDict [ ("payload", JDict [("granules", JList [JInt 1; JInt 2; JInt 3])]) ].

Definition documents : list json :=
  [ discover_input "MOD09GQ" "/data";
    discover_input "MYD13Q1" "data";
    ingest_input "DiscoverGranules" "B";
    ingest_input "DiscoverGranules" "C";
    ingest_input "IngestGranule" "i9";
    ingest_output "granule-1";
    output_inline; output_replace; output_neither; stored_object ].

#[export] Instance lib : PyLib := {|
  json_loads text :=
    require (dict_get text (map (fun j => (render j, j)) documents)) JSONDecodeError;
  isoformat t := "T+" ++ NilZero.string_of_int (Z.to_int t);
  timedelta_str t := NilZero.string_of_int (Z.to_int t);
  utf8_decode bytes := Ok bytes
|}.

Definition discovery (run status : string) (start : Z) (stop : option Z)
    (input : json) : execution :=
  {| ex_name := run; ex_status := status;
     ex_startDate := start; ex_stopDate := stop;
     ex_executionArn := run_arn "DiscoverGranules" run;
     ex_input := Some (render input); ex_output := None |}.

Definition ingestion (run status : string) (start : Z) (stop : option Z)
    (input : json) (output : option json) : execution :=
  {| ex_name := run; ex_status := status;
     ex_startDate := start; ex_stopDate := stop;
     ex_executionArn := run_arn "IngestGranule" run;
     ex_input := Some (render input); ex_output := option_map render output |}.

Definition run_A : execution :=
  discovery "A" "RUNNING" 100 None (discover_input "MOD09GQ" "/data").
Definition run_B : execution :=
  discovery "B" "SUCCEEDED" 200 (Some 260) (discover_input "MOD09GQ" "/data").
Definition run_C : execution :=
  discovery "C" "FAILED" 300 (Some 330) (discover_input "MYD13Q1" "data").
Definition run_D : execution :=
  discovery "D" "SUCCEEDED" 400 (Some 410) (discover_input "MOD09GQ" "/data").
Definition run_E : execution :=
  discovery "E" "SUCCEEDED" 500 (Some 520) (discover_input "MOD09GQ" "/data").
Definition run_X : execution :=
  discovery "X" "FAILED" 600 (Some 610) (discover_input "MOD09GQ" "/data").

(** A discovery run whose lambda timed out. *)
Definition run_T : execution :=
  discovery "T" "FAILED" 650 (Some 950) (discover_input "MOD09GQ" "/data").
Definition run_i1 : execution :=
  ingestion "i1" "SUCCEEDED" 210 (Some 215)
    (ingest_input "DiscoverGranules" "B") (Some (ingest_output "granule-1")).
Definition run_i2 : execution :=
  ingestion "i2" "FAILED" 220 (Some 221) (ingest_input "DiscoverGranules" "B") None.
Definition run_i3 : execution :=
  ingestion "i3" "SUCCEEDED" 310 (Some 312)
    (ingest_input "DiscoverGranules" "C") (Some (ingest_output "granule-1")).
Definition run_i4 : execution :=
  ingestion "i4" "RUNNING" 320 None (ingest_input "DiscoverGranules" "C") None.

(** The run i4 as it is described once it has succeeded. *)
Definition run_i4_done : execution :=
  ingestion "i4" "SUCCEEDED" 320 (Some 325)
    (ingest_input "DiscoverGranules" "C") (Some (ingest_output "granule-1")).

(** A run whose input names the run itself as its source. *)
Definition run_i9 : execution :=
  ingestion "i9" "SUCCEEDED" 900 (Some 901)
    (ingest_input "IngestGranule" "i9") (Some (ingest_output "granule-1")).

(** Every run the service knows, as [describe_execution] reports it. *)
Definition described : list execution :=
  [ run_A; run_B; run_C; run_D; run_E; run_X;
    run_i1; run_i2; run_i3; run_i4; run_i9; run_T ].

(** The entry of [list_executions] for a run. *)
Definition listed (e : execution) : execution :=
  {| ex_name := ex_name e; ex_status := ex_status e;
     ex_startDate := ex_startDate e; ex_stopDate := ex_stopDate e;
     ex_executionArn := ex_executionArn e;
     ex_input := None; ex_output := None |}.

Definition is_listed (machine : string) (runs : list string) (e : execution) : bool :=
  existsb (fun run => String.eqb (ex_executionArn e) (run_arn machine run)) runs.

Definition filler : history_event :=
  {| ev_type := "TaskStateEntered";
     lambdaFunctionSucceededEventDetails := None;
     lambdaFunctionFailedEventDetails := None |}.

Definition succeeded (output : json) : history_event :=
  {| ev_type := "LambdaFunctionSucceeded";
     lambdaFunctionSucceededEventDetails := Some {| sd_output := Some (render output) |};
     lambdaFunctionFailedEventDetails := None |}.

Definition failed (cause : string) : history_event :=
  {| ev_type := "LambdaFunctionFailed";
     lambdaFunctionSucceededEventDetails := None;
     lambdaFunctionFailedEventDetails :=
       Some {| fd_error := Some "Error"; fd_cause := Some cause |} |}.

(** The event of a lambda that timed out: it has its own details, and
    neither those of a success nor those of a failure. *)
Definition timed_out : history_event :=
  {| ev_type := "LambdaFunctionTimedOut";
     lambdaFunctionSucceededEventDetails := None;
     lambdaFunctionFailedEventDetails := None |}.

Definition histories : pydict (list history_event) :=
  [ (run_arn "DiscoverGranules" "A", [filler; filler]);
    (run_arn "DiscoverGranules" "B", [filler; filler; filler; filler; succeeded output_inline]);
    (run_arn "DiscoverGranules" "C", [filler; filler; filler; filler; failed "no files found"; filler]);
    (run_arn "DiscoverGranules" "D", [filler; filler; filler; filler; succeeded output_replace]);
    (run_arn "DiscoverGranules" "E", [filler; filler; filler; filler; succeeded output_neither]);
    (run_arn "DiscoverGranules" "X", [filler; filler; failed "timed out"]);
    (run_arn "DiscoverGranules" "T", [filler; filler; filler; filler; timed_out; filler]) ].

#[export] Instance steps : StepClient := {|
  list_executions machine limit :=
    if String.eqb machine (machine_arn "DiscoverGranules")
    then Ok (map listed (filter (is_listed "DiscoverGranules" ["A"; "B"; "D"; "E"]) described))
    else if String.eqb machine (machine_arn "IngestGranule")
    then Ok (map listed (filter (is_listed "IngestGranule" ["i1"; "i2"; "i3"; "i4"]) described))
    else Raise (ClientError "StateMachineDoesNotExist");
  describe_execution arn :=
    require (find (fun e => String.eqb (ex_executionArn e) arn) described)
      (ClientError "ExecutionDoesNotExist");
  get_execution_history arn :=
    require (dict_get arn histories) (ClientError "ExecutionDoesNotExist")
|}.

#[export] Instance store : S3Client := {|
  get_object bucket key :=
    if eq_str bucket "b" && eq_str key "k"
    then Ok (render stored_object)
    else Raise (ClientError "NoSuchKey")
|}.

(** What a fallible step of the scenario yields, when it yields. *)
Definition get {A : Type} (default : A) (r : result A) : A :=
  match r with
  | Ok a => a
  | Raise _ => default
  end.

Definition listing : list StepFunction * list StepFunction :=
  Eval vm_compute in
    get ([], []) (build_discover_ingest_objects
                    (machine_arn "DiscoverGranules") (machine_arn "IngestGranule") 10 10).

Definition discover_list : list StepFunction := fst listing.
Definition ingest_list : list StepFunction := snd listing.

Definition tree : forest :=
  Eval vm_compute in get [] (build_relation_tree discover_list ingest_list).

Definition backfilled : forest :=
  Eval vm_compute in get [] (append_metadata tree).

(** A forest whose second root, X, has a history of three events. *)
Definition short_history_tree : forest :=
  Eval vm_compute in
    get [] (records <- for_each build_discover [listed run_B; listed run_X; listed run_D] ;;
            build_relation_tree records []).


Definition blank : StepFunction :=
  {| name := ""; status := ""; start_date_time := 0; stop_date_time := 0;
     execution_arn := ""; own_child_execution_arn := None;
     parent_execution_arn := ""; execution_metadata := None;
     collection := JNull; provider := ""; granule_id := JNull |}.

(** The record of a listing entry, before any enrichment. *)
Definition fresh (e : execution) : StepFunction :=
  get blank (new_StepFunction (listed e)).

(** The root under a key. *)
Definition root_at (d : string) (source : forest) : node :=
  match dict_get d source with
  | Some root => root
  | None => {| child := []; node_info := [] |}
  end.

End Scenario.

(** More inputs on the same data: a discovery run whose input names no
    provider, an ingestion record whose parent the service does not
    know, a forest with a root whose history cannot be fetched, and the
    report of the backfilled forest. *)

Module Cases.

Local Open Scope Z_scope.

Definition input_without_provider : json :=
  JDict [ ("meta", JDict [ ("collection", JDict [("name", JStr "MOD09GQ")]) ]) ].

#[export] Instance lib : PyLib := {|
  json_loads text :=
    if String.eqb text (Scenario.render input_without_provider)
    then Ok input_without_provider
    else @json_loads Scenario.lib text;
  isoformat := @isoformat Scenario.lib;
  timedelta_str := @timedelta_str Scenario.lib;
  utf8_decode := @utf8_decode Scenario.lib
|}.

Definition run_P : execution :=
  Scenario.discovery "P" "SUCCEEDED" 700 (Some 710) input_without_provider.

(** A run the service has listed and can no longer describe. *)
Definition run_Q : execution :=
  Scenario.discovery "Q" "SUCCEEDED" 800 (Some 810)
    (Scenario.discover_input "MOD09GQ" "/data").

(** The record of i1 with a parent the service does not know. *)
Definition orphan : StepFunction :=
  with_parent_execution_arn (Scenario.run_arn "DiscoverGranules" "Z")
    (Scenario.fresh Scenario.run_i1).

Definition first_ingest : StepFunction := hd Scenario.blank Scenario.ingest_list.

(** B, then a RUNNING root under the key Y, which has no history, then D. *)
Definition lost_history_tree : forest :=
  [ (Scenario.run_arn "DiscoverGranules" "B",
     Scenario.root_at (Scenario.run_arn "DiscoverGranules" "B") Scenario.tree);
    (Scenario.run_arn "DiscoverGranules" "Y",
     Scenario.root_at (Scenario.run_arn "DiscoverGranules" "A") Scenario.tree);
    (Scenario.run_arn "DiscoverGranules" "D",
     Scenario.root_at (Scenario.run_arn "DiscoverGranules" "D") Scenario.tree) ].

Definition first_child (d : string) (source : forest) : string * pydict json :=
  hd ("", []) (child (Scenario.root_at d source)).

(** [str] of the values the scenario never prints. *)
Definition repr_other (v : json) : string := "?".

(** The encoding of a locale that has the characters of ASCII only: the
    strings every byte of which is below 128. *)
Fixpoint ascii_only (s : string) : bool :=
  match s with
  | EmptyString => true
  | String c rest => (nat_of_ascii c <? 128)%nat && ascii_only rest
  end.

Definition report : string * result unit :=
  Eval vm_compute in generate_report true true repr_other ascii_only Scenario.backfilled.

(** The two bytes of an accented letter. *)
Definition accented : string :=
  String (ascii_of_nat 195) (String (ascii_of_nat 169) EmptyString).

(** The backfilled roots B and D, with an accented collection name
    for D. *)
Definition accented_forest : forest :=
  [ (Scenario.run_arn "DiscoverGranules" "B",
     Scenario.root_at (Scenario.run_arn "DiscoverGranules" "B") Scenario.backfilled);
    (Scenario.run_arn "DiscoverGranules" "D",
     set_info "collection" (JStr ("MOD" ++ accented))
       (Scenario.root_at (Scenario.run_arn "DiscoverGranules" "D") Scenario.backfilled)) ].

End Cases.

(** * Properties *)

(** Case analysis on the scrutinee of a [match] of the goal. *)
Ltac case_split :=
  match goal with
  | |- context [match ?x with _ => _ end] => destruct x eqn:?
  end.

(** ** Dictionaries *)

Section Dict.

Context {V : Type}.
Implicit Types (d : pydict V) (k : string) (v : V).

Lemma dict_get_set_same k v d : dict_get k (dict_set k v d) = Some v.
Proof.
  induction d as [|[k' v'] d IH]; simpl.
  - now rewrite String.eqb_refl.
  - destruct (String.eqb k k') eqn:E; simpl; rewrite E; auto.
Qed.

Lemma dict_get_set_other k k' v d :
  k <> k' -> dict_get k (dict_set k' v d) = dict_get k d.
Proof.
  intros Hne. induction d as [|[k0 v0] d IH]; simpl.
  - apply String.eqb_neq in Hne. now rewrite Hne.
  - destruct (String.eqb k' k0) eqn:E; simpl.
    + apply String.eqb_eq in E. subst k0.
      apply String.eqb_neq in Hne. now rewrite Hne.
    + now rewrite IH.
Qed.

Lemma dict_get_in_keys k d : dict_get k d <> None <-> In k (keys d).
Proof.
  induction d as [|[k' v'] d IH]; simpl.
  - split; [congruence | tauto].
  - destruct (String.eqb k k') eqn:E.
    + apply String.eqb_eq in E. subst. split; [auto | congruence].
    + apply String.eqb_neq in E. rewrite IH. split; [auto | intros [Hk|Hk]; [congruence | auto]].
Qed.

Lemma dict_get_none_keys k d : dict_get k d = None <-> ~ In k (keys d).
Proof.
  rewrite <- dict_get_in_keys. destruct (dict_get k d) as [v|].
  - split; [discriminate | intros Hn; exfalso; apply Hn; discriminate].
  - split; [intros _ Hn; now apply Hn | reflexivity].
Qed.

Lemma keys_set_present k v d :
  In k (keys d) -> keys (dict_set k v d) = keys d.
Proof.
  induction d as [|[k' v'] d IH]; simpl; [tauto|].
  intros Hin. destruct (String.eqb k k') eqn:E; simpl; [reflexivity|].
  apply String.eqb_neq in E. f_equal. apply IH.
  destruct Hin; [congruence | assumption].
Qed.

Lemma keys_set_absent k v d :
  ~ In k (keys d) -> keys (dict_set k v d) = (keys d ++ [k])%list.
Proof.
  induction d as [|[k' v'] d IH]; simpl; [reflexivity|].
  intros Hin. destruct (String.eqb k k') eqn:E; simpl.
  - apply String.eqb_eq in E. subst. tauto.
  - f_equal. apply IH. tauto.
Qed.

Lemma keys_set_incl k k' v d : In k (keys d) -> In k (keys (dict_set k' v d)).
Proof.
  intros Hin. destruct (in_dec string_dec k' (keys d)) as [Hk|Hk].
  - now rewrite keys_set_present.
  - rewrite keys_set_absent by assumption. apply in_or_app. now left.
Qed.

Lemma keys_set_NoDup k v d : NoDup (keys d) -> NoDup (keys (dict_set k v d)).
Proof.
  intros Hnd. destruct (in_dec string_dec k (keys d)) as [Hk|Hk].
  - now rewrite keys_set_present.
  - rewrite keys_set_absent by assumption.
    apply NoDup_app; [assumption | repeat constructor; simpl; tauto |].
    intros x Hx [Hx'|[]]. subst. contradiction.
Qed.

End Dict.

(** ** Strings *)

Lemma endswith_app (a b : string) : endswith (a ++ b) b = true.
Proof.
  induction a as [|c a IH]; simpl.
  - destruct b; simpl; [reflexivity|].
    now rewrite Ascii.eqb_refl, String.eqb_refl.
  - rewrite IH. apply orb_true_r.
Qed.

Lemma append_assoc (a b c : string) : ((a ++ b) ++ c = a ++ (b ++ c))%string.
Proof.
  induction a as [|x a IH]; simpl; [reflexivity | now rewrite IH].
Qed.

Lemma startswith_slash_cons (s : string) :
  startswith_slash s = true -> s = ("/" ++ drop_first s)%string.
Proof.
  destruct s as [|c s]; simpl; [discriminate|].
  intros Hc. apply Ascii.eqb_eq in Hc. now subst c.
Qed.

(** ** Small checks of the string functions *)

Example str_replace_every_occurrence :
  str_replace "stateMachine" "execution" "a:stateMachine:b:stateMachine"
  = "a:execution:b:execution".
Proof. reflexivity. Qed.

Example str_replace_absent :
  str_replace "stateMachine" "execution" "arn:aws:states" = "arn:aws:states".
Proof. reflexivity. Qed.

Example endswith_examples :
  endswith "execution:Ingest:i1" ":i1" = true /\
  endswith "execution:Ingest:i1" ":B" = false.
Proof. split; reflexivity. Qed.

Example provider_uri_keeps_second_slash :
  provider_uri (JStr "s3") (JStr "bucket") (JStr "//deep")
  = Ok "s3://bucket//deep".
Proof. reflexivity. Qed.

Example provider_uri_needs_strings :
  provider_uri (JStr "s3") (JInt 5) (JStr "p") = Raise TypeError /\
  provider_uri (JStr "s3") (JStr "h") JNull = Raise AttributeError.
Proof. split; reflexivity. Qed.

(** ** The execution record and its enrichment *)

Section Records.

Context `{PyLib}.

Lemma new_StepFunction_fields (e : execution) (r : StepFunction) :
  new_StepFunction e = Ok r ->
  status r = ex_status e /\
  start_date_time r = ex_startDate e /\
  execution_arn r = ex_executionArn e /\
  own_child_execution_arn r = None /\
  granule_id r = JStr "N/A" /\
  parent_execution_arn r = "N/A" /\
  (ex_status e <> "SUCCEEDED" -> stop_date_time r = ex_startDate e) /\
  (ex_status e = "SUCCEEDED" -> ex_stopDate e = Some (stop_date_time r)).
Proof.
  unfold new_StepFunction. intros Hnew.
  destruct (String.eqb_spec (ex_status e) "SUCCEEDED") as [Hs|Hs]; simpl in Hnew.
  - destruct (ex_stopDate e) as [stop|]; simpl in Hnew; [|discriminate].
    injection Hnew as <-. simpl. repeat split; congruence.
  - injection Hnew as <-. simpl. repeat split; congruence.
Qed.

Lemma same_identity_refl (a : StepFunction) : same_identity a a.
Proof. repeat split. Qed.

Lemma same_identity_trans (a b c : StepFunction) :
  same_identity a b -> same_identity b c -> same_identity a c.
Proof. unfold same_identity. intuition congruence. Qed.

Lemma enrich_identity (o : enrichment) (self : StepFunction) :
  same_identity self (fst (enrich o self)).
Proof.
  destruct o; simpl;
    unfold set_execution_metadata, set_parent, set_granule_id, set_extra_metadata;
    repeat case_split; simpl; repeat split.
Qed.

Lemma enrich_all_identity (os : list enrichment) (self : StepFunction) :
  same_identity self (enrich_all os self).
Proof.
  revert self. induction os as [|o os IH]; intros self; simpl.
  - apply same_identity_refl.
  - eapply same_identity_trans; [apply enrich_identity | apply IH].
Qed.

(** C7.  A record built from a listing entry whose stop timestamp is not
    before its start timestamp has a non-negative duration; an entry that
    is RUNNING always yields a record, its stop timestamp is its start
    timestamp and its duration is zero; no enrichment changes either. *)
Theorem duration_nonneg_and_zero_when_running (e : execution) :
  (forall r, new_StepFunction e = Ok r ->
     (forall stop, ex_stopDate e = Some stop -> (ex_startDate e <= stop)%Z) ->
     (0 <= get_duration r)%Z) /\
  (ex_status e = "RUNNING" -> exists r, new_StepFunction e = Ok r) /\
  (forall r, new_StepFunction e = Ok r -> status r = "RUNNING" ->
     stop_date_time r = start_date_time r /\ get_duration r = 0%Z) /\
  (forall r os, new_StepFunction e = Ok r ->
     status (enrich_all os r) = status r /\
     get_duration (enrich_all os r) = get_duration r).
Proof.
  split; [|split; [|split]].
  - intros r Hnew Hle.
    destruct (new_StepFunction_fields e r Hnew)
      as (_ & Hstart & _ & _ & _ & _ & Hrun & Hdone).
    unfold get_duration. rewrite Hstart.
    destruct (string_dec (ex_status e) "SUCCEEDED") as [Hs|Hs].
    + specialize (Hle _ (Hdone Hs)). lia.
    + rewrite (Hrun Hs). lia.
  - intros Hs. unfold new_StepFunction. rewrite Hs. simpl. eauto.
  - intros r Hnew Hrunning.
    destruct (new_StepFunction_fields e r Hnew)
      as (Hst & Hstart & _ & _ & _ & _ & Hrun & _).
    assert (Hstop : stop_date_time r = ex_startDate e).
    { apply Hrun. rewrite <- Hst, Hrunning. discriminate. }
    unfold get_duration. rewrite Hstart, Hstop. split; [reflexivity | lia].
  - intros r os Hnew.
    destruct (enrich_all_identity os r) as (_ & Hst & Hstart & Hstop & _).
    unfold get_duration. rewrite Hst, Hstart, Hstop. split; reflexivity.
Qed.

(** C10.  Whatever the listing entry and whatever enrichment calls
    follow, in any order and whether or not they raise, the record has no
    [child_execution_arn] of its own: [get_children] returns the list of
    the class, which is empty. *)
Theorem get_children_always_empty (e : execution) (os : list enrichment) :
  forall r, new_StepFunction e = Ok r ->
    own_child_execution_arn (enrich_all os r) = None /\
    get_children (enrich_all os r) = class_child_execution_arn /\
    get_children (enrich_all os r) = [].
Proof.
  intros r Hnew.
  destruct (new_StepFunction_fields e r Hnew) as (_ & _ & _ & Hown & _).
  destruct (enrich_all_identity os r) as (_ & _ & _ & _ & _ & Hsame).
  assert (Hnone : own_child_execution_arn (enrich_all os r) = None) by congruence.
  unfold get_children. rewrite Hnone. auto.
Qed.

(** The chain of subscripts [set_extra_metadata] reads the provider
    from. *)
Lemma provider_uri_str (protocol host path : string) :
  provider_uri (JStr protocol) (JStr host) (JStr path) =
  Ok (protocol ++ "://" ++ host ++ "/" ++
      (if startswith_slash path then drop_first path else path)).
Proof.
  unfold provider_uri. simpl. now rewrite !append_assoc.
Qed.

(** C8.  When the input payload gives the collection name and the
    strings [protocol], [host] and [provider_path],
    [set_extra_metadata] succeeds and the provider is
    [protocol://host/] followed by the path without its first character
    when that is a slash, unchanged otherwise: [/p] and [p] give the same
    URI, and for "https", "example.com" both "/data" and "data" give
    "https://example.com/data". *)
Theorem provider_uri_single_slash
    (self : StepFunction) (md : execution) (text : string) (doc c : json)
    (protocol host path : string) :
  execution_metadata self = Some md ->
  ex_input md = Some text ->
  json_loads text = Ok doc ->
  subscripts doc ["meta"; "collection"; "name"] = Ok c ->
  subscripts doc ["meta"; "provider"; "protocol"] = Ok (JStr protocol) ->
  subscripts doc ["meta"; "provider"; "host"] = Ok (JStr host) ->
  subscripts doc ["meta"; "collection"; "meta"; "provider_path"] = Ok (JStr path) ->
  exists self',
    set_extra_metadata self = (self', Ok tt) /\
    collection self' = c /\
    provider self' =
      protocol ++ "://" ++ host ++ "/" ++
      (if startswith_slash path then drop_first path else path) /\
    (forall rest, path = "/" ++ rest ->
       provider self' = protocol ++ "://" ++ host ++ "/" ++ rest) /\
    (startswith_slash path = false ->
       provider self' = protocol ++ "://" ++ host ++ "/" ++ path) /\
    (protocol = "https" -> host = "example.com" ->
     path = "/data" \/ path = "data" ->
       provider self' = "https://example.com/data").
Proof.
  intros Hmd Hin Hdoc Hname Hprotocol Hhost Hpath.
  unfold set_extra_metadata.
  rewrite Hmd, Hin. cbn [require bind]. rewrite Hdoc. cbn [bind].
  rewrite Hname. cbn [bind]. rewrite Hprotocol. cbn [bind].
  rewrite Hhost. cbn [bind]. rewrite Hpath. cbn [bind].
  rewrite provider_uri_str.
  eexists. split; [reflexivity|]. cbn [provider collection with_provider with_collection].
  split; [reflexivity|]. split; [reflexivity|]. split; [|split].
  - intros rest ->. reflexivity.
  - intros ->. reflexivity.
  - intros -> -> [->| ->]; reflexivity.
Qed.

(** The parent reference [set_parent] derives from an input payload. *)
Lemma parent_of_input_str (meta : string) (doc json_dict : json)
    (source execution_name : string) :
  json_loads meta = Ok doc ->
  subscripts doc ["payload"; "meta"] = Ok json_dict ->
  subscript json_dict "source" = Ok (JStr source) ->
  subscript json_dict "execution_name" = Ok (JStr execution_name) ->
  parent_of_input meta =
  Ok (str_replace "stateMachine" "execution" source ++ ":" ++ execution_name).
Proof.
  intros Hdoc Hdict Hsource Hname. unfold parent_of_input.
  rewrite Hdoc. cbn [bind]. rewrite Hdict. cbn [bind].
  rewrite Hsource. cbn [bind str_receiver]. rewrite Hname. cbn [bind str_operand].
  now rewrite append_assoc.
Qed.

(** C5, as the code has it.  [set_granule_id] reads the status of the
    description payload held by the record, not the status of the
    record: when there is no payload, or its status is not SUCCEEDED, the
    call returns and leaves the record as it was, so a fresh record keeps
    the default granule identifier; the identifier changes only under a
    payload whose status is SUCCEEDED. *)
Theorem set_granule_id_guarded_by_description_status (self : StepFunction) :
  (execution_metadata self = None -> set_granule_id self = (self, Ok tt)) /\
  (forall md, execution_metadata self = Some md ->
     ex_status md <> "SUCCEEDED" -> set_granule_id self = (self, Ok tt)) /\
  (forall e md, new_StepFunction e = Ok self -> ex_status md <> "SUCCEEDED" ->
     granule_id (fst (set_granule_id (with_execution_metadata md self))) = JStr "N/A") /\
  (granule_id (fst (set_granule_id self)) <> granule_id self ->
     exists md, execution_metadata self = Some md /\ ex_status md = "SUCCEEDED").
Proof.
  assert (Hguard : forall s md, execution_metadata s = Some md ->
            ex_status md <> "SUCCEEDED" -> set_granule_id s = (s, Ok tt)).
  { intros s md Hmd Hst. unfold set_granule_id. rewrite Hmd.
    apply String.eqb_neq in Hst. now rewrite Hst. }
  split; [|split; [|split]].
  - intros Hmd. unfold set_granule_id. now rewrite Hmd.
  - intros md. apply Hguard.
  - intros e md Hnew Hst.
    rewrite (Hguard (with_execution_metadata md self) md) by (reflexivity || assumption).
    cbn [fst granule_id with_execution_metadata].
    now destruct (new_StepFunction_fields e self Hnew) as (_ & _ & _ & _ & Hg & _).
  - intros Hchanged. destruct (execution_metadata self) as [md|] eqn:Hmd.
    + exists md. split; [reflexivity|].
      destruct (string_dec (ex_status md) "SUCCEEDED") as [Hs|Hs]; [assumption|].
      rewrite (Hguard self md Hmd Hs) in Hchanged. now elim Hchanged.
    + unfold set_granule_id in Hchanged. rewrite Hmd in Hchanged. now elim Hchanged.
Qed.

End Records.

(** ** The relation tree *)

Section Tree.

Context `{PyLib} `{StepClient}.

Lemma call_fst (m : method) (s s' : StepFunction) :
  call m s = Ok s' -> s' = fst (m s).
Proof.
  unfold call. destruct (m s) as [t [[]|e]]; simpl; congruence.
Qed.

Lemma set_extra_metadata_parent (s : StepFunction) :
  parent_execution_arn (fst (set_extra_metadata s)) = parent_execution_arn s.
Proof.
  unfold set_extra_metadata. repeat case_split; reflexivity.
Qed.

Lemma set_granule_id_parent (s : StepFunction) :
  parent_execution_arn (fst (set_granule_id s)) = parent_execution_arn s.
Proof.
  unfold set_granule_id. repeat case_split; reflexivity.
Qed.

(** The parent of a record built by [build_ingest] comes from the input
    of the description of that very run. *)
Lemma build_ingest_parent (e : execution) (r : StepFunction) :
  build_ingest e = Ok r ->
  exists md meta,
    describe_execution (ex_executionArn e) = Ok md /\
    ex_input md = Some meta /\
    parent_of_input meta = Ok (parent_execution_arn r).
Proof.
  unfold build_ingest. intros Hbuild.
  destruct (new_StepFunction e) as [step|] eqn:Hnew; cbn [bind] in Hbuild; [|discriminate].
  destruct (new_StepFunction_fields e step Hnew) as (_ & _ & Harn & _).
  rewrite Harn in Hbuild.
  destruct (describe_execution (ex_executionArn e)) as [md|];
    cbn [bind] in Hbuild; [|discriminate].
  change (call (set_execution_metadata md) step)
    with (Ok (with_execution_metadata md step)) in Hbuild.
  cbn [bind] in Hbuild.
  destruct (call set_parent (with_execution_metadata md step)) as [step1|] eqn:Hparent;
    cbn [bind] in Hbuild; [|discriminate].
  apply call_fst in Hbuild. rewrite Hbuild, set_granule_id_parent.
  unfold call, set_parent in Hparent. cbn [execution_metadata with_execution_metadata] in Hparent.
  exists md. destruct (ex_input md) as [meta|]; cbn [require bind] in Hparent;
    [|discriminate].
  exists meta. split; [reflexivity|]. split; [reflexivity|].
  destruct (parent_of_input meta) as [p|]; cbn [bind] in Hparent; [|discriminate].
  injection Hparent as <-. reflexivity.
Qed.

(** C4, as the code has it.  The parent reference is the [source] of
    the input payload held by the record, with [stateMachine] replaced by
    [execution], then a colon and the [execution_name]; nothing else of
    the record changes, and a second call derives the same reference.
    It differs from the record's own reference whenever that reference
    does not end with the colon and the [execution_name].  The payload a
    record holds when [build_ingest] derives its parent is the input of
    the description of that very run. *)
Theorem set_parent_from_input_payload
    (self : StepFunction) (md : execution) (meta : string) (doc json_dict : json)
    (source execution_name : string) :
  execution_metadata self = Some md ->
  ex_input md = Some meta ->
  json_loads meta = Ok doc ->
  subscripts doc ["payload"; "meta"] = Ok json_dict ->
  subscript json_dict "source" = Ok (JStr source) ->
  subscript json_dict "execution_name" = Ok (JStr execution_name) ->
  let parent := str_replace "stateMachine" "execution" source ++ ":" ++ execution_name in
  set_parent self = (with_parent_execution_arn parent self, Ok tt) /\
  set_parent (with_parent_execution_arn parent self) =
    (with_parent_execution_arn parent self, Ok tt) /\
  (endswith (execution_arn self) (":" ++ execution_name) = false ->
     parent_execution_arn (fst (set_parent self)) <> execution_arn self) /\
  (forall e r, build_ingest e = Ok r ->
     exists md' meta',
       describe_execution (ex_executionArn e) = Ok md' /\
       ex_input md' = Some meta' /\
       parent_of_input meta' = Ok (parent_execution_arn r)).
Proof.
  intros Hmd Hin Hdoc Hdict Hsource Hname parent.
  assert (Hp : parent_of_input meta = Ok parent)
    by (eapply parent_of_input_str; eassumption).
  assert (Hset : forall s, execution_metadata s = Some md ->
            set_parent s = (with_parent_execution_arn parent s, Ok tt)).
  { intros s Hs. unfold set_parent. rewrite Hs, Hin. cbn [require bind].
    now rewrite Hp. }
  split; [now apply Hset|]. split; [|split].
  - rewrite (Hset (with_parent_execution_arn parent self)) by assumption.
    reflexivity.
  - intros Hends. rewrite (Hset self Hmd).
    cbn [fst parent_execution_arn with_parent_execution_arn].
    intros Heq. rewrite <- Heq in Hends. subst parent.
    now rewrite endswith_app in Hends.
  - apply build_ingest_parent.
Qed.

(** What one iteration of the second loop does to the forest. *)
Lemma attach_inv (m m' : forest) (b : StepFunction) :
  attach m b = Ok m' ->
  exists i : pydict json,
    (exists root, dict_get (parent_execution_arn b) m = Some root /\
       m' = dict_set (parent_execution_arn b)
              {| child := child root ++ [(execution_arn b, i)];
                 node_info := node_info root |} m) \/
    (dict_get (parent_execution_arn b) m = None /\
     exists j, synthetic_info (parent_execution_arn b) j /\
       m' = dict_set (parent_execution_arn b)
              {| child := [(execution_arn b, i)]; node_info := j |} m).
Proof.
  unfold attach. intros Hat.
  destruct (describe_execution (parent_execution_arn b)) as [ei|] eqn:Hd;
    cbn [bind] in Hat; [|discriminate].
  change (call (set_execution_metadata ei) b) with (Ok (with_execution_metadata ei b)) in Hat.
  cbn [bind] in Hat.
  destruct (call set_extra_metadata (with_execution_metadata ei b)) as [b'|] eqn:Hb;
    cbn [bind] in Hat; [|discriminate].
  pose proof (call_fst _ _ _ Hb) as Hb'.
  assert (Hp : parent_execution_arn b' = parent_execution_arn b).
  { rewrite Hb', set_extra_metadata_parent. reflexivity. }
  assert (Ha : execution_arn b' = execution_arn b).
  { rewrite Hb'.
    destruct (enrich_identity SetExtraMetadata (with_execution_metadata ei b))
      as (_ & _ & _ & _ & Harn & _). exact Harn. }
  rewrite Hp, Ha in Hat. exists (info b').
  destruct (dict_get (parent_execution_arn b) m) as [root|] eqn:Hg.
  - left. exists root. split; [reflexivity | congruence].
  - right. split; [reflexivity|].
    destruct (new_StepFunction ei) as [t|] eqn:Ht; cbn [bind] in Hat; [|discriminate].
    change (call (set_execution_metadata ei) t) with (Ok (with_execution_metadata ei t)) in Hat.
    cbn [bind] in Hat.
    destruct (call set_extra_metadata (with_execution_metadata ei t)) as [t'|] eqn:Ht';
      cbn [bind] in Hat; [|discriminate].
    exists (info t'). split; [|congruence].
    exists ei, t, t'. auto.
Qed.

Lemma keys_set_iff {V : Type} (k p : string) (v : V) (d : pydict V) :
  In k (keys (dict_set p v d)) <-> In k (keys d) \/ k = p.
Proof.
  destruct (in_dec string_dec p (keys d)) as [Hp|Hp].
  - rewrite keys_set_present by assumption.
    split; [auto | intros [Hk| ->]; assumption].
  - rewrite keys_set_absent by assumption. rewrite in_app_iff. simpl.
    split.
    + intros [Hk|[<-|[]]]; auto.
    + intros [Hk| ->]; auto.
Qed.

Lemma children_of_set (k p : string) (root : node) (m : forest) :
  children_of k (dict_set p root m) =
  if String.eqb p k then child root else children_of k m.
Proof.
  unfold children_of. destruct (String.eqb_spec p k) as [->|Hne].
  - now rewrite dict_get_set_same.
  - rewrite dict_get_set_other by congruence. reflexivity.
Qed.

(** The effect of one iteration on keys, children and infos. *)
Lemma attach_step (m m' : forest) (b : StepFunction) :
  attach m b = Ok m' ->
  (forall k, In k (keys m') <-> In k (keys m) \/ k = parent_execution_arn b) /\
  (NoDup (keys m) -> NoDup (keys m')) /\
  (forall k, map fst (children_of k m') =
             (map fst (children_of k m) ++
              map execution_arn (spawned_by k [b]))%list) /\
  (forall k root', dict_get k m' = Some root' ->
     (exists root, dict_get k m = Some root /\ node_info root' = node_info root) \/
     (dict_get k m = None /\ synthetic_info k (node_info root'))).
Proof.
  intros Hat. destruct (attach_inv m m' b Hat) as [i Hcases].
  set (p := parent_execution_arn b) in *.
  assert (Hshape : exists root' : node,
            m' = dict_set p root' m /\
            map fst (child root') =
              (map fst (children_of p m) ++ [execution_arn b])%list /\
            ((exists root, dict_get p m = Some root /\ node_info root' = node_info root) \/
             (dict_get p m = None /\ synthetic_info p (node_info root')))).
  { destruct Hcases as [(root & Hg & ->)|(Hg & j & Hj & ->)]; eexists; split;
      try reflexivity; unfold children_of; rewrite Hg; simpl; split.
    - now rewrite map_app.
    - left. eauto.
    - reflexivity.
    - right. auto. }
  destruct Hshape as (root' & -> & Hchildren & Hinfo).
  split; [|split; [|split]].
  - intros k. apply keys_set_iff.
  - apply keys_set_NoDup.
  - intros k. rewrite children_of_set. unfold spawned_by. simpl. fold p.
    destruct (String.eqb_spec p k) as [<-|Hne]; simpl.
    + exact Hchildren.
    + now rewrite app_nil_r.
  - intros k root1 Hg. destruct (String.eqb_spec k p) as [->|Hne].
    + rewrite dict_get_set_same in Hg. injection Hg as <-. exact Hinfo.
    + rewrite dict_get_set_other in Hg by assumption. left. eauto.
Qed.

(** The second loop as a whole. *)
Lemma attach_all_spec (bs : list StepFunction) :
  forall m m' : forest, attach_all bs m = Ok m' ->
  (forall k, In k (keys m') <->
             In k (keys m) \/ In k (map parent_execution_arn bs)) /\
  (NoDup (keys m) -> NoDup (keys m')) /\
  (forall k, map fst (children_of k m') =
             (map fst (children_of k m) ++
              map execution_arn (spawned_by k bs))%list) /\
  (forall k root', dict_get k m' = Some root' ->
     (exists root, dict_get k m = Some root /\ node_info root' = node_info root) \/
     (dict_get k m = None /\ synthetic_info k (node_info root'))).
Proof.
  induction bs as [|b bs IH]; intros m m' Hall; simpl in Hall.
  - injection Hall as <-. split; [|split; [|split]].
    + intros k. simpl. tauto.
    + auto.
    + intros k. simpl. now rewrite app_nil_r.
    + intros k root' Hg. left. eauto.
  - destruct (attach m b) as [m1|] eqn:Hat; cbn [bind] in Hall; [|discriminate].
    destruct (attach_step m m1 b Hat) as (Hk1 & Hn1 & Hc1 & Hi1).
    destruct (IH m1 m' Hall) as (Hk2 & Hn2 & Hc2 & Hi2).
    split; [|split; [|split]].
    + intros k. rewrite Hk2, Hk1. simpl. intuition auto.
    + auto.
    + intros k. rewrite Hc2, Hc1. rewrite <- app_assoc, <- map_app.
      unfold spawned_by. simpl.
      destruct (String.eqb (parent_execution_arn b) k); reflexivity.
    + intros k root' Hg. destruct (Hi2 k root' Hg) as [(root1 & Hg1 & Hinfo)|(Hg1 & Hsyn)].
      * destruct (Hi1 k root1 Hg1) as [(root & Hg0 & Hinfo0)|(Hg0 & Hsyn0)].
        -- left. exists root. split; [assumption | congruence].
        -- right. split; [assumption|]. now rewrite Hinfo.
      * right. split; [|assumption].
        apply dict_get_none_keys. apply dict_get_none_keys in Hg1.
        intros Hin. apply Hg1. apply Hk1. auto.
Qed.

(** The first loop: one root per discovery record, no children yet. *)
Lemma discover_roots (ds : list StepFunction) :
  forall m : forest,
  (forall k, In k (keys (fold_left add_discover ds m)) <->
             In k (keys m) \/ In k (map execution_arn ds)) /\
  (NoDup (keys m) -> NoDup (keys (fold_left add_discover ds m))) /\
  ((forall k, children_of k m = []) ->
   forall k, children_of k (fold_left add_discover ds m) = []).
Proof.
  induction ds as [|a ds IH]; intros m; simpl.
  - split; [intros k; tauto | auto].
  - destruct (IH (add_discover m a)) as (Hk & Hn & Hc).
    split; [|split].
    + intros k. rewrite Hk. unfold add_discover. rewrite keys_set_iff.
      intuition auto.
    + intros Hnd. apply Hn. unfold add_discover. now apply keys_set_NoDup.
    + intros Hempty. apply Hc. intros k. unfold add_discover.
      rewrite children_of_set. simpl.
      destruct (String.eqb (execution_arn a) k); auto.
Qed.

(** The forest [build_relation_tree] returns. *)
Lemma build_relation_tree_spec
    (discover_list ingest_list : list StepFunction) (relation_map : forest) :
  build_relation_tree discover_list ingest_list = Ok relation_map ->
  NoDup (keys relation_map) /\
  (forall k, In k (keys relation_map) <->
             In k (map execution_arn discover_list) \/
             In k (map parent_execution_arn ingest_list)) /\
  (forall k, map fst (children_of k relation_map) =
             map execution_arn (spawned_by k ingest_list)) /\
  (forall k root, dict_get k relation_map = Some root ->
     ~ In k (map execution_arn discover_list) ->
     synthetic_info k (node_info root)).
Proof.
  unfold build_relation_tree. intros Hbuild.
  destruct (discover_roots discover_list []) as (Hk0 & Hn0 & Hc0).
  destruct (attach_all_spec ingest_list _ _ Hbuild) as (Hk & Hn & Hc & Hi).
  split; [|split; [|split]].
  - apply Hn, Hn0. constructor.
  - intros k. rewrite Hk, Hk0. simpl. tauto.
  - intros k. rewrite Hc, Hc0; [reflexivity|]. intros k'. reflexivity.
  - intros k root Hg Hnot.
    destruct (Hi k root Hg) as [(root0 & Hg0 & _)|(_ & Hsyn)]; [|assumption].
    exfalso. apply Hnot.
    assert (Hin : In k (keys (fold_left add_discover discover_list []))).
    { apply dict_get_in_keys. congruence. }
    apply Hk0 in Hin. destruct Hin as [[]|Hin]. assumption.
Qed.

Lemma attach_returns (m : forest) (b : StepFunction) :
  attachable b -> exists m', attach m b = Ok m'.
Proof.
  intros (ei & b' & t & t' & Hd & Hb & Ht & Ht'). unfold attach.
  rewrite Hd. cbn [bind].
  change (call (set_execution_metadata ei) b) with (Ok (with_execution_metadata ei b)).
  cbn [bind]. rewrite Hb. cbn [bind].
  destruct (dict_get (parent_execution_arn b') m); [eauto|].
  rewrite Ht. cbn [bind].
  change (call (set_execution_metadata ei) t) with (Ok (with_execution_metadata ei t)).
  cbn [bind]. rewrite Ht'. cbn [bind]. eauto.
Qed.

Lemma build_relation_tree_returns (discover_list ingest_list : list StepFunction) :
  Forall attachable ingest_list ->
  exists relation_map, build_relation_tree discover_list ingest_list = Ok relation_map.
Proof.
  unfold build_relation_tree. generalize (fold_left add_discover discover_list []).
  induction ingest_list as [|b bs IH]; intros m Hall; simpl; [eauto|].
  inversion Hall as [|? ? Hb Hbs]; subst.
  destruct (attach_returns m b Hb) as [m1 ->]. cbn [bind]. now apply IH.
Qed.

Lemma NoDup_map_injective {A B : Type} (f : A -> B) (l : list A) (x y : A) :
  NoDup (map f l) -> In x l -> In y l -> f x = f y -> x = y.
Proof.
  induction l as [|a l IH]; simpl; [tauto|].
  intros Hnd Hx Hy Hf. inversion Hnd as [|? ? Hnotin Hnd']; subst.
  destruct Hx as [->|Hx], Hy as [->|Hy]; auto.
  - exfalso. apply Hnotin. rewrite Hf. now apply in_map.
  - exfalso. apply Hnotin. rewrite <- Hf. now apply in_map.
Qed.

Lemma NoDup_map_filter {A B : Type} (f : A -> B) (g : A -> bool) (l : list A) :
  NoDup (map f l) -> NoDup (map f (filter g l)).
Proof.
  induction l as [|a l IH]; simpl; [auto|].
  intros Hnd. inversion Hnd as [|? ? Hnotin Hnd']; subst.
  destruct (g a); simpl; [constructor|]; auto.
  intros Hin. apply Hnotin. apply in_map_iff in Hin.
  destruct Hin as (x & Hx & Hin). apply filter_In in Hin.
  rewrite <- Hx. apply in_map. tauto.
Qed.

Lemma children_of_get (k : string) (m : forest) (root : node) :
  dict_get k m = Some root -> children_of k m = child root.
Proof. unfold children_of. now intros ->. Qed.

(** C9.  In the forest [build_relation_tree] returns, the reference of
    every discovery record is a key, and is so once; the children
    recorded under it are the ingestion records that name it as parent,
    so a discovery record that none names has the empty list.  The
    function returns whenever every ingestion record can be attached, in
    particular when there is none. *)
Theorem every_discovery_record_is_one_root
    (discover_list ingest_list : list StepFunction) :
  (Forall attachable ingest_list ->
   exists relation_map,
     build_relation_tree discover_list ingest_list = Ok relation_map) /\
  (forall relation_map,
     build_relation_tree discover_list ingest_list = Ok relation_map ->
     forall a, In a discover_list ->
       count_occ string_dec (keys relation_map) (execution_arn a) = 1%nat /\
       exists root,
         dict_get (execution_arn a) relation_map = Some root /\
         map fst (child root) =
           map execution_arn (spawned_by (execution_arn a) ingest_list) /\
         (spawned_by (execution_arn a) ingest_list = [] -> child root = [])).
Proof.
  split; [apply build_relation_tree_returns|].
  intros relation_map Hbuild a Ha.
  destruct (build_relation_tree_spec _ _ _ Hbuild) as (Hnd & Hkeys & Hchildren & _).
  assert (Hin : In (execution_arn a) (keys relation_map)).
  { apply Hkeys. left. now apply in_map. }
  split.
  - now apply NoDup_count_occ'.
  - destruct (dict_get (execution_arn a) relation_map) as [root|] eqn:Hg.
    + exists root. split; [reflexivity|].
      specialize (Hchildren (execution_arn a)).
      rewrite (children_of_get _ _ _ Hg) in Hchildren. split; [assumption|].
      intros Hnone. rewrite Hnone in Hchildren. simpl in Hchildren.
      now destruct (child root).
    + apply dict_get_in_keys in Hin. contradiction.
Qed.

(** C2.  In the forest [build_relation_tree] returns, the keys are
    pairwise distinct and the children under a key are the ingestion
    records that name it as parent, in the order of the list.  So when
    two or more of them name a parent [p] that no discovery record has,
    [p] is one key, its root carries the info of the record manufactured
    from the description of [p], and its children are all of them; every
    ingestion record is among the children of its parent, and, the
    references of the ingestion records being distinct, under no other
    key and there only once. *)
Theorem shared_unlisted_parent_is_one_root
    (discover_list ingest_list : list StepFunction) (p : string) :
  (Forall attachable ingest_list ->
   exists relation_map,
     build_relation_tree discover_list ingest_list = Ok relation_map) /\
  (forall relation_map,
     build_relation_tree discover_list ingest_list = Ok relation_map ->
     (~ In p (map execution_arn discover_list) ->
      (2 <= List.length (spawned_by p ingest_list))%nat ->
      count_occ string_dec (keys relation_map) p = 1%nat /\
      exists root,
        dict_get p relation_map = Some root /\
        synthetic_info p (node_info root) /\
        map fst (child root) = map execution_arn (spawned_by p ingest_list) /\
        List.length (child root) = List.length (spawned_by p ingest_list)) /\
     NoDup (keys relation_map) /\
     (forall b, In b ingest_list ->
        exists root,
          dict_get (parent_execution_arn b) relation_map = Some root /\
          In (execution_arn b) (map fst (child root))) /\
     (NoDup (map execution_arn ingest_list) ->
      forall b, In b ingest_list ->
        (forall k root, dict_get k relation_map = Some root ->
           In (execution_arn b) (map fst (child root)) ->
           k = parent_execution_arn b) /\
        count_occ string_dec
          (map fst (children_of (parent_execution_arn b) relation_map))
          (execution_arn b) = 1%nat)).
Proof.
  split; [apply build_relation_tree_returns|].
  intros relation_map Hbuild.
  destruct (build_relation_tree_spec _ _ _ Hbuild) as (Hnd & Hkeys & Hchildren & Hsyn).
  assert (Hroot : forall b, In b ingest_list ->
            exists root, dict_get (parent_execution_arn b) relation_map = Some root).
  { intros b Hb.
    destruct (dict_get (parent_execution_arn b) relation_map) as [root|] eqn:Hg; [eauto|].
    apply dict_get_none_keys in Hg. exfalso. apply Hg, Hkeys. right. now apply in_map. }
  assert (Hmine : forall b, In b ingest_list ->
            In b (spawned_by (parent_execution_arn b) ingest_list)).
  { intros b Hb. apply filter_In. split; [assumption | apply String.eqb_refl]. }
  split; [|split; [|split]].
  - intros Hunlisted Hmany.
    destruct (spawned_by p ingest_list) as [|b siblings] eqn:Hsib; [simpl in Hmany; lia|].
    assert (Hb : In b ingest_list /\ parent_execution_arn b = p).
    { assert (Hin : In b (spawned_by p ingest_list)) by (rewrite Hsib; now left).
      apply filter_In in Hin. destruct Hin as [Hin Heq].
      now apply String.eqb_eq in Heq. }
    destruct Hb as [Hb Hp]. destruct (Hroot b Hb) as [root Hg]. rewrite Hp in Hg.
    split.
    + apply NoDup_count_occ'; [assumption|]. apply dict_get_in_keys. congruence.
    + exists root. split; [assumption|]. split; [now apply Hsyn|].
      specialize (Hchildren p). rewrite (children_of_get _ _ _ Hg), Hsib in Hchildren.
      split; [assumption|].
      rewrite <- (length_map fst), Hchildren. apply length_map.
  - assumption.
  - intros b Hb. destruct (Hroot b Hb) as [root Hg]. exists root. split; [assumption|].
    rewrite <- (children_of_get _ _ _ Hg), Hchildren. apply in_map. now apply Hmine.
  - intros Harns b Hb. split.
    + intros k root Hg Hin.
      rewrite <- (children_of_get _ _ _ Hg), Hchildren in Hin.
      apply in_map_iff in Hin. destruct Hin as (b' & Harn & Hb').
      apply filter_In in Hb'. destruct Hb' as [Hb' Hk]. apply String.eqb_eq in Hk.
      assert (b' = b) by (eapply NoDup_map_injective; eassumption).
      congruence.
    + rewrite Hchildren. apply NoDup_count_occ'.
      * now apply NoDup_map_filter.
      * apply in_map. now apply Hmine.
Qed.

End Tree.

(** ** The backfill pass *)

Section Backfill.

Context `{PyLib} `{StepClient} `{S3Client}.

Lemma eq_str_false (st : json) (s : string) : st <> JStr s -> eq_str st s = false.
Proof.
  destruct st; simpl; auto. intros Hne. apply String.eqb_neq. congruence.
Qed.

Lemma backfill_at_inv (d : string) (s s' : forest) :
  backfill_at d s = Ok s' ->
  exists root root',
    dict_get d s = Some root /\ backfilled_root d root root' /\
    s' = dict_set d root' s.
Proof.
  unfold backfill_at, backfilled_root. intros Hat.
  destruct (get_execution_history d) as [events|]; cbn [bind] in Hat; [|discriminate].
  destruct (dict_get d s) as [root|]; cbn [require bind] in Hat; [|discriminate].
  destruct (backfill events root) as [root'|] eqn:Hb; cbn [bind] in Hat; [|discriminate].
  injection Hat as <-. exists root, root'. split; [reflexivity|].
  split; [|reflexivity]. exists events. split; [reflexivity | assumption].
Qed.

Lemma backfill_at_ok (d : string) (s : forest) (root root' : node) :
  dict_get d s = Some root -> backfilled_root d root root' ->
  backfill_at d s = Ok (dict_set d root' s).
Proof.
  intros Hg (events & Hh & Hb). unfold backfill_at.
  rewrite Hh. cbn [bind]. rewrite Hg. cbn [require bind]. now rewrite Hb.
Qed.

(** The history is fetched for every root, before its status is
    looked at: a lookup that raises ends the iteration. *)
Lemma backfill_at_lookup_first (d : string) (s : forest) (e : exn) :
  get_execution_history d = Raise e -> backfill_at d s = Raise e.
Proof.
  intros Hh. unfold backfill_at. now rewrite Hh.
Qed.

(** A loop over distinct keys that ends normally has given every key its
    backfilled root and touched nothing else. *)
Lemma backfill_keys_ok (ds : list string) :
  forall s s' : forest,
  NoDup ds -> backfill_keys ds s = (s', Ok tt) ->
  keys s' = keys s /\
  forall d,
    (In d ds -> exists root root',
       dict_get d s = Some root /\ backfilled_root d root root' /\
       dict_get d s' = Some root') /\
    (~ In d ds -> dict_get d s' = dict_get d s).
Proof.
  induction ds as [|d0 ds IH]; intros s s' Hnd Hloop; simpl in Hloop.
  - injection Hloop as <-. split; [reflexivity|]. intros d. split; [intros [] | reflexivity].
  - inversion Hnd as [|? ? Hnotin Hnd']; subst.
    destruct (backfill_at d0 s) as [s1|] eqn:Hat; [|discriminate].
    destruct (backfill_at_inv _ _ _ Hat) as (root & root' & Hg & Hb & ->).
    destruct (IH _ _ Hnd' Hloop) as (Hkeys & Hall).
    assert (Hin0 : In d0 (keys s)) by (apply dict_get_in_keys; congruence).
    split; [now rewrite Hkeys, keys_set_present|].
    intros d. split.
    + intros [<-|Hin].
      * exists root, root'. split; [assumption|]. split; [assumption|].
        destruct (Hall d0) as [_ Hrest]. rewrite (Hrest Hnotin).
        apply dict_get_set_same.
      * destruct (Hall d) as [Hthere _].
        destruct (Hthere Hin) as (r & r' & Hg1 & Hb1 & Hg').
        assert (d <> d0) by (intros ->; contradiction).
        rewrite dict_get_set_other in Hg1 by assumption. eauto 6.
    + intros Hnot. destruct (Hall d) as [_ Hrest].
      rewrite Hrest by (simpl in Hnot; tauto).
      apply dict_get_set_other. simpl in Hnot. intros ->. tauto.
Qed.


(** The loop ends at the first key whose body raises: the keys before it
    have their backfilled roots, every other root is as it was. *)
Lemma backfill_keys_raises (ds1 : list string) :
  forall (s : forest) (d : string) (ds2 : list string) (root : node)
         (events : list history_event) (e : exn),
  NoDup (ds1 ++ d :: ds2) ->
  (forall k, In k ds1 -> exists r r',
     dict_get k s = Some r /\ backfilled_root k r r') ->
  dict_get d s = Some root ->
  get_execution_history d = Ok events ->
  backfill events root = Raise e ->
  exists s',
    backfill_keys (ds1 ++ d :: ds2) s = (s', Raise e) /\
    keys s' = keys s /\
    (forall k, ~ In k ds1 -> dict_get k s' = dict_get k s) /\
    (forall k, In k ds1 -> exists r r',
       dict_get k s = Some r /\ backfilled_root k r r' /\ dict_get k s' = Some r').
Proof.
  induction ds1 as [|d0 ds1 IH]; intros s d ds2 root events e Hnd Hgood Hg Hh Hb; simpl.
  - unfold backfill_at. rewrite Hh. cbn [bind]. rewrite Hg. cbn [require bind].
    rewrite Hb. cbn [bind]. exists s. repeat split; auto. intros k [].
  - simpl in Hnd. inversion Hnd as [|? ? Hnotin Hnd']; subst.
    destruct (Hgood d0 (or_introl eq_refl)) as (r0 & r0' & Hg0 & Hb0).
    rewrite (backfill_at_ok _ _ _ _ Hg0 Hb0).
    assert (Hd : d <> d0).
    { intros ->. apply Hnotin. apply in_or_app. right. now left. }
    destruct (IH (dict_set d0 r0' s) d ds2 root events e Hnd') as (s' & Hrun & Hkeys & Hrest & Hdone);
      try assumption.
    + intros k Hin. destruct (Hgood k (or_intror Hin)) as (r & r' & Hg1 & Hb1).
      exists r, r'. split; [|assumption].
      rewrite dict_get_set_other; [assumption|]. intros ->.
      apply Hnotin. apply in_or_app. now left.
    + now rewrite dict_get_set_other.
    + exists s'. split; [assumption|]. split; [|split].
      * rewrite Hkeys. apply keys_set_present. apply dict_get_in_keys. congruence.
      * intros k Hnot. rewrite Hrest by tauto.
        apply dict_get_set_other. intros ->. tauto.
      * intros k [<-|Hin].
        -- exists r0, r0'. split; [assumption|]. split; [assumption|].
           rewrite Hrest; [apply dict_get_set_same|].
           intros Hin. apply Hnotin. apply in_or_app. now left.
        -- destruct (Hdone k Hin) as (r & r' & Hg1 & Hb1 & Hg').
           exists r, r'. split; [|auto].
           rewrite dict_get_set_other in Hg1; [assumption|]. intros ->.
           apply Hnotin. apply in_or_app. now left.
Qed.

Lemma append_metadata_ok (source source' : forest) :
  append_metadata source = Ok source' <->
  append_metadata_run source = (source', Ok tt).
Proof.
  unfold append_metadata. destruct (append_metadata_run source) as [s [[]|e]]; simpl.
  - split; congruence.
  - split; [discriminate | congruence].
Qed.

(** The loop body on a root that is not RUNNING, once event 4 is
    there. *)
Lemma backfill_event (events : list history_event) (root : node)
    (st : json) (ev : history_event) :
  dict_get "status" (node_info root) = Some st ->
  st <> JStr "RUNNING" ->
  nth_error events 4 = Some ev ->
  backfill events root =
  if String.eqb (ev_type ev) "LambdaFunctionSucceeded" then
    details <- require (lambdaFunctionSucceededEventDetails ev) KeyError ;;
    output <- require (sd_output details) KeyError ;;
    output <- json_loads output ;;
    granule_count <- granule_count_of output ;;
    Ok (set_info "queued_granules_count" granule_count root)
  else
    details <- require (lambdaFunctionFailedEventDetails ev) KeyError ;;
    output <- require (fd_cause details) KeyError ;;
    Ok (set_info "queued_granules_count" (JStr "N/A")
          (set_info "fail" (JStr output) root)).
Proof.
  intros Hst Hne Hev. unfold backfill. rewrite Hst. cbn [require bind].
  rewrite (eq_str_false _ _ Hne), Hev. reflexivity.
Qed.

Lemma append_metadata_root (source source' : forest) (d : string) (root : node) :
  NoDup (keys source) ->
  append_metadata source = Ok source' ->
  dict_get d source = Some root ->
  exists root', backfilled_root d root root' /\ dict_get d source' = Some root'.
Proof.
  intros Hnd Hok Hg. apply append_metadata_ok in Hok.
  destruct (backfill_keys_ok _ _ _ Hnd Hok) as (_ & Hall).
  destruct (Hall d) as [Hthere _].
  destruct Hthere as (r & r' & Hg1 & Hb & Hg').
  - apply dict_get_in_keys. congruence.
  - exists r'. split; [congruence | assumption].
Qed.


Lemma NoDup_app_disjoint {A : Type} (l1 l2 : list A) (x : A) :
  NoDup (l1 ++ l2) -> In x l1 -> In x l2 -> False.
Proof.
  induction l1 as [|a l1 IH]; simpl; [tauto|].
  intros Hnd [->|Hin] Hin2; inversion Hnd as [|? ? Hnotin Hnd']; subst.
  - apply Hnotin. apply in_or_app. now right.
  - now apply IH.
Qed.

Lemma backfill_keys_lookup_raises (ds1 : list string) :
  forall (s : forest) (d : string) (ds2 : list string) (e : exn),
  NoDup (ds1 ++ d :: ds2) ->
  (forall k, In k ds1 -> exists r r',
     dict_get k s = Some r /\ backfilled_root k r r') ->
  get_execution_history d = Raise e ->
  exists s',
    backfill_keys (ds1 ++ d :: ds2) s = (s', Raise e) /\
    (forall k, ~ In k ds1 -> dict_get k s' = dict_get k s).
Proof.
  induction ds1 as [|d0 ds1 IH]; intros s d ds2 e Hnd Hgood Hh; simpl.
  - rewrite (backfill_at_lookup_first _ _ _ Hh). exists s. auto.
  - simpl in Hnd. inversion Hnd as [|? ? Hnotin Hnd']; subst.
    destruct (Hgood d0 (or_introl eq_refl)) as (r0 & r0' & Hg0 & Hb0).
    rewrite (backfill_at_ok _ _ _ _ Hg0 Hb0).
    destruct (IH (dict_set d0 r0' s) d ds2 e Hnd') as (s' & Hrun & Hrest);
      [|assumption|].
    + intros k Hin. destruct (Hgood k (or_intror Hin)) as (r & r' & Hg1 & Hb1).
      exists r, r'. split; [|assumption].
      rewrite dict_get_set_other; [assumption|]. intros ->.
      apply Hnotin. apply in_or_app. now left.
    + exists s'. split; [assumption|]. intros k Hnot.
      rewrite Hrest by tauto. apply dict_get_set_other. intros ->. tauto.
Qed.


(** C6, as the code has it.  For a root whose status is RUNNING the
    loop body returns, whatever the history holds, the root with
    [queued_granules_count] set to "N/A" and nothing else changed: no
    event is read and no [fail] field appears; when the lookup of the
    history returns, that is what the iteration stores, and when the pass
    returns it is the root of the returned forest.  The lookup itself is
    made before the status is looked at: when it raises, the iteration
    raises, the pass ends with that exception, and the root, like the
    roots after it, is left as it was, without a count. *)
Theorem running_root_skips_history
    (source : forest) (d : string) (root : node) :
  dict_get d source = Some root ->
  dict_get "status" (node_info root) = Some (JStr "RUNNING") ->
  (forall events,
     backfill events root = Ok (set_info "queued_granules_count" (JStr "N/A") root)) /\
  dict_get "queued_granules_count"
    (node_info (set_info "queued_granules_count" (JStr "N/A") root))
    = Some (JStr "N/A") /\
  dict_get "fail" (node_info (set_info "queued_granules_count" (JStr "N/A") root))
    = dict_get "fail" (node_info root) /\
  child (set_info "queued_granules_count" (JStr "N/A") root) = child root /\
  (forall events, get_execution_history d = Ok events ->
     backfill_at d source =
       Ok (dict_set d (set_info "queued_granules_count" (JStr "N/A") root) source)) /\
  (NoDup (keys source) ->
   forall source', append_metadata source = Ok source' ->
     dict_get d source' =
       Some (set_info "queued_granules_count" (JStr "N/A") root)) /\
  (forall e, get_execution_history d = Raise e ->
     backfill_at d source = Raise e /\
     forall before after,
       NoDup (keys source) ->
       keys source = (before ++ d :: after)%list ->
       (forall k, In k before -> exists r r',
          dict_get k source = Some r /\ backfilled_root k r r') ->
       append_metadata source = Raise e /\
       dict_get d (fst (append_metadata_run source)) = Some root /\
       (forall k, In k after ->
          dict_get k (fst (append_metadata_run source)) = dict_get k source)).
Proof.
  intros Hg Hst.
  assert (Hbody : forall events,
            backfill events root =
              Ok (set_info "queued_granules_count" (JStr "N/A") root)).
  { intros events. unfold backfill. rewrite Hst. reflexivity. }
  split; [exact Hbody|]. split; [apply dict_get_set_same|].
  split; [apply dict_get_set_other; discriminate|]. split; [reflexivity|].
  split; [|split].
  - intros events Hh. unfold backfill_at. rewrite Hh. cbn [bind].
    rewrite Hg. cbn [require bind]. now rewrite Hbody.
  - intros Hnd source' Hok.
    destruct (append_metadata_root _ _ _ _ Hnd Hok Hg) as (root' & (events & _ & Hb) & Hg').
    rewrite Hbody in Hb. congruence.
  - intros e Hh. split; [now apply backfill_at_lookup_first|].
    intros before after Hnd Hkeys Hgood. rewrite Hkeys in Hnd.
    destruct (backfill_keys_lookup_raises before source d after e Hnd Hgood Hh)
      as (s' & Hrun & Hrest).
    unfold append_metadata, append_metadata_run. rewrite Hkeys, Hrun. cbn [fst bind].
    split; [reflexivity|]. split.
    + rewrite Hrest; [exact Hg|]. intros Hin.
      apply (NoDup_app_disjoint _ _ d Hnd Hin). now left.
    + intros k Hin. apply Hrest. intros Hin1.
      apply (NoDup_app_disjoint _ _ k Hnd Hin1). now right.
Qed.

(** C3, as the code has it.  On a root that is not RUNNING the loop body
    raises: [IndexError] when the history has no event at position 4;
    [KeyError] when that event is a success without its details or their
    output, or is not a success and lacks the failure details or their
    cause; the error of the store, of the decoding or of the parsing when
    the object named by [replace] cannot be read.  Nothing catches it:
    the pass ends there with that exception, the root is as it was, the
    roots after it are as they were, and the roots before it have been
    backfilled.  When the body returns, the [fail] field is as it was
    unless event 4 is not a success and carries a cause, which then is
    the value of [fail]. *)
Theorem malformed_history_aborts_pass
    (source : forest) (d : string) (root : node) (st : json)
    (events : list history_event) :
  dict_get d source = Some root ->
  dict_get "status" (node_info root) = Some st ->
  st <> JStr "RUNNING" ->
  get_execution_history d = Ok events ->
  (nth_error events 4 = None -> backfill events root = Raise IndexError) /\
  (forall ev, nth_error events 4 = Some ev ->
     ev_type ev = "LambdaFunctionSucceeded" ->
     lambdaFunctionSucceededEventDetails ev = None \/
     (exists details, lambdaFunctionSucceededEventDetails ev = Some details /\
                      sd_output details = None) ->
     backfill events root = Raise KeyError) /\
  (forall ev, nth_error events 4 = Some ev ->
     ev_type ev <> "LambdaFunctionSucceeded" ->
     lambdaFunctionFailedEventDetails ev = None \/
     (exists details, lambdaFunctionFailedEventDetails ev = Some details /\
                      fd_cause details = None) ->
     backfill events root = Raise KeyError) /\
  (forall ev details text output bucket key e,
     nth_error events 4 = Some ev ->
     ev_type ev = "LambdaFunctionSucceeded" ->
     lambdaFunctionSucceededEventDetails ev = Some details ->
     sd_output details = Some text ->
     json_loads text = Ok output ->
     has_key output "payload" = Ok false ->
     has_key output "replace" = Ok true ->
     subscripts output ["replace"; "Bucket"] = Ok bucket ->
     subscripts output ["replace"; "Key"] = Ok key ->
     get_object bucket key = Raise e \/
     (exists object_content, get_object bucket key = Ok object_content /\
        (utf8_decode object_content = Raise e \/
         exists text', utf8_decode object_content = Ok text' /\
                       json_loads text' = Raise e)) ->
     backfill events root = Raise e) /\
  (forall e ds1 ds2,
     backfill events root = Raise e ->
     NoDup (keys source) ->
     keys source = (ds1 ++ d :: ds2)%list ->
     (forall k, In k ds1 -> exists r r',
        dict_get k source = Some r /\ backfilled_root k r r') ->
     exists source',
       append_metadata_run source = (source', Raise e) /\
       append_metadata source = Raise e /\
       dict_get d source' = Some root /\
       (forall k, In k ds2 -> dict_get k source' = dict_get k source) /\
       (forall k, In k ds1 -> exists r r',
          dict_get k source = Some r /\ backfilled_root k r r' /\
          dict_get k source' = Some r')) /\
  (forall root', backfill events root = Ok root' ->
     exists ev, nth_error events 4 = Some ev /\
       ((ev_type ev = "LambdaFunctionSucceeded" /\
         dict_get "fail" (node_info root') = dict_get "fail" (node_info root)) \/
        (ev_type ev <> "LambdaFunctionSucceeded" /\
         exists details cause,
           lambdaFunctionFailedEventDetails ev = Some details /\
           fd_cause details = Some cause /\
           dict_get "fail" (node_info root') = Some (JStr cause)))).
Proof.
  intros Hg Hst Hne Hh.
  split; [|split; [|split; [|split; [|split]]]].
  - intros Hnone. unfold backfill. rewrite Hst. cbn [require bind].
    rewrite (eq_str_false _ _ Hne), Hnone. reflexivity.
  - intros ev Hev Htype Hmissing.
    rewrite (backfill_event events root st ev Hst Hne Hev), Htype, String.eqb_refl.
    destruct Hmissing as [->|(details & -> & Hout)]; [reflexivity|].
    cbn [require bind]. now rewrite Hout.
  - intros ev Hev Htype Hmissing. apply String.eqb_neq in Htype.
    rewrite (backfill_event events root st ev Hst Hne Hev), Htype.
    destruct Hmissing as [->|(details & -> & Hcause)]; [reflexivity|].
    cbn [require bind]. now rewrite Hcause.
  - intros ev details text output bucket key e
      Hev Htype Hdetails Htext Hparse Hpayload Hreplace Hbucket Hkey Hunreadable.
    rewrite (backfill_event events root st ev Hst Hne Hev), Htype, String.eqb_refl.
    rewrite Hdetails. cbn [require bind]. rewrite Htext. cbn [require bind].
    rewrite Hparse. cbn [bind]. unfold granule_count_of.
    rewrite Hpayload. cbn [bind]. rewrite Hreplace. cbn [bind].
    rewrite Hbucket. cbn [bind]. rewrite Hkey. cbn [bind].
    destruct Hunreadable as [->|(object_content & -> & [Hd|(text' & Hd & Hl)])];
      [reflexivity | |]; cbn [bind]; rewrite Hd; [reflexivity|].
    cbn [bind]. now rewrite Hl.
  - intros e ds1 ds2 Hraise Hnd Hkeys Hgood.
    rewrite Hkeys in Hnd.
    destruct (backfill_keys_raises ds1 source d ds2 root events e Hnd Hgood Hg Hh Hraise)
      as (source' & Hrun & _ & Hrest & Hdone).
    exists source'. unfold append_metadata, append_metadata_run.
    rewrite Hkeys, Hrun. split; [reflexivity|]. split; [reflexivity|].
    split; [|split; [|assumption]].
    + rewrite Hrest; [assumption|]. intros Hin.
      apply (NoDup_app_disjoint _ _ d Hnd Hin). now left.
    + intros k Hin. apply Hrest. intros Hin1.
      apply (NoDup_app_disjoint _ _ k Hnd Hin1). now right.
  - intros root' Hb. unfold backfill in Hb. rewrite Hst in Hb. cbn [require bind] in Hb.
    rewrite (eq_str_false _ _ Hne) in Hb.
    destruct (nth_error events 4) as [ev|]; cbn [require bind] in Hb; [|discriminate].
    exists ev. split; [reflexivity|].
    destruct (String.eqb_spec (ev_type ev) "LambdaFunctionSucceeded") as [Htype|Htype].
    + left. split; [exact Htype|].
      destruct (lambdaFunctionSucceededEventDetails ev) as [details|];
        cbn [require bind] in Hb; [|discriminate].
      destruct (sd_output details) as [text|]; cbn [require bind] in Hb; [|discriminate].
      destruct (json_loads text) as [output|]; cbn [bind] in Hb; [|discriminate].
      destruct (granule_count_of output) as [count|]; cbn [bind] in Hb; [|discriminate].
      injection Hb as <-. cbn [set_info node_info].
      apply dict_get_set_other. discriminate.
    + right. split; [exact Htype|].
      destruct (lambdaFunctionFailedEventDetails ev) as [details|];
        cbn [require bind] in Hb; [|discriminate].
      destruct (fd_cause details) as [cause|] eqn:Hcause;
        cbn [require bind] in Hb; [|discriminate].
      injection Hb as <-. exists details, cause. split; [reflexivity|].
      split; [exact Hcause|]. cbn [set_info node_info].
      rewrite dict_get_set_other by discriminate. apply dict_get_set_same.
Qed.

End Backfill.

(** * Further properties of the code *)

(** ** Enrichment: what each method may change, and what it leaves on an
    error *)

Section Enrichment.

Context `{PyLib}.

Lemma method_frame (self : StepFunction) :
  same_except [ParentExecutionArn] self (fst (set_parent self)) /\
  same_except [GranuleId] self (fst (set_granule_id self)) /\
  same_except [Collection; Provider] self (fst (set_extra_metadata self)) /\
  (forall md,
     same_except [ExecutionMetadata] self (fst (set_execution_metadata md self))).
Proof.
  split; [|split; [|split]].
  - unfold set_parent. repeat case_split; cbn [fst];
      (split; [repeat split|]); simpl; intuition auto.
  - unfold set_granule_id. repeat case_split; cbn [fst];
      (split; [repeat split|]); simpl; intuition auto.
  - unfold set_extra_metadata. repeat case_split; cbn [fst];
      (split; [repeat split|]); simpl; intuition auto.
  - intros md. (split; [repeat split|]); simpl; intuition auto.
Qed.

(** Each enrichment method, whether or not it raises, leaves every
    attribute alone except: [set_parent] the parent reference,
    [set_granule_id] the granule identifier, [set_extra_metadata] the
    collection and the provider, [set_execution_metadata] the raw
    description. *)
Theorem enrichment_frame (self : StepFunction) :
  same_except [ParentExecutionArn] self (fst (set_parent self)) /\
  same_except [GranuleId] self (fst (set_granule_id self)) /\
  same_except [Collection; Provider] self (fst (set_extra_metadata self)) /\
  (forall md,
     same_except [ExecutionMetadata] self (fst (set_execution_metadata md self))).
Proof. exact (method_frame self). Qed.

(** [set_parent] and [set_granule_id] assign after everything that can
    raise: when they raise, the record is as it was.
    [set_extra_metadata] assigns the collection before it reads the
    provider: when the payload names the collection but the protocol
    cannot be read, it raises with the collection already replaced and
    the provider as it was. *)
Theorem enrichment_on_error
    (self : StepFunction) (md : execution) (text : string) (doc c : json) (e : exn) :
  (snd (set_parent self) <> Ok tt -> fst (set_parent self) = self) /\
  (snd (set_granule_id self) <> Ok tt -> fst (set_granule_id self) = self) /\
  (execution_metadata self = Some md ->
   ex_input md = Some text ->
   json_loads text = Ok doc ->
   subscripts doc ["meta"; "collection"; "name"] = Ok c ->
   subscripts doc ["meta"; "provider"; "protocol"] = Raise e ->
   set_extra_metadata self = (with_collection c self, Raise e) /\
   collection (fst (set_extra_metadata self)) = c /\
   provider (fst (set_extra_metadata self)) = provider self).
Proof.
  split; [|split].
  - unfold set_parent. repeat case_split; cbn [fst snd]; congruence.
  - unfold set_granule_id. repeat case_split; cbn [fst snd]; congruence.
  - intros Hmd Hin Hdoc Hname Hprotocol.
    assert (Hset : set_extra_metadata self = (with_collection c self, Raise e)).
    { unfold set_extra_metadata. rewrite Hmd, Hin. cbn [require bind].
      rewrite Hdoc. cbn [bind]. rewrite Hname. cbn [bind].
      rewrite Hprotocol. reflexivity. }
    rewrite Hset. auto.
Qed.

(** Under a description whose status is SUCCEEDED, [set_granule_id]
    raises [KeyError] when the description has no output, raises the
    parser's error when the output is not JSON, and otherwise sets the
    granule identifier to meta.cnmResponse.identifier of the output. *)
Theorem set_granule_id_on_succeeded (self : StepFunction) (md : execution) :
  execution_metadata self = Some md ->
  ex_status md = "SUCCEEDED" ->
  (ex_output md = None -> set_granule_id self = (self, Raise KeyError)) /\
  (forall text e, ex_output md = Some text -> json_loads text = Raise e ->
     set_granule_id self = (self, Raise e)) /\
  (forall text doc g, ex_output md = Some text -> json_loads text = Ok doc ->
     subscripts doc ["meta"; "cnmResponse"; "identifier"] = Ok g ->
     set_granule_id self = (with_granule_id g self, Ok tt)) /\
  (forall text doc e, ex_output md = Some text -> json_loads text = Ok doc ->
     subscripts doc ["meta"; "cnmResponse"; "identifier"] = Raise e ->
     set_granule_id self = (self, Raise e)).
Proof.
  intros Hmd Hst.
  assert (Hhead : set_granule_id self =
            match (meta <- require (ex_output md) KeyError ;;
                   j <- json_loads meta ;;
                   output <- subscripts j ["meta"; "cnmResponse"] ;;
                   subscript output "identifier") with
            | Ok g => (with_granule_id g self, Ok tt)
            | Raise e => (self, Raise e)
            end).
  { unfold set_granule_id. rewrite Hmd, Hst. reflexivity. }
  assert (Hpath : forall doc,
            (output <- subscripts doc ["meta"; "cnmResponse"] ;;
             subscript output "identifier")
            = subscripts doc ["meta"; "cnmResponse"; "identifier"]).
  { intros doc. cbn [subscripts].
    destruct (subscript doc "meta") as [v|]; cbn [bind]; [|reflexivity].
    destruct (subscript v "cnmResponse") as [w|]; cbn [bind]; [|reflexivity].
    destruct (subscript w "identifier"); reflexivity. }
  rewrite Hhead. split; [|split; [|split]].
  - intros ->. reflexivity.
  - intros text e -> Hparse. cbn [require bind]. now rewrite Hparse.
  - intros text doc g -> Hparse Hg. cbn [require bind]. rewrite Hparse. cbn [bind].
    now rewrite Hpath, Hg.
  - intros text doc e -> Hparse He. cbn [require bind]. rewrite Hparse. cbn [bind].
    now rewrite Hpath, He.
Qed.

End Enrichment.

(** ** The relation tree: order of the roots, their infos, their
    children *)

Section TreeShape.

Context `{PyLib} `{StepClient}.

Lemma call_ok (m : method) (s s' : StepFunction) :
  call m s = Ok s' <-> m s = (s', Ok tt).
Proof.
  unfold call. destruct (m s) as [t [[]|e]]; simpl; split; congruence.
Qed.

Lemma keys_set_step {V : Type} (k : string) (v : V) (d : pydict V) :
  keys (dict_set k v d) =
  if in_dec string_dec k (keys d) then keys d else (keys d ++ [k])%list.
Proof.
  destruct (in_dec string_dec k (keys d)).
  - now apply keys_set_present.
  - now apply keys_set_absent.
Qed.

Lemma attach_keys (m m' : forest) (b : StepFunction) :
  attach m b = Ok m' ->
  keys m' =
  if in_dec string_dec (parent_execution_arn b) (keys m) then keys m
  else (keys m ++ [parent_execution_arn b])%list.
Proof.
  intros Hat. destruct (attach_inv m m' b Hat) as [i [(root & _ & ->)|(_ & j & _ & ->)]];
    apply keys_set_step.
Qed.

(** The keys of the forest, in the order a loop over it visits them: the
    references of the discovery records, then the parents no discovery
    record has, each where it first occurs. *)
Theorem roots_in_order_of_first_occurrence
    (discover_list ingest_list : list StepFunction) (relation_map : forest) :
  build_relation_tree discover_list ingest_list = Ok relation_map ->
  keys relation_map =
  first_occurrences (map execution_arn discover_list ++
                     map parent_execution_arn ingest_list).
Proof.
  unfold build_relation_tree, first_occurrences. rewrite fold_left_app.
  intros Hbuild.
  assert (Hd : forall ds (m : forest),
            keys (fold_left add_discover ds m) =
            fold_left (fun seen k => if in_dec string_dec k seen then seen
                                     else (seen ++ [k])%list)
              (map execution_arn ds) (keys m)).
  { induction ds as [|a ds IH]; intros m; simpl; [reflexivity|].
    rewrite IH. unfold add_discover. now rewrite keys_set_step. }
  assert (Ha : forall bs (m m' : forest), attach_all bs m = Ok m' ->
            keys m' =
            fold_left (fun seen k => if in_dec string_dec k seen then seen
                                     else (seen ++ [k])%list)
              (map parent_execution_arn bs) (keys m)).
  { induction bs as [|b bs IH]; intros m m' Hall; simpl in *.
    - now injection Hall as <-.
    - destruct (attach m b) as [m1|] eqn:Hat; cbn [bind] in Hall; [|discriminate].
      rewrite (IH m1 m' Hall). now rewrite (attach_keys _ _ _ Hat). }
  rewrite (Ha _ _ _ Hbuild), Hd. reflexivity.
Qed.

Lemma discover_roots_info (ds : list StepFunction) :
  forall (m : forest) (k : string) (root : node),
  dict_get k (fold_left add_discover ds m) = Some root ->
  (exists a, In a ds /\ execution_arn a = k /\
             root = {| child := []; node_info := info a |}) \/
  dict_get k m = Some root.
Proof.
  induction ds as [|a ds IH]; intros m k root Hg; simpl in Hg; [now right|].
  destruct (IH _ _ _ Hg) as [(a' & Hin & Harn & Hroot)|Hg'].
  - left. exists a'. simpl. auto.
  - unfold add_discover in Hg'. destruct (String.eqb_spec k (execution_arn a)) as [->|Hne].
    + rewrite dict_get_set_same in Hg'. injection Hg' as <-.
      left. exists a. simpl. auto.
    + rewrite dict_get_set_other in Hg' by assumption. now right.
Qed.

Lemma discover_roots_last (ds : list StepFunction) :
  forall (m : forest) (a : StepFunction),
  NoDup (map execution_arn ds) -> In a ds ->
  dict_get (execution_arn a) (fold_left add_discover ds m)
  = Some {| child := []; node_info := info a |}.
Proof.
  induction ds as [|a0 ds IH]; intros m a Hnd Hin; simpl in *; [contradiction|].
  inversion Hnd as [|? ? Hnotin Hnd']; subst.
  destruct Hin as [->|Hin]; [|now apply IH].
  destruct (dict_get (execution_arn a) (fold_left add_discover ds (add_discover m a)))
    as [root|] eqn:Hg.
  - destruct (discover_roots_info _ _ _ _ Hg) as [(a' & Hin' & Harn & _)|Hg'].
    + exfalso. apply Hnotin. rewrite <- Harn. now apply in_map.
    + unfold add_discover in Hg'. rewrite dict_get_set_same in Hg'. congruence.
  - exfalso. apply dict_get_none_keys in Hg. apply Hg.
    apply (proj1 (discover_roots ds (add_discover m a))). left.
    unfold add_discover. apply keys_set_iff. now right.
Qed.

Lemma built_root_info
    (discover_list ingest_list : list StepFunction) (relation_map : forest)
    (k : string) (root : node) :
  build_relation_tree discover_list ingest_list = Ok relation_map ->
  dict_get k relation_map = Some root ->
  ((exists a, In a discover_list /\ execution_arn a = k /\ node_info root = info a) \/
   (~ In k (map execution_arn discover_list) /\ synthetic_info k (node_info root))) /\
  (NoDup (map execution_arn discover_list) ->
   forall a, In a discover_list -> execution_arn a = k -> node_info root = info a) /\
  root_info (node_info root) /\
  dict_get "queued_granules_count" (node_info root) = None /\
  dict_get "fail" (node_info root) = None.
Proof.
  unfold build_relation_tree. intros Hbuild Hg.
  destruct (attach_all_spec ingest_list _ _ Hbuild) as (_ & _ & _ & Hinfo).
  assert (Hcases :
    (exists a, In a discover_list /\ execution_arn a = k /\ node_info root = info a) \/
    (~ In k (map execution_arn discover_list) /\ synthetic_info k (node_info root))).
  { destruct (Hinfo k root Hg) as [(root0 & Hg0 & Heq)|(Hg0 & Hsyn)].
    - left. destruct (discover_roots_info _ _ _ _ Hg0) as [(a & Hin & Harn & ->)|Hnil];
        [|discriminate]. exists a. auto.
    - right. split; [|assumption]. intros Hin. apply dict_get_none_keys in Hg0.
      apply Hg0. apply (proj1 (discover_roots discover_list [])). now right. }
  assert (Hrecord : root_info (node_info root)).
  { destruct Hcases as [(a & _ & _ & ->)|(_ & ei & t & t' & _ & _ & _ & ->)];
      eexists; reflexivity. }
  split; [exact Hcases|]. split; [|split; [exact Hrecord|]].
  - intros Hnd a Hin Harn.
    destruct (Hinfo k root Hg) as [(root0 & Hg0 & Heq)|(Hg0 & _)].
    + rewrite <- Harn, (discover_roots_last discover_list [] a Hnd Hin) in Hg0.
      injection Hg0 as <-. exact Heq.
    + exfalso. apply dict_get_none_keys in Hg0. apply Hg0.
      apply (proj1 (discover_roots discover_list [])). right.
      rewrite <- Harn. now apply in_map.
  - destruct Hrecord as [r ->]. split; reflexivity.
Qed.

(** The info of every root is the info of a record, taken when the root
    was made and not touched since: for the reference of a discovery
    record it is the info of such a record (of that very record when the
    references of the discovery records are distinct), for any other
    key that of the record manufactured from the description of the key.
    It has neither a count nor a [fail] field yet. *)
Theorem root_info_is_a_record_info
    (discover_list ingest_list : list StepFunction) (relation_map : forest)
    (k : string) (root : node) :
  build_relation_tree discover_list ingest_list = Ok relation_map ->
  dict_get k relation_map = Some root ->
  ((exists a, In a discover_list /\ execution_arn a = k /\ node_info root = info a) \/
   (~ In k (map execution_arn discover_list) /\ synthetic_info k (node_info root))) /\
  (NoDup (map execution_arn discover_list) ->
   forall a, In a discover_list -> execution_arn a = k -> node_info root = info a) /\
  root_info (node_info root) /\
  dict_get "queued_granules_count" (node_info root) = None /\
  dict_get "fail" (node_info root) = None.
Proof. apply built_root_info. Qed.

Lemma entry_is_child (k : string) (b : StepFunction) (c : string * pydict json) :
  parent_execution_arn b = k -> entry_of k b c -> child_of k c.
Proof.
  intros Hp (ei & b' & Hd & Hb & ->). exists b, ei. cbn [fst snd]. rewrite Hb. auto.
Qed.

(** The fields of a stored entry, read off the record it was made of. *)
Lemma entry_fields (k : string) (b : StepFunction) (c : string) (i : pydict json) :
  parent_execution_arn b = k ->
  entry_of k b (c, i) ->
  c = execution_arn b /\
  dict_get "status" i = Some (JStr (status b)) /\
  dict_get "start" i = Some (JStr (isoformat (start_date_time b))) /\
  dict_get "duration" i = Some (JStr (timedelta_str (get_duration b))) /\
  dict_get "parent" i = Some (JStr k) /\
  dict_get "granuleId" i = Some (granule_id b) /\
  dict_get "queued_granules_count" i = None /\
  dict_get "fail" i = None.
Proof.
  intros Hp (ei & b' & _ & Hb & Hc). injection Hc as -> ->.
  pose proof (f_equal fst Hb) as Hfst. cbn [fst] in Hfst.
  destruct (method_frame (with_execution_metadata ei b))
    as (_ & _ & ((Hname & Hstatus & Hstart & Hstop & _) & Hparent & _ & _ & _ & Hgranule) & _).
  rewrite Hfst in *.
  cbn [name status start_date_time stop_date_time with_execution_metadata] in *.
  assert (Hpar : parent_execution_arn b' = k).
  { rewrite Hparent by (simpl; intuition discriminate). exact Hp. }
  assert (Hgr : granule_id b' = granule_id b).
  { rewrite Hgranule by (simpl; intuition discriminate). reflexivity. }
  assert (Hdur : get_duration b' = get_duration b).
  { unfold get_duration. now rewrite Hstart, Hstop. }
  split; [reflexivity|].
  cbn [info dict_get String.eqb Ascii.eqb Bool.eqb].
  now rewrite Hstatus, Hstart, Hdur, Hpar, Hgr.
Qed.

(** One iteration of the second loop, with the entry it stores. *)
Lemma attach_entry (m m' : forest) (b : StepFunction) :
  attach m b = Ok m' ->
  exists (root' : node) (c : string * pydict json),
    m' = dict_set (parent_execution_arn b) root' m /\
    entry_of (parent_execution_arn b) b c /\
    ((exists root, dict_get (parent_execution_arn b) m = Some root /\
                   child root' = (child root ++ [c])%list) \/
     (dict_get (parent_execution_arn b) m = None /\ child root' = [c])).
Proof.
  unfold attach. intros Hat.
  destruct (describe_execution (parent_execution_arn b)) as [ei|] eqn:Hd;
    cbn [bind] in Hat; [|discriminate].
  change (call (set_execution_metadata ei) b) with (Ok (with_execution_metadata ei b)) in Hat.
  cbn [bind] in Hat.
  destruct (call set_extra_metadata (with_execution_metadata ei b)) as [b'|] eqn:Hb;
    cbn [bind] in Hat; [|discriminate].
  apply call_ok in Hb.
  pose proof (f_equal fst Hb) as Hfst. cbn [fst] in Hfst.
  assert (Hp : parent_execution_arn b' = parent_execution_arn b).
  { rewrite <- Hfst, set_extra_metadata_parent. reflexivity. }
  assert (Ha : execution_arn b' = execution_arn b).
  { rewrite <- Hfst.
    destruct (enrich_identity SetExtraMetadata (with_execution_metadata ei b))
      as (_ & _ & _ & _ & Harn & _). exact Harn. }
  assert (Hentry : entry_of (parent_execution_arn b) b (execution_arn b, info b')).
  { exists ei, b'. auto. }
  rewrite Hp, Ha in Hat.
  destruct (dict_get (parent_execution_arn b) m) as [root|] eqn:Hg.
  - injection Hat as <-. eexists _, _. split; [reflexivity|]. split; [exact Hentry|].
    left. exists root. auto.
  - destruct (new_StepFunction ei) as [t|]; cbn [bind] in Hat; [|discriminate].
    change (call (set_execution_metadata ei) t) with (Ok (with_execution_metadata ei t)) in Hat.
    cbn [bind] in Hat.
    destruct (call set_extra_metadata (with_execution_metadata ei t)) as [t'|];
      cbn [bind] in Hat; [|discriminate].
    injection Hat as <-. eexists _, _. split; [reflexivity|]. split; [exact Hentry|].
    right. auto.
Qed.

(** The second loop appends, under every key, the entries of the records
    that name it, in the order of the list. *)
Lemma attach_all_entries (bs : list StepFunction) :
  forall (m m' : forest) (k : string),
  attach_all bs m = Ok m' ->
  exists cs,
    Forall2 (entry_of k) (spawned_by k bs) cs /\
    children_of k m' = (children_of k m ++ cs)%list.
Proof.
  induction bs as [|b bs IH]; intros m m' k Hall; simpl in Hall.
  - injection Hall as <-. exists []. split; [constructor | now rewrite app_nil_r].
  - destruct (attach m b) as [m1|] eqn:Hat; cbn [bind] in Hall; [|discriminate].
    destruct (IH m1 m' k Hall) as (cs & Hcs & Hchildren).
    destruct (attach_entry _ _ _ Hat) as (root' & c & -> & Hc & Hshape).
    rewrite children_of_set in Hchildren. unfold spawned_by. cbn [filter].
    destruct (String.eqb_spec (parent_execution_arn b) k) as [Hk|Hne].
    + exists (c :: cs). split.
      * constructor; [now rewrite <- Hk | exact Hcs].
      * rewrite Hchildren. unfold children_of. rewrite <- Hk.
        destruct Hshape as [(root0 & -> & ->)|(-> & ->)];
          [now rewrite <- app_assoc | reflexivity].
    + exists cs. auto.
Qed.

(** The children of a root are the entries of the ingestion records that
    name its key, one per record, in the order of the list. *)
Lemma built_children
    (discover_list ingest_list : list StepFunction) (relation_map : forest)
    (k : string) (root : node) :
  build_relation_tree discover_list ingest_list = Ok relation_map ->
  dict_get k relation_map = Some root ->
  Forall2 (entry_of k) (spawned_by k ingest_list) (child root).
Proof.
  unfold build_relation_tree. intros Hbuild Hg.
  destruct (attach_all_entries _ _ _ k Hbuild) as (cs & Hcs & Hchildren).
  rewrite (children_of_get _ _ _ Hg) in Hchildren.
  rewrite (proj2 (proj2 (discover_roots discover_list [])) (fun _ => eq_refl)) in Hchildren.
  now rewrite Hchildren.
Qed.

Lemma Forall2_In_r {A B : Type} (R : A -> B -> Prop) (l : list A) (l' : list B) (y : B) :
  Forall2 R l l' -> In y l' -> exists x, In x l /\ R x y.
Proof.
  induction 1 as [|x0 y0 l l' Hxy _ IH]; simpl; [tauto|].
  intros [<-|Hin]; [eauto|]. destruct (IH Hin) as (x & Hx & HR). eauto.
Qed.

(** An entry of a children list, and the record it was made of. *)
Lemma built_child
    (discover_list ingest_list : list StepFunction) (relation_map : forest)
    (k : string) (root : node) (c : string * pydict json) :
  build_relation_tree discover_list ingest_list = Ok relation_map ->
  dict_get k relation_map = Some root ->
  In c (child root) ->
  exists b, In b ingest_list /\ parent_execution_arn b = k /\ entry_of k b c.
Proof.
  intros Hbuild Hg Hin.
  destruct (Forall2_In_r _ _ _ _ (built_children _ _ _ _ _ Hbuild Hg) Hin)
    as (b & Hb & Hentry).
  apply filter_In in Hb. destruct Hb as [Hb Hp]. apply String.eqb_eq in Hp. eauto.
Qed.

(** The children list of a root holds one entry per ingestion record
    that names the key of the root as its parent, in the order of the
    list, and nothing else: the entry of a record is its reference with
    the info of that record once enriched from the description of the
    key.  So every entry comes from a record of the list, whose status,
    timestamps and granule identifier it shows; its [parent] field is the
    key; it has neither a count nor a [fail] field. *)
Theorem child_entries_name_their_root
    (discover_list ingest_list : list StepFunction) (relation_map : forest)
    (k : string) (root : node) :
  build_relation_tree discover_list ingest_list = Ok relation_map ->
  dict_get k relation_map = Some root ->
  Forall2 (entry_of k) (spawned_by k ingest_list) (child root) /\
  (forall c i, In (c, i) (child root) ->
     exists b,
       In b ingest_list /\ parent_execution_arn b = k /\
       entry_of k b (c, i) /\
       c = execution_arn b /\
       dict_get "status" i = Some (JStr (status b)) /\
       dict_get "start" i = Some (JStr (isoformat (start_date_time b))) /\
       dict_get "duration" i = Some (JStr (timedelta_str (get_duration b))) /\
       dict_get "parent" i = Some (JStr k) /\
       dict_get "granuleId" i = Some (granule_id b) /\
       dict_get "queued_granules_count" i = None /\
       dict_get "fail" i = None).
Proof.
  intros Hbuild Hg. split; [now apply (built_children discover_list ingest_list relation_map)|].
  intros c i Hin.
  destruct (built_child _ _ _ _ _ _ Hbuild Hg Hin) as (b & Hb & Hp & Hentry).
  exists b. split; [exact Hb|]. split; [exact Hp|]. split; [exact Hentry|].
  now apply entry_fields.
Qed.

(** The second loop stops at the first ingestion record whose parent
    cannot be described, or whose parent's description lacks the
    descriptive metadata: the records before it have been attached, and
    [build_relation_tree] raises that exception instead of returning a
    forest. *)
Theorem first_unattachable_record_aborts_build
    (discover_list before after : list StepFunction) (b : StepFunction) (e : exn) :
  Forall attachable before ->
  describe_execution (parent_execution_arn b) = Raise e \/
  (exists execution_input,
     describe_execution (parent_execution_arn b) = Ok execution_input /\
     snd (set_extra_metadata (with_execution_metadata execution_input b)) = Raise e) ->
  build_relation_tree discover_list (before ++ b :: after) = Raise e.
Proof.
  unfold build_relation_tree. generalize (fold_left add_discover discover_list []).
  induction before as [|b0 bs IH]; intros m Hall Hfail; simpl.
  - unfold attach. destruct Hfail as [->|(ei & -> & Hraise)]; [reflexivity|].
    cbn [bind].
    change (call (set_execution_metadata ei) b) with (Ok (with_execution_metadata ei b)).
    cbn [bind]. unfold call.
    destruct (set_extra_metadata (with_execution_metadata ei b)) as [b' r].
    cbn [snd] in Hraise. subst r. reflexivity.
  - inversion Hall as [|? ? Hb0 Hbs]; subst.
    destruct (attach_returns m b0 Hb0) as [m1 ->]. cbn [bind]. now apply IH.
Qed.

End TreeShape.

(** ** Listing and describing the executions *)

Section Listing.

Context `{PyLib} `{StepClient}.

Variables (discover_arn ingest_arn : string) (discover_limit ingest_limit : Z).

Lemma for_each_ok {A B : Type} (f : A -> result B) (l : list A) :
  forall ys, for_each f l = Ok ys <-> Forall2 (fun x y => f x = Ok y) l ys.
Proof.
  induction l as [|x l IH]; intros ys; simpl.
  - split; [intros Hok; injection Hok as <-; constructor | intros Hall; now inversion Hall].
  - destruct (f x) as [y|e] eqn:Hfx; cbn [bind].
    + destruct (for_each f l) as [zs|e] eqn:Hrest; cbn [bind].
      * split.
        -- intros Hok. injection Hok as <-. constructor; [assumption | now apply IH].
        -- intros Hall. inversion Hall as [|? y' ? zs' Hy Hzs]; subst.
           apply IH in Hzs. congruence.
      * split; [discriminate|]. intros Hall.
        inversion Hall as [|? y' ? zs' Hy Hzs]; subst. apply IH in Hzs. discriminate.
    + split; [discriminate|]. intros Hall. inversion Hall; subst. congruence.
Qed.

Lemma for_each_raises {A B : Type} (f : A -> result B)
    (before after : list A) (x : A) (e : exn) :
  Forall (fun y => exists r, f y = Ok r) before ->
  f x = Raise e ->
  for_each f (before ++ x :: after) = Raise e.
Proof.
  induction before as [|y l IH]; intros Hall Hx; simpl.
  - now rewrite Hx.
  - inversion Hall as [|? ? [r Hy] Hl]; subst. rewrite Hy. cbn [bind].
    now rewrite IH.
Qed.

Lemma build_discover_inv (e : execution) (r : StepFunction) :
  build_discover e = Ok r ->
  exists step execution_input,
    new_StepFunction e = Ok step /\
    describe_execution (ex_executionArn e) = Ok execution_input /\
    set_extra_metadata (with_execution_metadata execution_input step) = (r, Ok tt).
Proof.
  unfold build_discover. intros Hbuild.
  destruct (new_StepFunction e) as [step|] eqn:Hnew; cbn [bind] in Hbuild; [|discriminate].
  destruct (new_StepFunction_fields e step Hnew) as (_ & _ & Harn & _).
  rewrite Harn in Hbuild.
  destruct (describe_execution (ex_executionArn e)) as [ei|];
    cbn [bind] in Hbuild; [|discriminate].
  change (call (set_execution_metadata ei) step)
    with (Ok (with_execution_metadata ei step)) in Hbuild.
  cbn [bind] in Hbuild. apply call_ok in Hbuild. eauto.
Qed.

Lemma build_discover_fields (e : execution) (r : StepFunction) :
  build_discover e = Ok r ->
  execution_arn r = ex_executionArn e /\ status r = ex_status e /\
  parent_execution_arn r = "N/A" /\ granule_id r = JStr "N/A".
Proof.
  intros Hbuild. destruct (build_discover_inv e r Hbuild) as (step & ei & Hnew & _ & Hset).
  destruct (new_StepFunction_fields e step Hnew)
    as (Hst & _ & Harn & _ & Hg & Hp & _).
  destruct (method_frame (with_execution_metadata ei step))
    as (_ & _ & (Hid & Hparent & _ & _ & _ & Hgranule) & _).
  rewrite Hset in Hid, Hparent, Hgranule. cbn [fst] in *.
  destruct Hid as (_ & Hst' & _ & _ & Harn' & _).
  rewrite Harn', Hst', Hparent, Hgranule by (simpl; intuition discriminate).
  auto.
Qed.

Lemma build_ingest_fields (e : execution) (r : StepFunction) :
  build_ingest e = Ok r ->
  execution_arn r = ex_executionArn e /\ status r = ex_status e /\
  collection r = JStr "N/A" /\ provider r = "N/A".
Proof.
  unfold build_ingest. intros Hbuild.
  destruct (new_StepFunction e) as [step|] eqn:Hnew; cbn [bind] in Hbuild; [|discriminate].
  destruct (describe_execution (execution_arn step)) as [ei|];
    cbn [bind] in Hbuild; [|discriminate].
  change (call (set_execution_metadata ei) step)
    with (Ok (with_execution_metadata ei step)) in Hbuild.
  cbn [bind] in Hbuild.
  destruct (call set_parent (with_execution_metadata ei step)) as [step1|] eqn:Hparent;
    cbn [bind] in Hbuild; [|discriminate].
  apply call_fst in Hparent. apply call_fst in Hbuild.
  destruct (method_frame (with_execution_metadata ei step))
    as ((Hid1 & _ & _ & Hc1 & Hp1 & _) & _).
  destruct (method_frame step1) as (_ & (Hid2 & _ & _ & Hc2 & Hp2 & _) & _).
  rewrite <- Hparent in Hid1, Hc1, Hp1. rewrite <- Hbuild in Hid2, Hc2, Hp2.
  destruct Hid1 as (_ & Hst1 & _ & _ & Harn1 & _).
  destruct Hid2 as (_ & Hst2 & _ & _ & Harn2 & _).
  rewrite Harn2, Harn1, Hst2, Hst1, Hc2, Hc1, Hp2, Hp1 by (simpl; intuition discriminate).
  cbn [execution_arn status collection provider with_execution_metadata].
  unfold new_StepFunction in Hnew.
  destruct (if negb (ex_status e =? "SUCCEEDED") then Ok (ex_startDate e)
            else require (ex_stopDate e) KeyError); cbn [bind] in Hnew; [|discriminate].
  injection Hnew as <-. auto.
Qed.

(** When [build_discover_ingest_objects] returns, the two lists hold one
    record per listed execution, in the order of the listings, with the
    reference and the status of the entry.  A discovery record has the
    default parent and granule identifier; an ingestion record has the
    default collection and provider, which it receives only when it is
    attached to the tree. *)
Theorem listing_yields_one_record_per_entry
    (list_discover_exec list_exec : list execution)
    (discovers ingests : list StepFunction) :
  list_executions discover_arn discover_limit = Ok list_discover_exec ->
  list_executions ingest_arn ingest_limit = Ok list_exec ->
  build_discover_ingest_objects discover_arn ingest_arn discover_limit ingest_limit
    = Ok (discovers, ingests) ->
  map execution_arn discovers = map ex_executionArn list_discover_exec /\
  map status discovers = map ex_status list_discover_exec /\
  map execution_arn ingests = map ex_executionArn list_exec /\
  map status ingests = map ex_status list_exec /\
  Forall (fun r => parent_execution_arn r = "N/A" /\ granule_id r = JStr "N/A")
    discovers /\
  Forall (fun r => collection r = JStr "N/A" /\ provider r = "N/A") ingests.
Proof.
  unfold build_discover_ingest_objects. intros -> -> Hbuild. cbn [bind] in Hbuild.
  destruct (for_each build_discover list_discover_exec) as [ds|] eqn:Hd;
    cbn [bind] in Hbuild; [|discriminate].
  destruct (for_each build_ingest list_exec) as [bs|] eqn:Hb;
    cbn [bind] in Hbuild; [|discriminate].
  injection Hbuild as <- <-.
  apply for_each_ok in Hd. apply for_each_ok in Hb.
  assert (Hds : map execution_arn ds = map ex_executionArn list_discover_exec /\
                map status ds = map ex_status list_discover_exec /\
                Forall (fun r => parent_execution_arn r = "N/A" /\
                                 granule_id r = JStr "N/A") ds).
  { induction Hd as [|e r l rs He _ IH]; simpl; [auto|].
    destruct (build_discover_fields e r He) as (-> & -> & Hp & Hg).
    destruct IH as (-> & -> & Hall). auto. }
  assert (Hbs : map execution_arn bs = map ex_executionArn list_exec /\
                map status bs = map ex_status list_exec /\
                Forall (fun r => collection r = JStr "N/A" /\ provider r = "N/A") bs).
  { induction Hb as [|e r l rs He _ IH]; simpl; [auto|].
    destruct (build_ingest_fields e r He) as (-> & -> & Hc & Hp).
    destruct IH as (-> & -> & Hall). auto. }
  tauto.
Qed.

(** A listing that fails is fatal, and so is the first execution whose
    record cannot be built, for instance because it cannot be
    described: [build_discover_ingest_objects] raises that exception and
    returns no list. *)
Theorem first_failure_aborts_listing (e : exn) :
  (list_executions discover_arn discover_limit = Raise e ->
   build_discover_ingest_objects discover_arn ingest_arn discover_limit ingest_limit
     = Raise e) /\
  (forall list_discover_exec,
     list_executions discover_arn discover_limit = Ok list_discover_exec ->
     list_executions ingest_arn ingest_limit = Raise e ->
     build_discover_ingest_objects discover_arn ingest_arn discover_limit ingest_limit
       = Raise e) /\
  (forall before x after list_exec,
     list_executions discover_arn discover_limit = Ok (before ++ x :: after)%list ->
     list_executions ingest_arn ingest_limit = Ok list_exec ->
     Forall (fun y => exists r, build_discover y = Ok r) before ->
     build_discover x = Raise e ->
     build_discover_ingest_objects discover_arn ingest_arn discover_limit ingest_limit
       = Raise e) /\
  (forall list_discover_exec before x after,
     list_executions discover_arn discover_limit = Ok list_discover_exec ->
     list_executions ingest_arn ingest_limit = Ok (before ++ x :: after)%list ->
     Forall (fun y => exists r, build_discover y = Ok r) list_discover_exec ->
     Forall (fun y => exists r, build_ingest y = Ok r) before ->
     build_ingest x = Raise e ->
     build_discover_ingest_objects discover_arn ingest_arn discover_limit ingest_limit
       = Raise e) /\
  (forall x step,
     new_StepFunction x = Ok step ->
     describe_execution (ex_executionArn x) = Raise e ->
     build_discover x = Raise e /\ build_ingest x = Raise e).
Proof.
  unfold build_discover_ingest_objects.
  split; [|split; [|split; [|split]]].
  - intros ->. reflexivity.
  - intros l -> ->. reflexivity.
  - intros before x after l -> -> Hbefore Hx. cbn [bind].
    now rewrite (for_each_raises _ _ _ _ _ Hbefore Hx).
  - intros l before x after -> -> Hall Hbefore Hx. cbn [bind].
    assert (Hd : exists ds, for_each build_discover l = Ok ds).
    { clear -Hall. induction Hall as [|y l' [r Hy] _ [ds IH]]; simpl; [eauto|].
      rewrite Hy, IH. cbn [bind]. eauto. }
    destruct Hd as [ds ->]. cbn [bind].
    now rewrite (for_each_raises _ _ _ _ _ Hbefore Hx).
  - intros x step Hnew Hdescribe.
    destruct (new_StepFunction_fields x step Hnew) as (_ & _ & Harn & _).
    unfold build_discover, build_ingest. rewrite Hnew. cbn [bind].
    rewrite Harn, Hdescribe. auto.
Qed.

Lemma set_extra_metadata_reads_the_description
    (execution_input : execution) (s1 s2 r1 r2 : StepFunction) :
  set_extra_metadata (with_execution_metadata execution_input s1) = (r1, Ok tt) ->
  set_extra_metadata (with_execution_metadata execution_input s2) = (r2, Ok tt) ->
  collection r1 = collection r2 /\ provider r1 = provider r2.
Proof.
  unfold set_extra_metadata. cbn [execution_metadata with_execution_metadata].
  intros H1 H2.
  repeat match goal with
         | Hx : context [match ?x with _ => _ end] |- _ => destruct x; try discriminate
         end.
  injection H1 as <-. injection H2 as <-. split; reflexivity.
Qed.

(** In the forest built from the two lists of
    [build_discover_ingest_objects], every child shows the collection and
    the provider of its root: both were read from the description of the
    root's execution. *)
Theorem children_carry_the_metadata_of_their_root
    (discovers ingests : list StepFunction) (relation_map : forest)
    (k : string) (root : node) (c : string) (i : pydict json) :
  build_discover_ingest_objects discover_arn ingest_arn discover_limit ingest_limit
    = Ok (discovers, ingests) ->
  build_relation_tree discovers ingests = Ok relation_map ->
  dict_get k relation_map = Some root ->
  In (c, i) (child root) ->
  dict_get "collection" i = dict_get "collection" (node_info root) /\
  dict_get "provider" i = dict_get "provider" (node_info root).
Proof.
  intros Hlist Hbuild Hg Hin.
  destruct (built_child _ _ _ _ _ _ Hbuild Hg Hin)
    as (b & _ & _ & ei & b' & Hdescribe & Hb & Hi).
  injection Hi as _ Hi.
  assert (Hroot : exists s r, node_info root = info r /\
            set_extra_metadata (with_execution_metadata ei s) = (r, Ok tt)).
  { destruct (built_root_info _ _ _ _ _ Hbuild Hg)
      as ([(a & Ha & Harn & Hinfo)|(_ & ei' & t & t' & Hd' & _ & Hcall & Hinfo)] & _).
    - unfold build_discover_ingest_objects in Hlist.
      destruct (list_executions discover_arn discover_limit) as [le_d|];
        cbn [bind] in Hlist; [|discriminate].
      destruct (list_executions ingest_arn ingest_limit) as [le_i|];
        cbn [bind] in Hlist; [|discriminate].
      destruct (for_each build_discover le_d) as [ds|] eqn:Hd;
        cbn [bind] in Hlist; [|discriminate].
      destruct (for_each build_ingest le_i) as [bs|];
        cbn [bind] in Hlist; [|discriminate].
      injection Hlist as <- <-. apply for_each_ok in Hd.
      assert (He : exists e, build_discover e = Ok a).
      { clear -Hd Ha. induction Hd as [|e r l rs He _ IH]; [contradiction|].
        destruct Ha as [->|Ha]; eauto. }
      destruct He as [e He].
      destruct (build_discover_inv e a He) as (step & ei' & _ & Hd' & Hset).
      destruct (build_discover_fields e a He) as (Harn' & _).
      assert (ei' = ei) by congruence. subst ei'. eauto.
    - apply call_ok in Hcall. assert (ei' = ei) by congruence. subst ei'. eauto. }
  destruct Hroot as (s & r & Hinfo & Hr).
  destruct (set_extra_metadata_reads_the_description ei b s _ _ Hb Hr) as [Hc Hp].
  rewrite Hi, Hinfo. cbn [info dict_get String.eqb Ascii.eqb Bool.eqb].
  now rewrite Hc, Hp.
Qed.

End Listing.

(** ** The backfill pass: what it changes, running it again, a lookup
    that fails *)

Section BackfillMore.

Context `{PyLib} `{StepClient} `{S3Client}.

Lemma dict_set_noop {V : Type} (k : string) (v : V) (d : pydict V) :
  dict_get k d = Some v -> dict_set k v d = d.
Proof.
  induction d as [|[k' v'] d IH]; simpl; [discriminate|].
  destruct (String.eqb k k'); intros Hg.
  - now injection Hg as ->.
  - now rewrite IH.
Qed.

(** The loop body computes its plan from the history and the status, and
    then assigns. *)
Lemma backfill_by_plan (events : list history_event) (root : node) (st : json) :
  dict_get "status" (node_info root) = Some st ->
  backfill events root = (u <- backfill_plan events st ;; Ok (apply_plan u root)).
Proof.
  intros Hst. unfold backfill, backfill_plan. rewrite Hst. cbn [require bind].
  destruct (eq_str st "RUNNING"); [reflexivity|].
  destruct (nth_error events 4) as [ev|]; cbn [require bind]; [|reflexivity].
  destruct (String.eqb (ev_type ev) "LambdaFunctionSucceeded").
  - destruct (lambdaFunctionSucceededEventDetails ev) as [details|];
      cbn [require bind]; [|reflexivity].
    destruct (sd_output details) as [text|]; cbn [require bind]; [|reflexivity].
    destruct (json_loads text) as [output|]; cbn [bind]; [|reflexivity].
    destruct (granule_count_of output); reflexivity.
  - destruct (lambdaFunctionFailedEventDetails ev) as [details|];
      cbn [require bind]; [|reflexivity].
    destruct (fd_cause details); reflexivity.
Qed.

Lemma backfill_inv (events : list history_event) (root root' : node) :
  backfill events root = Ok root' ->
  exists st u,
    dict_get "status" (node_info root) = Some st /\
    backfill_plan events st = Ok u /\ root' = apply_plan u root.
Proof.
  intros Hb. destruct (dict_get "status" (node_info root)) as [st|] eqn:Hst.
  - rewrite (backfill_by_plan _ _ _ Hst) in Hb.
    destruct (backfill_plan events st) as [u|] eqn:Hplan; cbn [bind] in Hb; [|discriminate].
    injection Hb as <-. exists st, u. auto.
  - unfold backfill in Hb. rewrite Hst in Hb. discriminate.
Qed.

Lemma apply_plan_get (u : json * option string) (root : node) (k : string) :
  k <> "queued_granules_count" -> k <> "fail" ->
  dict_get k (node_info (apply_plan u root)) = dict_get k (node_info root).
Proof.
  intros Hc Hf. unfold apply_plan. destruct (snd u); cbn [set_info node_info];
    repeat rewrite dict_get_set_other by assumption; reflexivity.
Qed.

Lemma apply_plan_twice (u : json * option string) (root : node) :
  apply_plan u (apply_plan u root) = apply_plan u root.
Proof.
  unfold apply_plan. destruct (snd u) as [cause|]; unfold set_info; cbn [child node_info].
  - f_equal.
    rewrite (dict_set_noop "fail" (JStr cause)).
    + apply dict_set_noop. apply dict_get_set_same.
    + rewrite dict_get_set_other by discriminate. apply dict_get_set_same.
  - f_equal. apply dict_set_noop. apply dict_get_set_same.
Qed.

Lemma eq_str_true (st : json) (k : string) : eq_str st k = true -> st = JStr k.
Proof.
  destruct st; simpl; try discriminate. intros Heq. apply String.eqb_eq in Heq. congruence.
Qed.

(** How the loop body can return: on a RUNNING root, on a success as
    event 4, or on another event 4 that carries a cause. *)
Lemma backfill_ok_cases (events : list history_event) (root root' : node) :
  backfill events root = Ok root' ->
  exists st,
    dict_get "status" (node_info root) = Some st /\
    ((st = JStr "RUNNING" /\
      root' = set_info "queued_granules_count" (JStr "N/A") root) \/
     (st <> JStr "RUNNING" /\
      exists ev, nth_error events 4 = Some ev /\
        ((ev_type ev = "LambdaFunctionSucceeded" /\
          exists count, root' = set_info "queued_granules_count" count root) \/
         (ev_type ev <> "LambdaFunctionSucceeded" /\
          exists details cause,
            lambdaFunctionFailedEventDetails ev = Some details /\
            fd_cause details = Some cause /\
            root' = set_info "queued_granules_count" (JStr "N/A")
                      (set_info "fail" (JStr cause) root))))).
Proof.
  unfold backfill. intros Hb.
  destruct (dict_get "status" (node_info root)) as [st|]; cbn [require bind] in Hb;
    [|discriminate].
  exists st. split; [reflexivity|].
  destruct (eq_str st "RUNNING") eqn:Hrun.
  - left. split; [now apply eq_str_true | now injection Hb].
  - right. split; [intros ->; simpl in Hrun; discriminate|].
    destruct (nth_error events 4) as [ev|]; cbn [require bind] in Hb; [|discriminate].
    exists ev. split; [reflexivity|].
    destruct (String.eqb_spec (ev_type ev) "LambdaFunctionSucceeded") as [Htype|Htype].
    + left. split; [exact Htype|].
      destruct (lambdaFunctionSucceededEventDetails ev) as [details|];
        cbn [require bind] in Hb; [|discriminate].
      destruct (sd_output details) as [text|]; cbn [require bind] in Hb; [|discriminate].
      destruct (json_loads text) as [output|]; cbn [bind] in Hb; [|discriminate].
      destruct (granule_count_of output) as [count|]; cbn [bind] in Hb; [|discriminate].
      exists count. now injection Hb.
    + right. split; [exact Htype|].
      destruct (lambdaFunctionFailedEventDetails ev) as [details|];
        cbn [require bind] in Hb; [|discriminate].
      destruct (fd_cause details) as [cause|] eqn:Hcause;
        cbn [require bind] in Hb; [|discriminate].
      exists details, cause. split; [reflexivity|]. split; [exact Hcause|].
      now injection Hb.
Qed.

(** A pass that returns keeps the keys, the children and every field
    other than the count and [fail]. *)
Lemma backfill_frame (source source' : forest) :
  NoDup (keys source) ->
  append_metadata source = Ok source' ->
  keys source' = keys source /\
  forall d root, dict_get d source = Some root ->
    exists root',
      dict_get d source' = Some root' /\
      child root' = child root /\
      dict_get "queued_granules_count" (node_info root') <> None /\
      (forall k, k <> "queued_granules_count" -> k <> "fail" ->
         dict_get k (node_info root') = dict_get k (node_info root)) /\
      (dict_get "fail" (node_info root') = dict_get "fail" (node_info root) \/
       exists cause, dict_get "fail" (node_info root') = Some (JStr cause)).
Proof.
  intros Hnd Hok. pose proof Hok as Hrun. apply append_metadata_ok in Hrun.
  destruct (backfill_keys_ok _ _ _ Hnd Hrun) as (Hkeys & _).
  split; [exact Hkeys|]. intros d root Hg.
  destruct (append_metadata_root _ _ _ _ Hnd Hok Hg) as (root' & (events & _ & Hb) & Hg').
  exists root'. split; [exact Hg'|].
  destruct (backfill_inv _ _ _ Hb) as (st & u & _ & _ & ->).
  split; [|split; [|split]].
  - unfold apply_plan. destruct (snd u); reflexivity.
  - unfold apply_plan. destruct (snd u); cbn [set_info node_info];
      rewrite dict_get_set_same; discriminate.
  - intros k. apply apply_plan_get.
  - unfold apply_plan. destruct (snd u) as [cause|]; cbn [set_info node_info].
    + right. exists cause. rewrite dict_get_set_other by discriminate.
      apply dict_get_set_same.
    + left. apply dict_get_set_other. discriminate.
Qed.

(** A pass that returns has kept the keys in their order and, for every
    root, the children and every field of the info other than the count
    and [fail]; every root now has a count.  The [fail] field is as it
    was when the root is RUNNING or event 4 of its history is a lambda
    success; otherwise event 4 carries failure details with a cause, and
    [fail] is that cause and the count is "N/A". *)
Theorem backfill_changes_only_count_and_fail (source source' : forest) :
  NoDup (keys source) ->
  append_metadata source = Ok source' ->
  keys source' = keys source /\
  forall d root, dict_get d source = Some root ->
    exists root',
      dict_get d source' = Some root' /\
      child root' = child root /\
      dict_get "queued_granules_count" (node_info root') <> None /\
      (forall k, k <> "queued_granules_count" -> k <> "fail" ->
         dict_get k (node_info root') = dict_get k (node_info root)) /\
      exists st events,
        dict_get "status" (node_info root) = Some st /\
        get_execution_history d = Ok events /\
        ((dict_get "fail" (node_info root') = dict_get "fail" (node_info root) /\
          (st = JStr "RUNNING" \/
           exists ev, nth_error events 4 = Some ev /\
                      ev_type ev = "LambdaFunctionSucceeded")) \/
         (st <> JStr "RUNNING" /\
          exists ev details cause,
            nth_error events 4 = Some ev /\
            ev_type ev <> "LambdaFunctionSucceeded" /\
            lambdaFunctionFailedEventDetails ev = Some details /\
            fd_cause details = Some cause /\
            dict_get "fail" (node_info root') = Some (JStr cause) /\
            dict_get "queued_granules_count" (node_info root') = Some (JStr "N/A"))).
Proof.
  intros Hnd Hok. destruct (backfill_frame _ _ Hnd Hok) as (Hkeys & Hroots).
  split; [exact Hkeys|]. intros d root Hg.
  destruct (Hroots d root Hg) as (root' & Hg' & Hchild & Hcount & Hother & _).
  exists root'. split; [exact Hg'|]. split; [exact Hchild|]. split; [exact Hcount|].
  split; [exact Hother|].
  destruct (append_metadata_root _ _ _ _ Hnd Hok Hg) as (root'' & (events & Hh & Hb) & Hg'').
  assert (root'' = root') by congruence. subst root''.
  destruct (backfill_ok_cases _ _ _ Hb)
    as (st & Hst & [(Hrun & ->)|(Hrun & ev & Hev & [(Htype & count & ->)|
                      (Htype & details & cause & Hdetails & Hcause & ->)])]);
    exists st, events; (split; [exact Hst|]); (split; [exact Hh|]).
  - left. split; [apply dict_get_set_other; discriminate | now left].
  - left. split; [apply dict_get_set_other; discriminate | right; eauto].
  - right. split; [exact Hrun|]. exists ev, details, cause.
    repeat (split; [assumption|]). cbn [set_info node_info]. split.
    + rewrite dict_get_set_other by discriminate. apply dict_get_set_same.
    + apply dict_get_set_same.
Qed.

Lemma backfill_again (events : list history_event) (root root' : node) :
  backfill events root = Ok root' -> backfill events root' = Ok root'.
Proof.
  intros Hb. destruct (backfill_inv _ _ _ Hb) as (st & u & Hst & Hplan & ->).
  rewrite (backfill_by_plan _ _ st).
  - rewrite Hplan. cbn [bind]. now rewrite apply_plan_twice.
  - rewrite apply_plan_get by discriminate. exact Hst.
Qed.

Lemma backfill_keys_fixed (ds : list string) (s : forest) :
  (forall d, In d ds -> exists root,
     dict_get d s = Some root /\ backfilled_root d root root) ->
  backfill_keys ds s = (s, Ok tt).
Proof.
  induction ds as [|d ds IH]; intros Hfixed; simpl; [reflexivity|].
  destruct (Hfixed d (or_introl eq_refl)) as (root & Hg & Hb).
  rewrite (backfill_at_ok _ _ _ _ Hg Hb), (dict_set_noop _ _ _ Hg).
  apply IH. intros d' Hin. apply Hfixed. now right.
Qed.

(** The pass can be run again on what it returned, as when the forest
    is reloaded from the snapshot: with the same histories and objects it
    returns the same forest. *)
Theorem backfill_is_idempotent (source source' : forest) :
  NoDup (keys source) ->
  append_metadata source = Ok source' ->
  append_metadata source' = Ok source'.
Proof.
  intros Hnd Hok. pose proof Hok as Hrun. apply append_metadata_ok in Hrun.
  destruct (backfill_keys_ok _ _ _ Hnd Hrun) as (Hkeys & Hall).
  apply append_metadata_ok. unfold append_metadata_run. rewrite Hkeys.
  apply backfill_keys_fixed. intros d Hin.
  destruct (Hall d) as [Hthere _].
  destruct (Hthere Hin) as (root & root' & _ & (events & Hh & Hb) & Hg').
  exists root'. split; [exact Hg'|]. exists events. split; [exact Hh|].
  now apply (backfill_again events root).
Qed.

(** The history of a root is fetched before its status is looked at: a
    lookup that raises ends the pass with that exception whatever the
    status of the root, RUNNING included; that root and the roots after
    it are left as they were. *)
Theorem history_lookup_failure_aborts_pass
    (source : forest) (d : string) (before after : list string) (e : exn) :
  NoDup (keys source) ->
  keys source = (before ++ d :: after)%list ->
  (forall k, In k before -> exists r r',
     dict_get k source = Some r /\ backfilled_root k r r') ->
  get_execution_history d = Raise e ->
  append_metadata source = Raise e /\
  dict_get d (fst (append_metadata_run source)) = dict_get d source /\
  (forall k, In k after ->
     dict_get k (fst (append_metadata_run source)) = dict_get k source).
Proof.
  intros Hnd Hkeys Hgood Hh. rewrite Hkeys in Hnd.
  destruct (backfill_keys_lookup_raises before source d after e Hnd Hgood Hh)
    as (s' & Hrun & Hrest).
  unfold append_metadata, append_metadata_run. rewrite Hkeys, Hrun. cbn [fst bind].
  split; [reflexivity|]. split.
  - apply Hrest. intros Hin. apply (NoDup_app_disjoint _ _ d Hnd Hin). now left.
  - intros k Hin. apply Hrest. intros Hin1.
    apply (NoDup_app_disjoint _ _ k Hnd Hin1). now right.
Qed.

End BackfillMore.

(** ** The report *)

Section ReportProps.

Context `{PyLib} `{StepClient} `{S3Client}.

Variables (append_children append_fail : bool) (repr_other : json -> string)
          (encodable : string -> bool).

Lemma steady_fp_write (v : json) : steady (fp_write encodable v).
Proof.
  intros out1 out2. unfold fp_write. destruct v as [|b|n|f|s|l|d]; try reflexivity.
  destruct (encodable s); reflexivity.
Qed.

Lemma steady_write_text (s : string) : steady (write_text encodable s).
Proof. apply steady_fp_write. Qed.

Lemma steady_write_item (info : pydict json) (k : string) :
  steady (write_item encodable info k).
Proof.
  intros out1 out2. unfold write_item.
  destruct (dict_get k info); [apply steady_fp_write | reflexivity].
Qed.

Lemma steady_write_str_item (info : pydict json) (k : string) :
  steady (write_str_item repr_other encodable info k).
Proof.
  intros out1 out2. unfold write_str_item.
  destruct (dict_get k info); [apply steady_fp_write | reflexivity].
Qed.

Lemma steady_write_all (ws : list writer) : Forall steady ws -> steady (write_all ws).
Proof.
  induction 1 as [|w ws Hw _ IH]; intros out1 out2; simpl; [reflexivity|].
  unfold and_then. specialize (Hw out1 out2).
  destruct (w out1) as [o1 [[]|e1]], (w out2) as [o2 [[]|e2]]; simpl in *;
    try discriminate; [apply IH | congruence].
Qed.

(** A sequence of steady writers ends normally exactly when each of
    them does. *)
Lemma write_all_ok (ws : list writer) :
  Forall steady ws ->
  forall out,
    snd (write_all ws out) = Ok tt <-> Forall (fun w => snd (w "") = Ok tt) ws.
Proof.
  induction 1 as [|w ws Hw _ IH]; intros out; simpl.
  - split; [constructor | reflexivity].
  - unfold and_then. rewrite Forall_cons_iff. specialize (Hw out "").
    destruct (w out) as [o [[]|e]]; simpl in *.
    + rewrite IH. rewrite <- Hw. tauto.
    + rewrite <- Hw. split; [discriminate | intros [Hbad _]; discriminate].
Qed.

(** A sequence that raises: one of its writers does. *)
Lemma write_all_raise (ws : list writer) (e : exn) :
  forall out, snd (write_all ws out) = Raise e ->
  exists w out', In w ws /\ snd (w out') = Raise e.
Proof.
  induction ws as [|w ws IH]; intros out Hr; simpl in Hr; [discriminate|].
  unfold and_then in Hr. destruct (w out) as [o [u|e']] eqn:Hw.
  - destruct (IH o Hr) as (w' & out' & Hin & Hw'). exists w', out'. split; [now right | exact Hw'].
  - cbn [snd] in Hr. injection Hr as ->. exists w, out. rewrite Hw. split; [now left | reflexivity].
Qed.

(** A sequence stops at its first writer that raises. *)
Lemma write_all_first_raise (ws1 ws2 : list writer) (w : writer) (e : exn) :
  Forall steady ws1 ->
  Forall (fun w => snd (w "") = Ok tt) ws1 ->
  (forall out, snd (w out) = Raise e) ->
  forall out, snd (write_all (ws1 ++ w :: ws2) out) = Raise e.
Proof.
  intros Hsteady Hok Hw. induction Hsteady as [|w1 ws1 Hw1 _ IH]; intros out; simpl.
  - unfold and_then. specialize (Hw out). destruct (w out) as [o [u|e']]; cbn [snd] in *;
      [discriminate | exact Hw].
  - inversion Hok as [|? ? Hok1 Hok']; subst. unfold and_then.
    specialize (Hw1 out ""). rewrite Hok1 in Hw1.
    destruct (w1 out) as [o [u|e']]; cbn [snd] in Hw1; [now apply IH | discriminate].
Qed.

Lemma fp_write_raise (v : json) (out : string) (e : exn) :
  snd (fp_write encodable v out) = Raise e ->
  match v with
  | JStr s => encodable s = false /\ e = UnicodeEncodeError
  | _ => e = TypeError
  end.
Proof.
  unfold fp_write. destruct v as [|b|n|f|s|l|d]; cbn [snd];
    try (intros Hr; congruence).
  destruct (encodable s); cbn [snd]; intros Hr; [discriminate|].
  split; [reflexivity | congruence].
Qed.

Lemma write_text_ok (s out : string) :
  snd (write_text encodable s out) = Ok tt <-> encodable s = true.
Proof.
  unfold write_text, fp_write. destruct (encodable s); cbn [snd]; split; congruence.
Qed.

Lemma write_text_raise (s out : string) (e : exn) :
  snd (write_text encodable s out) = Raise e ->
  encodable s = false /\ e = UnicodeEncodeError.
Proof. exact (fp_write_raise (JStr s) out e). Qed.

Lemma write_item_ok (info : pydict json) (k out : string) :
  snd (write_item encodable info k out) = Ok tt <-> writable encodable info k.
Proof.
  unfold write_item, fp_write, writable.
  destruct (dict_get k info) as [[|b|n|f|s|l|d]|]; cbn [snd];
    try (split; [discriminate | intros (t & Ht & _); discriminate]).
  destruct (encodable s) eqn:He; cbn [snd].
  - split; [eauto | reflexivity].
  - split; [discriminate | intros (t & Ht & Het); congruence].
Qed.

Lemma write_item_raise (info : pydict json) (k out : string) (e : exn) :
  snd (write_item encodable info k out) = Raise e -> field_raises encodable info k e.
Proof.
  unfold write_item, field_raises.
  destruct (dict_get k info) as [v|]; [|cbn [snd]; congruence].
  intros Hr. apply fp_write_raise in Hr. destruct v; exact Hr.
Qed.

Lemma write_str_item_ok (info : pydict json) (k out : string) :
  snd (write_str_item repr_other encodable info k out) = Ok tt <->
  exists v, dict_get k info = Some v /\ encodable (py_str repr_other v) = true.
Proof.
  unfold write_str_item. destruct (dict_get k info) as [v|].
  - change (fp_write encodable (JStr (py_str repr_other v)) out)
      with (write_text encodable (py_str repr_other v) out).
    rewrite write_text_ok. split; [eauto | intros (v' & Hv & He); congruence].
  - cbn [snd]. split; [discriminate | intros (v' & Hv & _); discriminate].
Qed.

Lemma write_str_item_raise (info : pydict json) (k out : string) (e : exn) :
  snd (write_str_item repr_other encodable info k out) = Raise e ->
  (dict_get k info = None /\ e = KeyError) \/
  (exists v, dict_get k info = Some v /\
             encodable (py_str repr_other v) = false /\ e = UnicodeEncodeError).
Proof.
  unfold write_str_item. destruct (dict_get k info) as [v|].
  - intros Hr. apply fp_write_raise in Hr. right. exists v. tauto.
  - cbn [snd]. intros Hr. left. split; [reflexivity | congruence].
Qed.

Lemma steady_report_child (c : string * pydict json) : steady (report_child encodable c).
Proof.
  apply steady_write_all.
  repeat constructor; auto using steady_write_text, steady_write_item.
Qed.

Lemma report_child_ok (c : string * pydict json) (out : string) :
  snd (report_child encodable c out) = Ok tt <->
  (encodable tab = true /\ encodable newline = true) /\ printable_child encodable c.
Proof.
  unfold report_child. rewrite write_all_ok
    by (repeat constructor; auto using steady_write_text, steady_write_item).
  repeat rewrite Forall_cons_iff. repeat rewrite write_item_ok.
  repeat rewrite write_text_ok. unfold printable_child.
  split; [tauto | intuition constructor].
Qed.

Lemma report_child_raise (c : string * pydict json) (out : string) (e : exn) :
  snd (report_child encodable c out) = Raise e ->
  ((encodable tab = false \/ encodable newline = false) /\ e = UnicodeEncodeError) \/
  (exists k, In k ["start"; "status"; "duration"; "granuleId"] /\
             field_raises encodable (snd c) k e).
Proof.
  intros Hr. apply write_all_raise in Hr. destruct Hr as (w & out' & Hin & Hw).
  cbn [In] in Hin.
  repeat (destruct Hin as [<-|Hin]); try contradiction;
    match type of Hw with
    | snd (write_text _ _ _) = _ =>
        apply write_text_raise in Hw; destruct Hw as [Hw ->]; left; tauto
    | snd (write_item _ _ ?k _) = _ =>
        apply write_item_raise in Hw; right; exists k; split; [simpl; tauto | exact Hw]
    end.
Qed.

Lemma steady_children (cs : list (string * pydict json)) :
  steady (if append_children then write_all (map (report_child encodable) cs)
          else write_all []).
Proof.
  destruct append_children; apply steady_write_all; [|constructor].
  apply Forall_map. apply Forall_forall. intros c _. apply steady_report_child.
Qed.

Lemma steady_fail (info : pydict json) :
  steady (if append_fail && dict_mem "fail" info
          then write_all [write_text encodable tab; write_item encodable info "fail";
                          write_text encodable newline]
          else write_all []).
Proof.
  destruct (append_fail && dict_mem "fail" info); apply steady_write_all;
    repeat constructor; auto using steady_write_text, steady_write_item.
Qed.

Lemma children_ok (cs : list (string * pydict json)) (out : string) :
  snd ((if append_children then write_all (map (report_child encodable) cs)
        else write_all []) out) = Ok tt <->
  (append_children = true ->
   Forall (fun c => (encodable tab = true /\ encodable newline = true) /\
                    printable_child encodable c) cs).
Proof.
  destruct append_children.
  - rewrite write_all_ok.
    + rewrite Forall_map. split.
      * intros Hall _. revert Hall. apply Forall_impl. intros c. apply report_child_ok.
      * intros Hall. specialize (Hall eq_refl). revert Hall. apply Forall_impl.
        intros c. apply report_child_ok.
    + apply Forall_map. apply Forall_forall. intros c _. apply steady_report_child.
  - simpl. split; [discriminate | reflexivity].
Qed.

Lemma fail_ok (info : pydict json) (out : string) :
  snd ((if append_fail && dict_mem "fail" info
        then write_all [write_text encodable tab; write_item encodable info "fail";
                        write_text encodable newline]
        else write_all []) out) = Ok tt <->
  (append_fail = true -> dict_get "fail" info <> None ->
   (encodable tab = true /\ encodable newline = true) /\ writable encodable info "fail").
Proof.
  unfold dict_mem. destruct append_fail; cbn [andb].
  - destruct (dict_get "fail" info) as [v|] eqn:Hg; cbv iota.
    + rewrite write_all_ok
        by (repeat constructor; auto using steady_write_text, steady_write_item).
      repeat rewrite Forall_cons_iff. rewrite write_item_ok. repeat rewrite write_text_ok.
      split; [tauto|]. intros Hstr.
      destruct (Hstr eq_refl) as ((Ht & Hn) & Hw); [discriminate|].
      split; [exact Ht|]. split; [exact Hw|]. split; [exact Hn | constructor].
    + split; [intros _ _ Hbad; now elim Hbad | reflexivity].
  - split; [discriminate | reflexivity].
Qed.

Lemma steady_report_root (root : node) :
  steady (report_root append_children append_fail repr_other encodable root).
Proof.
  apply steady_write_all.
  repeat constructor;
    auto using steady_write_text, steady_write_item, steady_write_str_item,
               steady_children, steady_fail.
Qed.

Lemma report_root_ok (root : node) (out : string) :
  snd (report_root append_children append_fail repr_other encodable root out) = Ok tt <->
  printable_root append_children append_fail repr_other encodable root.
Proof.
  unfold report_root. rewrite write_all_ok
    by (repeat constructor;
        auto using steady_write_text, steady_write_item, steady_write_str_item,
                   steady_children, steady_fail).
  repeat rewrite Forall_cons_iff.
  rewrite children_ok, fail_ok, write_str_item_ok.
  repeat rewrite write_item_ok. repeat rewrite write_text_ok.
  unfold printable_root. split.
  - intros (Hstart & Ht & Hstatus & _ & Hduration & _ & Hcount & _ & Hcollection & _ &
            Hprovider & Hn & Hchildren & Hfail & _).
    repeat (split; [assumption|]). split.
    + intros Hflag. specialize (Hchildren Hflag). revert Hchildren.
      apply Forall_impl. tauto.
    + intros Hflag Hthere. now apply Hfail.
  - intros (Ht & Hn & Hstart & Hstatus & Hduration & Hcount & Hcollection & Hprovider &
            Hchildren & Hfail).
    repeat (split; [assumption|]). split; [|split; [|split; [assumption | constructor]]].
    + intros Hflag. specialize (Hchildren Hflag). revert Hchildren.
      apply Forall_impl. tauto.
    + intros Hflag Hthere. split; [tauto | now apply Hfail].
Qed.

Lemma report_root_raise (root : node) (out : string) (e : exn) :
  snd (report_root append_children append_fail repr_other encodable root out) = Raise e ->
  root_raises append_children append_fail repr_other encodable root e.
Proof.
  intros Hr. apply write_all_raise in Hr. destruct Hr as (w & out' & Hin & Hw).
  unfold root_raises. cbn [In] in Hin.
  repeat (destruct Hin as [<-|Hin]); try contradiction;
    try match type of Hw with
    | snd (write_text _ _ _) = _ =>
        apply write_text_raise in Hw; destruct Hw as [Hw ->]; left; tauto
    | snd (write_item _ _ ?k _) = _ =>
        apply write_item_raise in Hw; right; left; exists k;
        split; [simpl; tauto | exact Hw]
    | snd (write_str_item _ _ _ _ _) = _ =>
        apply write_str_item_raise in Hw; tauto
    end.
  - destruct append_children; [|discriminate].
    apply write_all_raise in Hw. destruct Hw as (w' & out'' & Hin' & Hw').
    apply in_map_iff in Hin'. destruct Hin' as (c & <- & Hc).
    apply report_child_raise in Hw'. destruct Hw' as [Hsep|(k & Hk & Hf)]; [now left|].
    do 4 right. left. split; [reflexivity|]. exists c, k. auto.
  - unfold dict_mem in Hw. destruct append_fail; cbn [andb] in Hw; [|discriminate].
    destruct (dict_get "fail" (node_info root)) as [v|] eqn:Hg; [|discriminate].
    apply write_all_raise in Hw. destruct Hw as (w' & out'' & Hin' & Hw').
    cbn [In] in Hin'.
    repeat (destruct Hin' as [<-|Hin']); try contradiction.
    + apply write_text_raise in Hw'. destruct Hw' as [Hw' ->]. left. tauto.
    + apply write_item_raise in Hw'. do 5 right.
      split; [reflexivity|]. split; [congruence | exact Hw'].
    + apply write_text_raise in Hw'. destruct Hw' as [Hw' ->]. left. tauto.
Qed.

Lemma steady_report_at (source : forest) (d : string) :
  steady (report_at append_children append_fail repr_other encodable source d).
Proof.
  intros out1 out2. unfold report_at.
  destruct (dict_get d source); [apply steady_report_root | reflexivity].
Qed.

(** The report is written in full exactly when every root can be
    printed. *)
Lemma report_ok_iff (source : forest) :
  snd (generate_report append_children append_fail repr_other encodable source) = Ok tt <->
  (forall d root, dict_get d source = Some root ->
     printable_root append_children append_fail repr_other encodable root).
Proof.
  unfold generate_report.
  rewrite write_all_ok
    by (apply Forall_map; apply Forall_forall; intros d _; apply steady_report_at).
  rewrite Forall_map, Forall_forall. split.
  - intros Hall d root Hg.
    assert (Hin : In d (keys source)) by (apply dict_get_in_keys; congruence).
    specialize (Hall d Hin). unfold report_at in Hall. rewrite Hg in Hall.
    now apply report_root_ok in Hall.
  - intros Hall d Hin. unfold report_at.
    apply dict_get_in_keys in Hin.
    destruct (dict_get d source) as [root|] eqn:Hg; [|congruence].
    apply report_root_ok. now apply (Hall d).
Qed.

(** An exception of the report is raised by the block of a root. *)
Lemma report_raise_root (source : forest) (e : exn) :
  snd (generate_report append_children append_fail repr_other encodable source) = Raise e ->
  exists d root,
    dict_get d source = Some root /\
    root_raises append_children append_fail repr_other encodable root e.
Proof.
  unfold generate_report. intros Hr.
  apply write_all_raise in Hr. destruct Hr as (w & out' & Hin & Hw).
  apply in_map_iff in Hin. destruct Hin as (d & <- & Hd).
  unfold report_at in Hw. apply dict_get_in_keys in Hd.
  destruct (dict_get d source) as [root|] eqn:Hg; [|congruence].
  exists d, root. split; [exact Hg|]. now apply report_root_raise with out'.
Qed.

(** The report ends at the first root that cannot be printed, with an
    exception of the block of that root. *)
Lemma report_first_unprintable
    (source : forest) (before after : list string) (d : string) (root : node) :
  keys source = (before ++ d :: after)%list ->
  (forall k r, In k before -> dict_get k source = Some r ->
     printable_root append_children append_fail repr_other encodable r) ->
  dict_get d source = Some root ->
  ~ printable_root append_children append_fail repr_other encodable root ->
  exists e,
    snd (generate_report append_children append_fail repr_other encodable source)
      = Raise e /\
    root_raises append_children append_fail repr_other encodable root e.
Proof.
  intros Hkeys Hbefore Hg Hnot.
  destruct (snd (report_root append_children append_fail repr_other encodable root ""))
    as [[]|e] eqn:Hr.
  - exfalso. apply Hnot. now apply (report_root_ok root "").
  - exists e. split; [|now apply report_root_raise with ""].
    unfold generate_report. rewrite Hkeys, map_app. cbn [map].
    apply write_all_first_raise.
    + apply Forall_map, Forall_forall. intros k _. apply steady_report_at.
    + apply Forall_map, Forall_forall. intros k Hin. unfold report_at.
      assert (Hk : In k (keys source)) by (rewrite Hkeys; apply in_or_app; now left).
      apply dict_get_in_keys in Hk.
      destruct (dict_get k source) as [r|] eqn:Hgk; [|congruence].
      apply report_root_ok. now apply (Hbefore k r).
    + intros out. unfold report_at. rewrite Hg, <- Hr. apply steady_report_root.
Qed.

(** [generate_report] writes the whole file exactly when every root can
    be printed: the tab and the newline can be encoded; the fields start,
    status, duration, collection and provider of the root are strings the
    file can encode; the count is there and its [str] can be encoded; the
    [fail] field, when it is there and failures are listed, is such a
    string; and, when children are listed, so are the start, status,
    duration and granuleId of every child.  Otherwise the report ends
    with an exception at the first root, in the order of the keys, that
    cannot be printed: [KeyError] is raised for a missing field,
    [TypeError] for a field that is not a string, [UnicodeEncodeError]
    for a string that cannot be encoded, and the exception of the report
    is always one a root of the forest raises in this way. *)
Theorem report_completes_iff_printable (source : forest) :
  (snd (generate_report append_children append_fail repr_other encodable source) = Ok tt <->
   (forall d root, dict_get d source = Some root ->
      printable_root append_children append_fail repr_other encodable root)) /\
  (forall e,
     snd (generate_report append_children append_fail repr_other encodable source)
       = Raise e ->
     (e = KeyError \/ e = TypeError \/ e = UnicodeEncodeError) /\
     exists d root,
       dict_get d source = Some root /\
       root_raises append_children append_fail repr_other encodable root e) /\
  (forall before after d root,
     keys source = (before ++ d :: after)%list ->
     (forall k r, In k before -> dict_get k source = Some r ->
        printable_root append_children append_fail repr_other encodable r) ->
     dict_get d source = Some root ->
     ~ printable_root append_children append_fail repr_other encodable root ->
     exists e,
       snd (generate_report append_children append_fail repr_other encodable source)
         = Raise e /\
       root_raises append_children append_fail repr_other encodable root e).
Proof.
  split; [apply report_ok_iff|]. split.
  - intros e Hr. destruct (report_raise_root source e Hr) as (d & root & Hg & Hraises).
    split; [|eauto]. clear -Hraises.
    assert (Hfield : forall info k, field_raises encodable info k e ->
              e = KeyError \/ e = TypeError \/ e = UnicodeEncodeError).
    { intros info k. unfold field_raises.
      destruct (dict_get k info) as [[]|]; tauto. }
    destruct Hraises as [(_ & ->)|[(k & _ & Hf)|[(_ & ->)|[(v & _ & _ & ->)|
                          [(_ & c & k & _ & _ & Hf)|(_ & _ & Hf)]]]]]; eauto.
  - intros before after d root. apply report_first_unprintable.
Qed.

Lemma fp_write_encodable (s out : string) :
  encodable s = true -> fp_write encodable (JStr s) out = (out ++ s, Ok tt).
Proof. unfold fp_write. now intros ->. Qed.




Lemma encodable_writable (info : pydict json) (k : string) :
  encodable_info repr_other encodable info -> is_str info k -> writable encodable info k.
Proof.
  intros Henc [s Hs]. exists s. split; [exact Hs|]. exact (Henc k (JStr s) Hs).
Qed.

(** After a backfill pass that returned, on the forest of
    [build_relation_tree], the report is written in full as soon as every
    collection is a string and, when children are listed, every granule
    identifier is one, and the file can encode the tab, the newline and
    what the values of the infos print to: every other field written is a
    string the code made, and every root has its count. *)
Theorem report_after_backfill_completes
    (discover_list ingest_list : list StepFunction) (relation_map source' : forest) :
  build_relation_tree discover_list ingest_list = Ok relation_map ->
  append_metadata relation_map = Ok source' ->
  (forall d root, dict_get d relation_map = Some root ->
     is_str (node_info root) "collection") ->
  (append_children = true ->
   forall d root c i, dict_get d relation_map = Some root ->
     In (c, i) (child root) -> is_str i "granuleId") ->
  encodable tab = true ->
  encodable newline = true ->
  (forall d root, dict_get d source' = Some root ->
     encodable_info repr_other encodable (node_info root) /\
     (append_children = true ->
      forall c i, In (c, i) (child root) -> encodable_info repr_other encodable i)) ->
  snd (generate_report append_children append_fail repr_other encodable source') = Ok tt.
Proof.
  intros Hbuild Hok Hcollection Hgranule Htab Hnewline Hencodable.
  pose proof (proj1 (build_relation_tree_spec _ _ _ Hbuild)) as Hnd.
  destruct (backfill_frame _ _ Hnd Hok) as (Hkeys & Hroots).
  apply report_ok_iff. intros d root' Hg'.
  assert (Hin : In d (keys relation_map)).
  { rewrite <- Hkeys. apply dict_get_in_keys. congruence. }
  apply dict_get_in_keys in Hin.
  destruct (dict_get d relation_map) as [root|] eqn:Hg; [|congruence]. clear Hin.
  destruct (Hroots d root Hg) as (root'' & Hg'' & Hchild & Hcount & Hother & Hfail).
  assert (root'' = root') by congruence. subst root''.
  destruct (Hencodable d root' Hg') as (Henc & Hencc).
  destruct (built_root_info _ _ _ _ _ Hbuild Hg) as (_ & _ & [r Hinfo] & _ & Hnofail).
  assert (Hfield : forall k v, k <> "queued_granules_count" -> k <> "fail" ->
            dict_get k (info r) = Some (JStr v) -> writable encodable (node_info root') k).
  { intros k v Hc Hf Hk. apply encodable_writable; [exact Henc|].
    exists v. now rewrite (Hother k Hc Hf), Hinfo. }
  unfold printable_root.
  split; [exact Htab|]. split; [exact Hnewline|].
  split; [eapply Hfield; [discriminate | discriminate | reflexivity]|].
  split; [eapply Hfield; [discriminate | discriminate | reflexivity]|].
  split; [eapply Hfield; [discriminate | discriminate | reflexivity]|].
  split.
  { destruct (dict_get "queued_granules_count" (node_info root')) as [v|] eqn:Hv;
      [|now elim Hcount].
    exists v. split; [reflexivity|]. exact (Henc _ _ Hv). }
  split.
  { apply encodable_writable; [exact Henc|].
    destruct (Hcollection d root Hg) as [v Hv]. exists v.
    now rewrite (Hother "collection") by discriminate. }
  split; [eapply Hfield; [discriminate | discriminate | reflexivity]|].
  split.
  - intros Hflag. apply Forall_forall. intros [c i] Hin.
    pose proof (Hencc Hflag c i Hin) as Hi. rewrite Hchild in Hin.
    destruct (built_child _ _ _ _ _ _ Hbuild Hg Hin) as (b & _ & Hp & Hentry).
    destruct (entry_fields _ _ _ _ Hp Hentry)
      as (_ & Hstatus & Hstart & Hduration & _ & _).
    unfold printable_child. cbn [snd].
    split; [apply encodable_writable; [exact Hi | eexists; exact Hstart]|].
    split; [apply encodable_writable; [exact Hi | eexists; exact Hstatus]|].
    split; [apply encodable_writable; [exact Hi | eexists; exact Hduration]|].
    apply encodable_writable; [exact Hi|].
    exact (Hgranule Hflag d root c i Hg Hin).
  - intros _ Hthere. apply encodable_writable; [exact Henc|].
    destruct Hfail as [Hsame|[cause Hcause]].
    + rewrite Hsame, Hnofail in Hthere. now elim Hthere.
    + now exists cause.
Qed.

Lemma append_nil_r (a : string) : (a ++ "")%string = a.
Proof. induction a as [|c a IH]; simpl; [reflexivity | now rewrite IH]. Qed.

Lemma writes_all (ws : list writer) (ts : list string) :
  Forall2 writes ws ts -> writes (write_all ws) (join ts).
Proof.
  induction 1 as [|w t ws ts Hw _ IH]; intros out; simpl.
  - now rewrite append_nil_r.
  - unfold and_then. rewrite Hw, IH. now rewrite append_assoc.
Qed.

Lemma writes_text (s : string) :
  encodable s = true -> writes (write_text encodable s) s.
Proof. intros He out. now apply fp_write_encodable. Qed.

Lemma writes_item (info : pydict json) (k : string) :
  writable encodable info k -> writes (write_item encodable info k) (text_of info k).
Proof.
  intros (t & Ht & He) out. unfold write_item, text_of. rewrite Ht.
  now apply fp_write_encodable.
Qed.

Lemma writes_child (c : string * pydict json) :
  encodable tab = true -> encodable newline = true ->
  printable_child encodable c -> writes (report_child encodable c) (child_line c).
Proof.
  intros Ht Hn (Hstart & Hstatus & Hduration & Hgranule).
  apply writes_all. repeat constructor; auto using writes_text, writes_item.
Qed.

Lemma writes_children (cs : list (string * pydict json)) :
  encodable tab = true -> encodable newline = true ->
  Forall (printable_child encodable) cs ->
  writes (write_all (map (report_child encodable) cs)) (join (map child_line cs)).
Proof.
  intros Ht Hn Hall. apply writes_all.
  induction Hall as [|c cs Hc _ IH]; simpl; constructor; auto using writes_child.
Qed.

Lemma writes_root (root : node) :
  printable_root append_children append_fail repr_other encodable root ->
  writes (report_root append_children append_fail repr_other encodable root)
         (root_block append_children append_fail repr_other root).
Proof.
  intros (Ht & Hn & Hstart & Hstatus & Hduration & Hcount & Hcollection & Hprovider &
          Hchildren & Hfail).
  apply writes_all. repeat constructor; auto using writes_text, writes_item.
  - intros out. unfold write_str_item. destruct Hcount as (v & Hv & He).
    rewrite Hv. now apply fp_write_encodable.
  - destruct append_children.
    + apply writes_children; auto.
    + apply (writes_all [] []). constructor.
  - unfold dict_mem in *. destruct append_fail; cbn [andb].
    + destruct (dict_get "fail" (node_info root)) eqn:Hg.
      * apply writes_all. repeat constructor; auto using writes_text.
        apply writes_item. apply Hfail; [reflexivity | discriminate].
      * apply (writes_all [] []). constructor.
    + apply (writes_all [] []). constructor.
Qed.

Lemma dict_get_entry {V : Type} (d : pydict V) (k : string) (v : V) :
  NoDup (keys d) -> In (k, v) d -> dict_get k d = Some v.
Proof.
  induction d as [|[k' v'] d IH]; simpl; [tauto|].
  intros Hnd Hin. inversion Hnd as [|? ? Hnotin Hnd']; subst.
  destruct Hin as [Heq|Hin].
  - injection Heq as -> ->. now rewrite String.eqb_refl.
  - destruct (String.eqb_spec k k') as [->|Hne]; [|now apply IH].
    exfalso. apply Hnotin. change k' with (fst (k', v)). now apply in_map.
Qed.

(** When every root can be printed, the file [generate_report] leaves
    is the blocks of the roots one after the other, in the order of the
    forest: per root its line of six tab-separated fields, then one line
    per child and the failure line when the flags ask for them, then an
    empty line. *)
Theorem report_is_the_blocks_in_forest_order (source : forest) :
  NoDup (keys source) ->
  (forall d root, dict_get d source = Some root ->
     printable_root append_children append_fail repr_other encodable root) ->
  generate_report append_children append_fail repr_other encodable source =
  (join (map (fun entry => root_block append_children append_fail repr_other
                             (snd entry)) source),
   Ok tt).
Proof.
  intros Hnd Hall. unfold generate_report.
  assert (Hwrites : writes
            (write_all (map (report_at append_children append_fail repr_other encodable
                               source)
                          (keys source)))
            (join (map (fun entry => root_block append_children append_fail repr_other
                                       (snd entry)) source))).
  { apply writes_all. unfold keys. rewrite map_map.
    assert (Hentries : forall entry, In entry source ->
              dict_get (fst entry) source = Some (snd entry)).
    { intros [k v] Hin. now apply dict_get_entry. }
    assert (Hgen : forall l : forest,
              (forall entry, In entry l ->
                 dict_get (fst entry) source = Some (snd entry)) ->
              Forall2 writes
                (map (fun x => report_at append_children append_fail repr_other encodable
                                 source (fst x)) l)
                (map (fun entry => root_block append_children append_fail repr_other
                                     (snd entry)) l)).
    { induction l as [|entry l IH]; intros Hl; simpl; constructor.
      - intros out. unfold report_at. rewrite (Hl entry (or_introl eq_refl)).
        apply writes_root. apply (Hall (fst entry)). apply Hl. now left.
      - apply IH. intros e He. apply Hl. now right. }
    now apply Hgen. }
  now rewrite Hwrites.
Qed.

End ReportProps.

(** * The properties on the concrete run *)

#[local] Existing Instances Scenario.lib Scenario.steps Scenario.store.

(** B ran for 60 microseconds; A, still running, has duration zero. *)
Lemma duration_nonneg_and_zero_when_running_witness :
  (0 <= get_duration (Scenario.fresh Scenario.run_B))%Z /\
  get_duration (Scenario.fresh Scenario.run_A) = 0%Z.
Proof.
  split.
  - apply (proj1 (duration_nonneg_and_zero_when_running
                    (Scenario.listed Scenario.run_B))).
    + reflexivity.
    + intros stop Hstop. injection Hstop as <-. simpl. lia.
  - destruct (duration_nonneg_and_zero_when_running (Scenario.listed Scenario.run_A))
      as (_ & _ & Hrunning & _).
    exact (proj2 (Hrunning (Scenario.fresh Scenario.run_A) eq_refl eq_refl)).
Defined.

(** An ingestion record after all four enrichment calls has no children. *)
Lemma get_children_always_empty_witness :
  get_children
    (enrich_all [SetExecutionMetadata Scenario.run_i1; SetParent;
                 SetGranuleId; SetExtraMetadata]
       (Scenario.fresh Scenario.run_i1)) = [].
Proof.
  apply (get_children_always_empty (Scenario.listed Scenario.run_i1)).
  reflexivity.
Defined.

(** The stored paths "/data" (run B) and "data" (run C) give the same
    provider. *)
Lemma provider_uri_single_slash_witness :
  provider (fst (set_extra_metadata
                   (with_execution_metadata Scenario.run_B
                      (Scenario.fresh Scenario.run_B))))
    = "https://example.com/data" /\
  provider (fst (set_extra_metadata
                   (with_execution_metadata Scenario.run_C
                      (Scenario.fresh Scenario.run_C))))
    = "https://example.com/data".
Proof.
  split.
  - destruct (provider_uri_single_slash
                (with_execution_metadata Scenario.run_B (Scenario.fresh Scenario.run_B))
                Scenario.run_B
                (Scenario.render (Scenario.discover_input "MOD09GQ" "/data"))
                (Scenario.discover_input "MOD09GQ" "/data")
                (JStr "MOD09GQ") "https" "example.com" "/data")
      as (self' & Hset & _ & _ & _ & _ & Huri);
      [vm_compute; reflexivity ..|].
    rewrite Hset. apply Huri; auto.
  - destruct (provider_uri_single_slash
                (with_execution_metadata Scenario.run_C (Scenario.fresh Scenario.run_C))
                Scenario.run_C
                (Scenario.render (Scenario.discover_input "MYD13Q1" "data"))
                (Scenario.discover_input "MYD13Q1" "data")
                (JStr "MYD13Q1") "https" "example.com" "data")
      as (self' & Hset & _ & _ & _ & _ & Huri);
      [vm_compute; reflexivity ..|].
    rewrite Hset. apply Huri; auto.
Defined.

(** The run i1 was spawned by the discovery run B. *)
Lemma set_parent_from_input_payload_witness :
  let self := with_execution_metadata Scenario.run_i1 (Scenario.fresh Scenario.run_i1) in
  parent_execution_arn (fst (set_parent self))
    = Scenario.run_arn "DiscoverGranules" "B" /\
  parent_execution_arn (fst (set_parent self)) <> execution_arn self.
Proof.
  intros self.
  destruct (set_parent_from_input_payload self Scenario.run_i1
              (Scenario.render (Scenario.ingest_input "DiscoverGranules" "B"))
              (Scenario.ingest_input "DiscoverGranules" "B")
              (JDict [("source", JStr (Scenario.machine_arn "DiscoverGranules"));
                      ("execution_name", JStr "B")])
              (Scenario.machine_arn "DiscoverGranules") "B")
    as (Hset & _ & Hother & _); [vm_compute; reflexivity ..|].
  split.
  - rewrite Hset. vm_compute. reflexivity.
  - apply Hother. vm_compute. reflexivity.
Defined.

(** C4 fails as stated: the input of the run i9 names the ingestion
    machine and the run i9, and the parent reference derived from it is
    the reference of the record itself. *)
Lemma set_parent_can_name_the_record_itself :
  exists r,
    build_ingest (Scenario.listed Scenario.run_i9) = Ok r /\
    execution_arn r = Scenario.run_arn "IngestGranule" "i9" /\
    parent_execution_arn r = execution_arn r.
Proof.
  eexists. split; [vm_compute; reflexivity|]. split; reflexivity.
Qed.

(** The run i2 failed: its record keeps the default identifier. *)
Lemma set_granule_id_guarded_by_description_status_witness :
  let self := with_execution_metadata Scenario.run_i2 (Scenario.fresh Scenario.run_i2) in
  set_granule_id self = (self, Ok tt) /\
  granule_id (fst (set_granule_id self)) = JStr "N/A".
Proof.
  intros self.
  destruct (set_granule_id_guarded_by_description_status (Scenario.fresh Scenario.run_i2))
    as (_ & _ & Hfresh & _).
  split.
  - apply (proj1 (proj2 (set_granule_id_guarded_by_description_status self))
             Scenario.run_i2); [reflexivity | discriminate].
  - apply (Hfresh (Scenario.listed Scenario.run_i2) Scenario.run_i2);
      [reflexivity | discriminate].
Defined.

(** C5 fails as stated: the run i4 is listed as RUNNING and described,
    a moment later, as SUCCEEDED; the record keeps the status RUNNING and
    receives the granule identifier. *)
Lemma granule_id_set_on_a_running_record :
  let self := with_execution_metadata Scenario.run_i4_done (Scenario.fresh Scenario.run_i4) in
  status self = "RUNNING" /\
  status self <> "SUCCEEDED" /\
  set_granule_id self = (with_granule_id (JStr "granule-1") self, Ok tt) /\
  granule_id (fst (set_granule_id self)) <> JStr "N/A".
Proof.
  intros self. split; [reflexivity|]. split; [discriminate|].
  assert (Hset : set_granule_id self = (with_granule_id (JStr "granule-1") self, Ok tt))
    by (vm_compute; reflexivity).
  split; [exact Hset|]. rewrite Hset. discriminate.
Qed.

Lemma scenario_listing :
  build_discover_ingest_objects
    (Scenario.machine_arn "DiscoverGranules") (Scenario.machine_arn "IngestGranule")
    10 10 = Ok (Scenario.discover_list, Scenario.ingest_list).
Proof. vm_compute. reflexivity. Qed.

Lemma scenario_tree :
  build_relation_tree Scenario.discover_list Scenario.ingest_list = Ok Scenario.tree.
Proof. vm_compute. reflexivity. Qed.

Lemma scenario_attachable : Forall attachable Scenario.ingest_list.
Proof.
  repeat constructor; unfold attachable; do 4 eexists;
    (split; [|split; [|split]]); vm_compute; reflexivity.
Qed.

Lemma scenario_backfilled : append_metadata Scenario.tree = Ok Scenario.backfilled.
Proof. vm_compute. reflexivity. Qed.

(** The discovery run A, which spawned nothing, is one root of the tree
    and has no children. *)
Lemma every_discovery_record_is_one_root_witness :
  count_occ string_dec (keys Scenario.tree)
    (Scenario.run_arn "DiscoverGranules" "A") = 1%nat /\
  children_of (Scenario.run_arn "DiscoverGranules" "A") Scenario.tree = [] /\
  exists relation_map,
    build_relation_tree Scenario.discover_list Scenario.ingest_list = Ok relation_map.
Proof.
  destruct (every_discovery_record_is_one_root
              Scenario.discover_list Scenario.ingest_list) as [Hreturns Hroots].
  destruct (Hroots Scenario.tree scenario_tree (hd Scenario.blank Scenario.discover_list))
    as (Hcount & root & Hget & _ & Hnone).
  - left. reflexivity.
  - split; [exact Hcount|]. split.
    + change (Scenario.run_arn "DiscoverGranules" "A")
        with (execution_arn (hd Scenario.blank Scenario.discover_list)).
      rewrite (children_of_get _ _ _ Hget). apply Hnone. reflexivity.
    + apply Hreturns. exact scenario_attachable.
Defined.

(** The ingestion runs i3 and i4 name the unlisted discovery run C: the
    tree has one root for C, with both as children. *)
Lemma shared_unlisted_parent_is_one_root_witness :
  count_occ string_dec (keys Scenario.tree)
    (Scenario.run_arn "DiscoverGranules" "C") = 1%nat /\
  map fst (children_of (Scenario.run_arn "DiscoverGranules" "C") Scenario.tree)
    = [Scenario.run_arn "IngestGranule" "i3"; Scenario.run_arn "IngestGranule" "i4"] /\
  exists relation_map,
    build_relation_tree Scenario.discover_list Scenario.ingest_list = Ok relation_map.
Proof.
  destruct (shared_unlisted_parent_is_one_root
              Scenario.discover_list Scenario.ingest_list
              (Scenario.run_arn "DiscoverGranules" "C")) as [Hreturns Hforest].
  destruct (Hforest Scenario.tree scenario_tree) as (Hshared & _).
  destruct Hshared as (Hcount & root & Hget & _ & Hchildren & _).
  - vm_compute. intuition discriminate.
  - vm_compute. lia.
  - split; [exact Hcount|]. split.
    + rewrite (children_of_get _ _ _ Hget), Hchildren. vm_compute. reflexivity.
    + apply Hreturns. exact scenario_attachable.
Defined.

Lemma scenario_tree_keys : NoDup (keys Scenario.tree).
Proof. exact (proj1 (build_relation_tree_spec _ _ _ scenario_tree)). Qed.



(** The root of the run A, still running, after the pass; and the same
    root under the key Y, whose history cannot be fetched. *)
Lemma running_root_skips_history_witness :
  let A := Scenario.run_arn "DiscoverGranules" "A" in
  let Y := Scenario.run_arn "DiscoverGranules" "Y" in
  backfill [] (Scenario.root_at A Scenario.tree)
    = Ok (set_info "queued_granules_count" (JStr "N/A") (Scenario.root_at A Scenario.tree)) /\
  dict_get A Scenario.backfilled
    = Some (set_info "queued_granules_count" (JStr "N/A") (Scenario.root_at A Scenario.tree)) /\
  dict_get "fail" (node_info (Scenario.root_at A Scenario.backfilled)) = None /\
  backfill_at Y Cases.lost_history_tree = Raise (ClientError "ExecutionDoesNotExist").
Proof.
  intros A Y.
  destruct (running_root_skips_history Scenario.tree A (Scenario.root_at A Scenario.tree))
    as (Hbody & _ & Hfail & _ & _ & Hpass & _);
    [vm_compute; reflexivity | vm_compute; reflexivity |].
  destruct (running_root_skips_history Cases.lost_history_tree Y
              (Scenario.root_at A Scenario.tree))
    as (_ & _ & _ & _ & _ & _ & HraiseY);
    [vm_compute; reflexivity | vm_compute; reflexivity |].
  split; [apply Hbody|].
  pose proof (Hpass scenario_tree_keys Scenario.backfilled scenario_backfilled) as Hget.
  split; [exact Hget|].
  split; [unfold Scenario.root_at at 1; rewrite Hget, Hfail; vm_compute; reflexivity|].
  apply (HraiseY (ClientError "ExecutionDoesNotExist")). vm_compute. reflexivity.
Defined.

(** C6 fails as stated: the root under the key Y is RUNNING and the
    service has no history for Y; the lookup is made all the same, and
    [append_metadata] ends with its error: Y has received no count, and
    neither has D, after it. *)
Lemma running_root_needs_its_history :
  let Y := Scenario.run_arn "DiscoverGranules" "Y" in
  let D := Scenario.run_arn "DiscoverGranules" "D" in
  let left := fst (append_metadata_run Cases.lost_history_tree) in
  dict_get "status" (node_info (Scenario.root_at Y Cases.lost_history_tree))
    = Some (JStr "RUNNING") /\
  get_execution_history Y = Raise (ClientError "ExecutionDoesNotExist") /\
  append_metadata Cases.lost_history_tree = Raise (ClientError "ExecutionDoesNotExist") /\
  (forall source', append_metadata Cases.lost_history_tree <> Ok source') /\
  dict_get "queued_granules_count" (node_info (Scenario.root_at Y left)) = None /\
  dict_get "queued_granules_count" (node_info (Scenario.root_at D left)) = None.
Proof.
  intros Y D left.
  assert (Hraise : append_metadata Cases.lost_history_tree
                   = Raise (ClientError "ExecutionDoesNotExist"))
    by (vm_compute; reflexivity).
  split; [vm_compute; reflexivity|]. split; [vm_compute; reflexivity|].
  split; [exact Hraise|].
  split; [intros source'; rewrite Hraise; discriminate|].
  split; vm_compute; reflexivity.
Qed.

Lemma scenario_short_history_keys :
  keys Scenario.short_history_tree =
  ([Scenario.run_arn "DiscoverGranules" "B"]
     ++ Scenario.run_arn "DiscoverGranules" "X"
     :: [Scenario.run_arn "DiscoverGranules" "D"])%list.
Proof. vm_compute. reflexivity. Qed.

(** The history of X has three events: the pass over B, X, D ends at X
    with [IndexError]; B has been backfilled, X and D are as they were. *)
Lemma malformed_history_aborts_pass_witness :
  let B := Scenario.run_arn "DiscoverGranules" "B" in
  let X := Scenario.run_arn "DiscoverGranules" "X" in
  let D := Scenario.run_arn "DiscoverGranules" "D" in
  exists source',
    append_metadata_run Scenario.short_history_tree = (source', Raise IndexError) /\
    append_metadata Scenario.short_history_tree = Raise IndexError /\
    dict_get X source' = dict_get X Scenario.short_history_tree /\
    dict_get D source' = dict_get D Scenario.short_history_tree /\
    dict_get B source' <> dict_get B Scenario.short_history_tree.
Proof.
  intros B X D.
  destruct (malformed_history_aborts_pass Scenario.short_history_tree X
              (Scenario.root_at X Scenario.short_history_tree) (JStr "FAILED")
              [Scenario.filler; Scenario.filler; Scenario.failed "timed out"])
    as (Hshort & _ & _ & _ & Hpass & _);
    [vm_compute; reflexivity | vm_compute; reflexivity | discriminate
    | vm_compute; reflexivity |].
  destruct (Hpass IndexError [B] [D] (Hshort eq_refl)) as (source' & Hrun & Hraise & HX & HD & HB).
  - rewrite scenario_short_history_keys. repeat constructor; simpl; intuition discriminate.
  - exact scenario_short_history_keys.
  - intros k [<-|[]].
    exists (Scenario.root_at B Scenario.short_history_tree),
           (set_info "queued_granules_count" (JInt 7)
              (Scenario.root_at B Scenario.short_history_tree)).
    split; [vm_compute; reflexivity|].
    exists [Scenario.filler; Scenario.filler; Scenario.filler; Scenario.filler;
            Scenario.succeeded Scenario.output_inline].
    split; vm_compute; reflexivity.
  - exists source'. split; [exact Hrun|]. split; [exact Hraise|].
    split; [rewrite HX; vm_compute; reflexivity|].
    split; [apply HD; now left|].
    destruct (HB B (or_introl eq_refl)) as (r & r' & Hr & (events & Hevents & Hbody) & Hr').
    rewrite Hr', Hr. intros Heq. injection Heq as Heq. subst r'.
    assert (Hev : events = [Scenario.filler; Scenario.filler; Scenario.filler;
                            Scenario.filler; Scenario.succeeded Scenario.output_inline]).
    { vm_compute in Hevents. now injection Hevents. }
    assert (Hroot : r = Scenario.root_at B Scenario.short_history_tree).
    { vm_compute in Hr. injection Hr as <-. vm_compute. reflexivity. }
    subst events r. vm_compute in Hbody. discriminate Hbody.
Defined.

(** C3 fails as stated: on the forest B, X, D, where the history of X
    has three events, [append_metadata] raises [IndexError]; the info of
    X has received no [fail] field, and D, after X, no count. *)
Lemma short_history_aborts_backfill :
  let X := Scenario.run_arn "DiscoverGranules" "X" in
  let D := Scenario.run_arn "DiscoverGranules" "D" in
  let left := fst (append_metadata_run Scenario.short_history_tree) in
  get_execution_history X
    = Ok [Scenario.filler; Scenario.filler; Scenario.failed "timed out"] /\
  append_metadata Scenario.short_history_tree = Raise IndexError /\
  (forall source', append_metadata Scenario.short_history_tree <> Ok source') /\
  dict_get "fail" (node_info (Scenario.root_at X left)) = None /\
  dict_get "queued_granules_count" (node_info (Scenario.root_at D left)) = None.
Proof.
  intros X D left.
  assert (Hraise : append_metadata Scenario.short_history_tree = Raise IndexError)
    by (vm_compute; reflexivity).
  split; [vm_compute; reflexivity|]. split; [exact Hraise|].
  split; [intros source'; rewrite Hraise; discriminate|].
  split; vm_compute; reflexivity.
Qed.

(** * The further properties on the concrete run *)

Lemma dict_get_Forall {V : Type} (P : V -> Prop) (d : pydict V) (k : string) (v : V) :
  Forall (fun kv => P (snd kv)) d -> dict_get k d = Some v -> P v.
Proof.
  induction 1 as [|[k' v'] d Hv _ IH]; simpl; [discriminate|].
  destruct (String.eqb k k'); [|exact IH]. intros Hg. now injection Hg as <-.
Qed.

(** The input of the run P names a collection and no provider. *)
Lemma enrichment_on_error_witness :
  let self := with_execution_metadata Cases.run_P (Scenario.fresh Cases.run_P) in
  @set_extra_metadata Cases.lib self = (with_collection (JStr "MOD09GQ") self, Raise KeyError) /\
  provider (fst (@set_extra_metadata Cases.lib self)) = "N/A".
Proof.
  intros self.
  destruct (@enrichment_on_error Cases.lib self Cases.run_P
              (Scenario.render Cases.input_without_provider)
              Cases.input_without_provider (JStr "MOD09GQ") KeyError)
    as (_ & _ & Hpartial).
  destruct Hpartial as (Hset & _ & Hprovider); [vm_compute; reflexivity ..|].
  split; [exact Hset | exact Hprovider].
Defined.

(** The run i1 succeeded and its output names the granule. *)
Lemma set_granule_id_on_succeeded_witness :
  let self := with_execution_metadata Scenario.run_i1 (Scenario.fresh Scenario.run_i1) in
  set_granule_id self = (with_granule_id (JStr "granule-1") self, Ok tt).
Proof.
  intros self.
  destruct (set_granule_id_on_succeeded self Scenario.run_i1)
    as (_ & _ & Hset & _); [reflexivity | reflexivity |].
  apply (Hset (Scenario.render (Scenario.ingest_output "granule-1"))
              (Scenario.ingest_output "granule-1")); vm_compute; reflexivity.
Defined.

(** The roots of the scenario: A, B, D, E as listed, then C. *)
Lemma roots_in_order_of_first_occurrence_witness :
  keys Scenario.tree =
  [ Scenario.run_arn "DiscoverGranules" "A"; Scenario.run_arn "DiscoverGranules" "B";
    Scenario.run_arn "DiscoverGranules" "D"; Scenario.run_arn "DiscoverGranules" "E";
    Scenario.run_arn "DiscoverGranules" "C" ].
Proof.
  rewrite (roots_in_order_of_first_occurrence _ _ _ scenario_tree).
  vm_compute. reflexivity.
Defined.

Lemma scenario_discover_refs : NoDup (map execution_arn Scenario.discover_list).
Proof.
  vm_compute. repeat constructor; simpl; intuition discriminate.
Qed.

(** The root of B carries the info of the record of B. *)
Lemma root_info_is_a_record_info_witness :
  let B := Scenario.run_arn "DiscoverGranules" "B" in
  node_info (Scenario.root_at B Scenario.tree)
    = info (nth 1 Scenario.discover_list Scenario.blank) /\
  dict_get "queued_granules_count" (node_info (Scenario.root_at B Scenario.tree)) = None.
Proof.
  intros B.
  destruct (root_info_is_a_record_info Scenario.discover_list Scenario.ingest_list
              Scenario.tree B (Scenario.root_at B Scenario.tree) scenario_tree)
    as (_ & Hsame & _ & Hcount & _); [vm_compute; reflexivity|].
  split; [|exact Hcount].
  apply (Hsame scenario_discover_refs); [right; left; reflexivity | reflexivity].
Defined.

(** The first child of B names B as its parent, and shows the status of
    the ingestion record it was made of. *)
Lemma child_entries_name_their_root_witness :
  let B := Scenario.run_arn "DiscoverGranules" "B" in
  Forall2 (entry_of B) (spawned_by B Scenario.ingest_list)
    (child (Scenario.root_at B Scenario.tree)) /\
  dict_get "parent" (snd (Cases.first_child B Scenario.tree)) = Some (JStr B) /\
  exists b,
    In b Scenario.ingest_list /\
    fst (Cases.first_child B Scenario.tree) = execution_arn b /\
    dict_get "status" (snd (Cases.first_child B Scenario.tree)) = Some (JStr (status b)) /\
    dict_get "granuleId" (snd (Cases.first_child B Scenario.tree)) = Some (granule_id b).
Proof.
  intros B.
  destruct (child_entries_name_their_root Scenario.discover_list Scenario.ingest_list
              Scenario.tree B (Scenario.root_at B Scenario.tree) scenario_tree)
    as (Hall & Hfields); [vm_compute; reflexivity|].
  destruct (Hfields (fst (Cases.first_child B Scenario.tree))
                    (snd (Cases.first_child B Scenario.tree)))
    as (b & Hb & _ & _ & Hc & Hstatus & _ & _ & Hparent & Hgranule & _);
    [left; vm_compute; reflexivity|].
  split; [exact Hall|]. split; [exact Hparent|].
  exists b. auto.
Defined.

(** After i1, a record whose parent Z the service does not know: no
    forest. *)
Lemma first_unattachable_record_aborts_build_witness :
  build_relation_tree Scenario.discover_list
    ([Cases.first_ingest] ++ Cases.orphan :: Scenario.ingest_list)
  = Raise (ClientError "ExecutionDoesNotExist").
Proof.
  apply first_unattachable_record_aborts_build.
  - pose proof scenario_attachable as Hall.
    inversion Hall as [|b bs Hb _ Heq]. constructor; [exact Hb | constructor].
  - left. vm_compute. reflexivity.
Defined.

(** The two lists of the scenario. *)
Lemma listing_yields_one_record_per_entry_witness :
  map execution_arn Scenario.ingest_list =
    [ Scenario.run_arn "IngestGranule" "i1"; Scenario.run_arn "IngestGranule" "i2";
      Scenario.run_arn "IngestGranule" "i3"; Scenario.run_arn "IngestGranule" "i4" ] /\
  Forall (fun r => collection r = JStr "N/A" /\ provider r = "N/A") Scenario.ingest_list /\
  Forall (fun r => parent_execution_arn r = "N/A" /\ granule_id r = JStr "N/A")
    Scenario.discover_list.
Proof.
  destruct (listing_yields_one_record_per_entry
              (Scenario.machine_arn "DiscoverGranules") (Scenario.machine_arn "IngestGranule")
              10 10
              (map Scenario.listed [Scenario.run_A; Scenario.run_B; Scenario.run_D; Scenario.run_E])
              (map Scenario.listed [Scenario.run_i1; Scenario.run_i2; Scenario.run_i3; Scenario.run_i4])
              Scenario.discover_list Scenario.ingest_list)
    as (_ & _ & Hrefs & _ & Hdiscover & Hingest);
    [vm_compute; reflexivity | vm_compute; reflexivity | exact scenario_listing |].
  split; [rewrite Hrefs; vm_compute; reflexivity|]. split; assumption.
Defined.

(** An unknown discovery machine; an execution that cannot be
    described. *)
Lemma first_failure_aborts_listing_witness :
  build_discover_ingest_objects "nowhere" (Scenario.machine_arn "IngestGranule") 10 10
    = Raise (ClientError "StateMachineDoesNotExist") /\
  build_discover (Scenario.listed Cases.run_Q) = Raise (ClientError "ExecutionDoesNotExist").
Proof.
  split.
  - apply (proj1 (first_failure_aborts_listing "nowhere"
                    (Scenario.machine_arn "IngestGranule") 10 10
                    (ClientError "StateMachineDoesNotExist"))).
    vm_compute. reflexivity.
  - destruct (first_failure_aborts_listing "nowhere"
                (Scenario.machine_arn "IngestGranule") 10 10
                (ClientError "ExecutionDoesNotExist")) as (_ & _ & _ & _ & Hdescribe).
    apply (Hdescribe (Scenario.listed Cases.run_Q) (Scenario.fresh Cases.run_Q));
      vm_compute; reflexivity.
Defined.

(** The first child of C shows the collection and provider of C. *)
Lemma children_carry_the_metadata_of_their_root_witness :
  let C := Scenario.run_arn "DiscoverGranules" "C" in
  dict_get "collection" (snd (Cases.first_child C Scenario.tree))
    = dict_get "collection" (node_info (Scenario.root_at C Scenario.tree)) /\
  dict_get "provider" (snd (Cases.first_child C Scenario.tree))
    = dict_get "provider" (node_info (Scenario.root_at C Scenario.tree)).
Proof.
  intros C.
  apply (children_carry_the_metadata_of_their_root
           (Scenario.machine_arn "DiscoverGranules") (Scenario.machine_arn "IngestGranule")
           10 10 Scenario.discover_list Scenario.ingest_list Scenario.tree C
           (Scenario.root_at C Scenario.tree)
           (fst (Cases.first_child C Scenario.tree))
           (snd (Cases.first_child C Scenario.tree))).
  - exact scenario_listing.
  - exact scenario_tree.
  - vm_compute. reflexivity.
  - left. vm_compute. reflexivity.
Defined.

(** The root of B keeps its children and its status; the root of C,
    whose lambda failed, has the cause of event 4 as [fail]. *)
Lemma backfill_changes_only_count_and_fail_witness :
  let B := Scenario.run_arn "DiscoverGranules" "B" in
  let C := Scenario.run_arn "DiscoverGranules" "C" in
  keys Scenario.backfilled = keys Scenario.tree /\
  child (Scenario.root_at B Scenario.backfilled) = child (Scenario.root_at B Scenario.tree) /\
  dict_get "status" (node_info (Scenario.root_at B Scenario.backfilled))
    = dict_get "status" (node_info (Scenario.root_at B Scenario.tree)) /\
  dict_get "fail" (node_info (Scenario.root_at C Scenario.backfilled))
    = Some (JStr "no files found").
Proof.
  intros B C.
  destruct (backfill_changes_only_count_and_fail Scenario.tree Scenario.backfilled
              scenario_tree_keys scenario_backfilled) as (Hkeys & Hroots).
  destruct (Hroots B (Scenario.root_at B Scenario.tree)) as (root' & Hg & Hchild & _ & Hother & _);
    [vm_compute; reflexivity|].
  destruct (Hroots C (Scenario.root_at C Scenario.tree))
    as (rootC & HgC & _ & _ & _ & st & events & Hst & Hh & Hcases);
    [vm_compute; reflexivity|].
  split; [exact Hkeys|].
  unfold Scenario.root_at at 1 3 5. rewrite Hg, HgC.
  split; [exact Hchild|]. split; [apply Hother; discriminate|].
  assert (Hevents : events = [Scenario.filler; Scenario.filler; Scenario.filler;
                              Scenario.filler; Scenario.failed "no files found";
                              Scenario.filler]).
  { vm_compute in Hh. now injection Hh. }
  subst events.
  destruct Hcases as [(_ & [->|(ev & Hev & Htype)])|
                      (_ & ev & details & cause & Hev & _ & Hdetails & Hcause & Hfail & _)].
  - vm_compute in Hst. discriminate Hst.
  - cbn [nth_error] in Hev. injection Hev as <-. discriminate Htype.
  - cbn [nth_error] in Hev. injection Hev as <-.
    cbn [Scenario.failed lambdaFunctionFailedEventDetails] in Hdetails.
    injection Hdetails as <-. cbn [fd_cause] in Hcause. injection Hcause as <-.
    exact Hfail.
Defined.

(** The pass over the backfilled forest of the scenario. *)
Lemma backfill_is_idempotent_witness :
  append_metadata Scenario.backfilled = Ok Scenario.backfilled.
Proof.
  exact (backfill_is_idempotent Scenario.tree Scenario.backfilled
           scenario_tree_keys scenario_backfilled).
Defined.

(** The history of Y cannot be fetched: the pass ends there although the
    root is RUNNING, and neither Y nor D receives a count. *)
Lemma history_lookup_failure_aborts_pass_witness :
  let Y := Scenario.run_arn "DiscoverGranules" "Y" in
  let D := Scenario.run_arn "DiscoverGranules" "D" in
  dict_get "status" (node_info (Scenario.root_at Y Cases.lost_history_tree))
    = Some (JStr "RUNNING") /\
  append_metadata Cases.lost_history_tree = Raise (ClientError "ExecutionDoesNotExist") /\
  dict_get Y (fst (append_metadata_run Cases.lost_history_tree))
    = dict_get Y Cases.lost_history_tree /\
  dict_get D (fst (append_metadata_run Cases.lost_history_tree))
    = dict_get D Cases.lost_history_tree.
Proof.
  intros Y D.
  destruct (history_lookup_failure_aborts_pass Cases.lost_history_tree Y
              [Scenario.run_arn "DiscoverGranules" "B"] [D]
              (ClientError "ExecutionDoesNotExist"))
    as (Hraise & HY & Hafter).
  - vm_compute. repeat constructor; simpl; intuition discriminate.
  - vm_compute. reflexivity.
  - intros k [<-|[]].
    exists (Scenario.root_at (Scenario.run_arn "DiscoverGranules" "B") Scenario.tree),
           (set_info "queued_granules_count" (JInt 7)
              (Scenario.root_at (Scenario.run_arn "DiscoverGranules" "B") Scenario.tree)).
    split; [vm_compute; reflexivity|].
    exists [Scenario.filler; Scenario.filler; Scenario.filler; Scenario.filler;
            Scenario.succeeded Scenario.output_inline].
    split; vm_compute; reflexivity.
  - vm_compute. reflexivity.
  - split; [vm_compute; reflexivity|]. split; [exact Hraise|].
    split; [exact HY | apply Hafter; now left].
Defined.


Lemma encodable_info_check (repr_other : json -> string) (encodable : string -> bool)
    (info : pydict json) :
  forallb (fun kv => encodable (py_str repr_other (snd kv))) info = true ->
  encodable_info repr_other encodable info.
Proof.
  intros Hall k v Hk. rewrite forallb_forall in Hall.
  apply (Hall (k, v)). clear Hall.
  induction info as [|[k' v'] info IH]; simpl in Hk; [discriminate|].
  destruct (String.eqb_spec k k') as [->|Hne].
  - injection Hk as ->. now left.
  - right. now apply IH.
Qed.

(** In a locale that has ASCII only, the root of B in the backfilled
    forest can be printed; with an accented collection name for D, after
    B, the report ends at D with [UnicodeEncodeError]. *)
Lemma report_completes_iff_printable_witness :
  let B := Scenario.run_arn "DiscoverGranules" "B" in
  let D := Scenario.run_arn "DiscoverGranules" "D" in
  printable_root true true Cases.repr_other Cases.ascii_only
    (Scenario.root_at B Scenario.backfilled) /\
  snd (generate_report true true Cases.repr_other Cases.ascii_only Cases.accented_forest)
    = Raise UnicodeEncodeError.
Proof.
  intros B D.
  destruct (report_completes_iff_printable true true Cases.repr_other Cases.ascii_only
              Scenario.backfilled) as (Hiff & _).
  destruct (report_completes_iff_printable true true Cases.repr_other Cases.ascii_only
              Cases.accented_forest) as (_ & _ & Hfirst).
  assert (HB : printable_root true true Cases.repr_other Cases.ascii_only
                 (Scenario.root_at B Scenario.backfilled)).
  { apply (proj1 Hiff) with (d := B); vm_compute; reflexivity. }
  split; [exact HB|].
  destruct (Hfirst [B] [] D (Scenario.root_at D Cases.accented_forest))
    as (e & Hraise & _).
  - vm_compute. reflexivity.
  - intros k r [<-|[]] Hg.
    assert (Hr : r = Scenario.root_at B Scenario.backfilled).
    { vm_compute in Hg. injection Hg as <-. vm_compute. reflexivity. }
    rewrite Hr. exact HB.
  - vm_compute. reflexivity.
  - intros (_ & _ & _ & _ & _ & _ & (c & Hc & He) & _).
    vm_compute in Hc. injection Hc as <-. vm_compute in He. discriminate He.
  - rewrite Hraise. f_equal.
    assert (Hrun : snd (generate_report true true Cases.repr_other Cases.ascii_only
                          Cases.accented_forest) = Raise UnicodeEncodeError)
      by (vm_compute; reflexivity).
    rewrite Hrun in Hraise. now injection Hraise.
Defined.


(** The report of the scenario after the backfill. *)
Lemma report_after_backfill_completes_witness :
  snd (generate_report true true Cases.repr_other Cases.ascii_only Scenario.backfilled)
    = Ok tt.
Proof.
  apply (report_after_backfill_completes true true Cases.repr_other Cases.ascii_only
           Scenario.discover_list Scenario.ingest_list Scenario.tree Scenario.backfilled
           scenario_tree scenario_backfilled).
  - intros d root. apply (dict_get_Forall (fun root => is_str (node_info root) "collection")).
    repeat constructor; eexists; vm_compute; reflexivity.
  - intros _ d root c i Hg. revert c i.
    apply (dict_get_Forall
             (fun root => forall c i, In (c, i) (child root) -> is_str i "granuleId")
             Scenario.tree d root); [|exact Hg].
    repeat constructor; cbn [snd child]; intros c i Hin; simpl in Hin;
      repeat (destruct Hin as [Hin|Hin]; [injection Hin as <- <-; eexists; reflexivity|]);
      contradiction.
  - vm_compute. reflexivity.
  - vm_compute. reflexivity.
  - intros d root.
    apply (dict_get_Forall
             (fun root =>
                encodable_info Cases.repr_other Cases.ascii_only (node_info root) /\
                (true = true -> forall c i, In (c, i) (child root) ->
                   encodable_info Cases.repr_other Cases.ascii_only i))).
    repeat constructor; cbn [snd child node_info];
      try (apply encodable_info_check; vm_compute; reflexivity);
      intros _ c i Hin; simpl in Hin;
      repeat (destruct Hin as [Hin|Hin];
              [injection Hin as <- <-; apply encodable_info_check; vm_compute; reflexivity|]);
      contradiction.
Defined.

(** The report of the scenario, block by block. *)
Lemma report_is_the_blocks_in_forest_order_witness :
  generate_report true true Cases.repr_other Cases.ascii_only Scenario.backfilled =
  (join (map (fun entry => root_block true true Cases.repr_other (snd entry))
           Scenario.backfilled),
   Ok tt).
Proof.
  apply report_is_the_blocks_in_forest_order.
  - vm_compute. repeat constructor; simpl; intuition discriminate.
  - apply report_ok_iff. vm_compute. reflexivity.
Defined.
